(** * RpcServer: the RPC gateway of the node (src/Rpc/RpcServer.cpp)

    A shallow embedding of the request dispatch, of the JSON-RPC
    sub-dispatcher and of the query handlers, and the properties of the
    gateway that follow from the code. *)

From stdpp Require Import gmap strings.
From Stdlib Require Import ZArith List Lia Bool.
From Stdlib.Strings Require Byte.
From Stdlib Require DecimalString.
Import ListNotations.
Local Open Scope Z_scope.

(** ** Machine integers *)

Definition wrap32 (z : Z) : Z := z mod 2 ^ 32.
Definition wrap64 (z : Z) : Z := z mod 2 ^ 64.

(** ** Bytes, hashes and keys *)

Abbreviation byte := Byte.byte.
Abbreviation BinaryArray := (list byte).

Fixpoint bytes_eqb (a b : list byte) : bool :=
  match a, b with
  | [], [] => true
  | x :: a', y :: b' => Byte.eqb x y && bytes_eqb a' b'
  | _, _ => false
  end.

(** [Crypto::Hash], [Crypto::PublicKey] and [Crypto::SecretKey] are plain
    arrays of 32 bytes. *)
Abbreviation Hash := (list byte).
Abbreviation PublicKey := (list byte).
Abbreviation SecretKey := (list byte).

Definition sizeof_Hash : Z := 32.
Definition sizeof_PublicKey : Z := 32.

Definition NULL_PUBLIC_KEY : PublicKey := repeat Byte.x00 32.

(** ** slow_memmem *)

Module Memmem.

(** [memchr (mem + from) c n]: the offset of the first byte equal to [c]
    among the [n] bytes that start at offset [from]. [mem] is the buffer
    followed by whatever bytes lie after it. *)
Fixpoint memchr (mem : list byte) (from : nat) (c : byte) (n : nat) : option nat :=
  match n with
  | O => None
  | S n' =>
      match nth_error mem from with
      | Some b => if Byte.eqb b c then Some from else memchr mem (S from) c n'
      | None => None
      end
  end.

(** [memcmp (mem + p) pat patlen == 0] *)
Definition memcmp_eq (mem : list byte) (p : nat) (pat : list byte) : bool :=
  bytes_eqb (firstn (length pat) (skipn p mem)) pat.

(** The [while] loop of [slow_memmem]; [buf] is the offset of the cursor
    from [start_buff]. [None] is an exhausted fuel. *)
Fixpoint slow_memmem_loop (fuel : nat) (mem : list byte) (buflen : nat)
    (pat : list byte) (buf : nat) : option Z :=
  match fuel with
  | O => None
  | S fuel' =>
      match memchr mem buf (nth 0 pat Byte.x00) buflen with
      | None => Some 0
      | Some p =>
          (* end = start_buff + buflen - patlen; if (buf > end) return 0; *)
          if Z.of_nat buflen - Z.of_nat (length pat) <? Z.of_nat p then Some 0
          else if memcmp_eq mem p pat then Some (wrap64 (Z.of_nat p))
          else slow_memmem_loop fuel' mem buflen pat (S p)
      end
  end.

(** [after] is the content of the memory that follows the buffer: the
    source passes the full [buflen] to every [memchr], so the search for
    the first byte can run past the end of the buffer. *)
Definition slow_memmem (fuel : nat) (after : list byte)
    (start_buff : list byte) (pat : list byte) : option Z :=
  slow_memmem_loop fuel (start_buff ++ after) (length start_buff) pat 0.

(** The pattern occurs in the buffer at offset [p]. *)
Definition occurs_at (blob pat : list byte) (p : nat) : Prop :=
  (p + length pat <= length blob)%nat /\ firstn (length pat) (skipn p blob) = pat.

Definition first_occurrence (blob pat : list byte) (p : nat) : Prop :=
  occurs_at blob pat p /\ forall q, (q < p)%nat -> ~ occurs_at blob pat q.

(** What the search answers: 0 when the pattern does not occur, else the
    offset of its first occurrence (as a [uint64_t]). *)
Definition search_result (blob pat : list byte) (r : Z) : Prop :=
  ((forall q, ~ occurs_at blob pat q) /\ r = 0) \/
  (exists p, first_occurrence blob pat p /\ r = wrap64 (Z.of_nat p)).

End Memmem.

(** ** Data model: transactions and blocks *)

Inductive TransactionInput :=
| BaseInput (blockIndex : Z)
| KeyInput (amount : Z) (outputIndexes : list Z) (keyImage : list byte)
| MultisignatureInput (amount : Z) (signatureCount : Z) (outputIndex : Z).

Inductive TransactionOutputTarget :=
| KeyOutput (key : PublicKey)
| MultisignatureOutput (keys : list PublicKey) (requiredSignatureCount : Z).

Record TransactionOutput := {
  amount : Z;
  target : TransactionOutputTarget
}.

Record Transaction := {
  inputs : list TransactionInput;
  outputs : list TransactionOutput;
  extra : list byte
}.

Record Block := {
  majorVersion : Z;
  minorVersion : Z;
  timestamp : Z;
  previousBlockHash : Hash;
  nonce : Z;
  baseTransaction : Transaction;
  transactionHashes : list Hash
}.

Record AccountPublicAddress := {
  spendPublicKey : PublicKey;
  viewPublicKey : PublicKey
}.

Record block_verification_context := {
  m_added_to_main_chain : bool;
  m_verification_failed : bool;
  m_marked_as_orphaned : bool;
  m_already_exists : bool;
  m_switched_to_alt_chain : bool
}.

(** ** JSON-RPC errors and handler outcomes *)

(** The codes of CoreRpcServerErrorCodes.h and of JsonRpc.h; the handlers
    only name them. *)
Inductive ErrorCode :=
| CORE_RPC_ERROR_CODE_WRONG_PARAM
| CORE_RPC_ERROR_CODE_TOO_BIG_HEIGHT
| CORE_RPC_ERROR_CODE_TOO_BIG_RESERVE_SIZE
| CORE_RPC_ERROR_CODE_WRONG_WALLET_ADDRESS
| CORE_RPC_ERROR_CODE_INTERNAL_ERROR
| CORE_RPC_ERROR_CODE_WRONG_BLOCKBLOB
| CORE_RPC_ERROR_CODE_BLOCK_NOT_ACCEPTED
| CORE_RPC_ERROR_CODE_CORE_BUSY
| errParseError
| errInvalidRequest
| errMethodNotFound
| errInvalidParams
| errInternalError.

Record JsonRpcError := {
  code : ErrorCode;
  message : string
}.

(** What a call of a JSON-RPC handler can do: return, raise a
    [JsonRpcError], or raise another [std::exception] whose [what()] is
    kept. *)
Inductive Outcome (A : Type) :=
| Ret (a : A)
| Throw (e : JsonRpcError)
| Fault (what : string).
Arguments Ret {A} a.
Arguments Throw {A} e.
Arguments Fault {A} what.

(** [Outcome] is a monad in stdpp's sense: the rest of a handler runs only
    when the call before it returned. *)
#[export] Instance Outcome_ret : MRet Outcome := fun A a => Ret a.
#[export] Instance Outcome_bind : MBind Outcome := fun A B k m =>
  match m with
  | Ret a => k a
  | Throw e => Throw e
  | Fault w => Fault w
  end.

(** [if (!cond) throw JsonRpcError{c, msg};] *)
Definition require (cond : bool) (c : ErrorCode) (msg : string) : Outcome unit :=
  if cond then Ret tt else Throw {| code := c; message := msg |}.

(** [if (!f(..., out)) throw JsonRpcError{c, msg};] for an [f] that returns
    its result through an out-parameter. *)
Definition require_some {A} (o : option A) (c : ErrorCode) (msg : string) : Outcome A :=
  match o with
  | Some a => Ret a
  | None => Throw {| code := c; message := msg |}
  end.

(** Modelled from the spec: the macro [CORE_RPC_STATUS_OK] of
    CoreRpcServerCommandsDefinitions.h, which is not part of the sources;
    the end-to-end example of the specification shows the status [OK]. *)
Definition CORE_RPC_STATUS_OK : string := "OK".

(** Modelled from the spec: the constant [TX_EXTRA_NONCE_MAX_COUNT] of
    TransactionExtra.h; the error message of [on_getblocktemplate] gives
    its value. *)
Definition TX_EXTRA_NONCE_MAX_COUNT : Z := 255.

(** ** The helper library

    Functions of Common, CryptoNoteCore and crypto that the handlers call
    and whose code is outside RpcServer.cpp. *)
Record Lib := {
  fromHex : string -> option BinaryArray;
  toHex : BinaryArray -> string;
  podToHex : list byte -> string;
  parse_hash256 : string -> option Hash;
  lexical_cast_uint32 : string -> option Z;
  to_string : Z -> string;
  toBinaryArray_Block : Block -> BinaryArray;
  toBinaryArray_Transaction : Transaction -> BinaryArray;
  cn_fast_hash : BinaryArray -> Hash;
  getTransactionPublicKeyFromExtra : list byte -> PublicKey;
  getPaymentIdFromTxExtra : list byte -> option Hash;
  get_block_hashing_blob : Block -> option BinaryArray;
  medianValue : list Z -> Z;
  (* crypto *)
  generate_key_derivation : PublicKey -> SecretKey -> option (list byte);
  derive_public_key : list byte -> Z -> PublicKey -> PublicKey;
  (* memory that follows a heap buffer with the given content *)
  memory_after : BinaryArray -> list byte
}.

(** ** The collaborators

    The storage engine ([m_core]), the network stack ([m_p2p]), the
    protocol query ([m_protocolQuery]), the constants of the currency and
    the configuration of the server, as one call of a handler sees them:
    each field answers the call of the same name. A call that reports
    through a [bool] and an out-parameter answers with an [option]. *)

Record CompleteBlock := {
  cb_getBlock : Block;
  cb_transactions : list Transaction
}.

Record Node := {
  (* m_core *)
  get_current_blockchain_height : Z;
  getBlockIdByHeight : Z -> Hash;
  getBlockByHash : Hash -> option Block;
  getBlockSize : Hash -> option Z;
  getBlockDifficulty : Z -> option Z;
  getMinimalFeeForHeight : Z -> Z;
  getTransactions : list Hash -> bool -> list Transaction * list Hash;
  getPoolTransactions : list Transaction;
  getBlockContainingTx : Hash -> option (Hash * Z);
  getBackwardBlocksSizes : Z -> Z -> option (list Z);
  getAlreadyGeneratedCoins : Hash -> option Z;
  getGeneratedTransactionsNumber : Z -> option Z;
  getBlockReward : Z -> Z -> Z -> Z -> Z -> option (Z * Z);
  get_block_template : AccountPublicAddress -> BinaryArray -> option (Block * Z * Z);
  handle_incoming_block_blob : BinaryArray -> block_verification_context;
  findBlockchainSupplement : list Hash -> Z -> list Hash * Z * Z;
  have_block : Hash -> bool;
  getBlock : Hash -> option CompleteBlock;
  miner_start : AccountPublicAddress -> Z -> bool;
  miner_stop : bool;
  (* m_core.currency() *)
  isTestnet : bool;
  parseAccountAddressString : string -> option AccountPublicAddress;
  (* m_p2p and m_protocolQuery *)
  isSynchronized : bool;
  getObservedHeight : Z;
  (* constants *)
  MINIMUM_FEE : Z;
  CRYPTONOTE_REWARD_BLOCKS_WINDOW : Z;
  CRYPTONOTE_BLOCK_GRANTED_FULL_REWARD_ZONE : Z;
  COMMAND_RPC_GET_BLOCKS_FAST_MAX_COUNT : Z;
  (* configuration of the server *)
  m_restricted_rpc : bool;
  m_cors_domain : string;
  (* the value an uninitialised local holds *)
  indeterminate : Z
}.

(** ** Mining template: getblocktemplate and submitblock *)

Module COMMAND_RPC_GETBLOCKTEMPLATE.
Record request := {
  reserve_size : Z;
  wallet_address : string
}.
Record response := {
  difficulty : Z;
  height : Z;
  reserved_offset : Z;
  blocktemplate_blob : string;
  blockhashing_blob : string;
  status : string
}.
End COMMAND_RPC_GETBLOCKTEMPLATE.

Section GetBlockTemplate.
Import COMMAND_RPC_GETBLOCKTEMPLATE.
Variable L : Lib.
Variable N : Node.

Definition template_failed : JsonRpcError :=
  {| code := CORE_RPC_ERROR_CODE_INTERNAL_ERROR;
     message := "Internal error: failed to create block template" |}.

(** The steps of [on_getblocktemplate] up to the serialized candidate
    block and the transaction public key of its coinbase. *)
Definition getblocktemplate_candidate (req : request)
    : Outcome (Block * Z * Z * BinaryArray * PublicKey) :=
  _ ← require (negb (TX_EXTRA_NONCE_MAX_COUNT <? reserve_size req))
        CORE_RPC_ERROR_CODE_TOO_BIG_RESERVE_SIZE "To big reserved size, maximum 255";
  acc ← require_some
        (if (String.length (wallet_address req) =? 0)%nat then None
         else parseAccountAddressString N (wallet_address req))
        CORE_RPC_ERROR_CODE_WRONG_WALLET_ADDRESS "Failed to parse wallet address";
  let blob_reserve := repeat Byte.x00 (Z.to_nat (reserve_size req)) in
  '(b, diffic, h) ← require_some (get_block_template N acc blob_reserve)
        CORE_RPC_ERROR_CODE_INTERNAL_ERROR "Internal error: failed to create block template";
  let block_blob := toBinaryArray_Block L b in
  let tx_pub_key := getTransactionPublicKeyFromExtra L (extra (baseTransaction b)) in
  _ ← require (negb (bytes_eqb tx_pub_key NULL_PUBLIC_KEY))
        CORE_RPC_ERROR_CODE_INTERNAL_ERROR
        "Internal error: failed to find tx pub key in coinbase extra";
  mret (b, diffic, h, block_blob, tx_pub_key).

(** The branch [if (0 < req.reserve_size) ... else ...]; [None] when the
    fuel of the search is exhausted. *)
Definition getblocktemplate_reserved_offset (fuel : nat) (reserve : Z)
    (block_blob : BinaryArray) (tx_pub_key : PublicKey) : option (Outcome Z) :=
  if 0 <? reserve then
    match Memmem.slow_memmem fuel (memory_after L block_blob) block_blob tx_pub_key with
    | None => None
    | Some found =>
        Some (
          if found =? 0 then Throw template_failed
          else
            let off := wrap64 (found + sizeof_PublicKey + 3) in
            if Z.of_nat (length block_blob) <? wrap64 (off + reserve)
            then Throw template_failed
            else Ret off)
    end
  else Some (Ret 0).

Definition on_getblocktemplate (fuel : nat) (req : request)
    : option (Outcome (bool * response)) :=
  match getblocktemplate_candidate req with
  | Ret (b, diffic, h, block_blob, tx_pub_key) =>
      match getblocktemplate_reserved_offset fuel (reserve_size req) block_blob tx_pub_key with
      | None => None
      | Some o =>
          Some (
            off ← o;
            hashing_blob ← require_some (get_block_hashing_blob L b)
              CORE_RPC_ERROR_CODE_INTERNAL_ERROR
              "Internal error: failed to get blockhashing_blob";
            mret (true,
                  {| difficulty := diffic;
                     height := h;
                     reserved_offset := off;
                     blocktemplate_blob := toHex L block_blob;
                     blockhashing_blob := toHex L hashing_blob;
                     status := CORE_RPC_STATUS_OK |}))
      end
  | Throw e => Some (Throw e)
  | Fault w => Some (Fault w)
  end.

End GetBlockTemplate.

Module COMMAND_RPC_SUBMITBLOCK.
Record response := {
  status : string
}.
End COMMAND_RPC_SUBMITBLOCK.

Section SubmitBlock.
Import COMMAND_RPC_SUBMITBLOCK.
Variable L : Lib.
Variable N : Node.

(** The request is the JSON array of the parameters. *)
Definition on_submitblock (req : list string) : Outcome (bool * response) :=
  match req with
  | [blob_hex] =>
      blockblob ← require_some (fromHex L blob_hex)
        CORE_RPC_ERROR_CODE_WRONG_BLOCKBLOB "Wrong block blob";
      let bvc := handle_incoming_block_blob N blockblob in
      _ ← require (m_added_to_main_chain bvc)
        CORE_RPC_ERROR_CODE_BLOCK_NOT_ACCEPTED "Block not accepted";
      mret (true, {| status := CORE_RPC_STATUS_OK |})
  | _ => Throw {| code := CORE_RPC_ERROR_CODE_WRONG_PARAM; message := "Wrong param" |}
  end.

End SubmitBlock.

(** ** Calls into the collaborators, recorded

    The handlers of the flat HTTP surface run in a monad that records
    every call they make into the engine, the miner and the network
    stack, in order. *)

Inductive Event :=
| EvGetBlockIdByHeight (h : Z)
| EvFindBlockchainSupplement (ids : list Hash) (maxCount : Z)
| EvHaveBlock (id : Hash)
| EvGetBlock (id : Hash)
| EvParseAccountAddressString (s : string)
| EvMinerStart (adr : AccountPublicAddress) (threads : Z)
| EvMinerStop
| EvIsTestnet
| EvIsSynchronized
| EvSendStopSignal
| EvHandler (url : string).

Definition Traced (A : Type) : Type := list Event -> A * list Event.

#[export] Instance Traced_ret : MRet Traced := fun A a tr => (a, tr).
#[export] Instance Traced_bind : MBind Traced := fun A B k m tr =>
  let '(a, tr') := m tr in k a tr'.

(** A call that answers [a]. *)
Definition call {A} (e : Event) (a : A) : Traced A := fun tr => (a, tr ++ [e]).

(** The run of a handler from an empty record. *)
Definition run {A} (m : Traced A) : A * list Event := m [].

Section Availability.
Variable N : Node.

(** [isTestnet() || isSynchronized()], with the short circuit of [||]. *)
Definition isCoreReady : Traced bool :=
  t ← call EvIsTestnet (isTestnet N);
  if t : bool then mret true else call EvIsSynchronized (isSynchronized N).

End Availability.

(** ** Chain sync: get_blocks (fast) *)

Module COMMAND_RPC_GET_BLOCKS_FAST.
Record block_complete_entry := {
  block : BinaryArray;
  txs : list BinaryArray
}.
Record request := {
  block_ids : list Hash
}.
Record response := {
  blocks : list block_complete_entry;
  start_height : Z;
  current_height : Z;
  status : string
}.
End COMMAND_RPC_GET_BLOCKS_FAST.

Section GetBlocks.
Import COMMAND_RPC_GET_BLOCKS_FAST.
Variable L : Lib.
Variable N : Node.

(** The loop over the supplement. The two [assert]s are kept: [None] is
    a failed assertion. *)
Fixpoint get_blocks_loop (supplement : list Hash) (acc : list block_complete_entry)
    : Traced (option (list block_complete_entry)) :=
  match supplement with
  | [] => mret (Some acc)
  | blockId :: rest =>
      have ← call (EvHaveBlock blockId) (have_block N blockId);
      if have : bool then
        completeBlock ← call (EvGetBlock blockId) (getBlock N blockId);
        match completeBlock with
        | Some cb =>
            get_blocks_loop rest
              (acc ++ [{| block := toBinaryArray_Block L (cb_getBlock cb);
                          txs := map (toBinaryArray_Transaction L) (cb_transactions cb) |}])
        | None => mret None
        end
      else mret None
  end.

Definition get_blocks_failed : response :=
  {| blocks := []; start_height := 0; current_height := 0; status := "Failed" |}.

(** The response starts value-initialized, as [binMethod] hands it over. *)
Definition on_get_blocks (req : request) : Traced (option (bool * response)) :=
  match block_ids req with
  | [] => mret (Some (false, get_blocks_failed))
  | _ :: _ =>
      genesis ← call (EvGetBlockIdByHeight 0) (getBlockIdByHeight N 0);
      if negb (bytes_eqb (List.last (block_ids req) []) genesis) then
        mret (Some (false, get_blocks_failed))
      else
        '(supplement, totalBlockCount, startBlockIndex) ←
          call (EvFindBlockchainSupplement (block_ids req) (COMMAND_RPC_GET_BLOCKS_FAST_MAX_COUNT N))
               (findBlockchainSupplement N (block_ids req) (COMMAND_RPC_GET_BLOCKS_FAST_MAX_COUNT N));
        bs ← get_blocks_loop supplement [];
        mret (match bs with
              | Some bs =>
                  Some (true, {| blocks := bs;
                                 start_height := startBlockIndex;
                                 current_height := totalBlockCount;
                                 status := CORE_RPC_STATUS_OK |})
              | None => None
              end)
  end.

End GetBlocks.

(** ** Operator methods: start_mining, stop_mining, stop_daemon *)

Module COMMAND_RPC_START_MINING.
Record request := {
  miner_address : string;
  threads_count : Z
}.
Record response := {
  status : string
}.
End COMMAND_RPC_START_MINING.

Module COMMAND_RPC_STOP_MINING.
Record response := {
  status : string
}.
End COMMAND_RPC_STOP_MINING.

Module COMMAND_RPC_STOP_DAEMON.
Record response := {
  status : string
}.
End COMMAND_RPC_STOP_DAEMON.

Section Operator.
Variable N : Node.

(** [res.status = CORE_RPC_ERROR_CODE_INTERNAL_ERROR] assigns the integer
    code to a string: the status becomes the one character of that
    code. *)
Variable char_of_code : ErrorCode -> Ascii.ascii.

Definition on_start_mining (req : COMMAND_RPC_START_MINING.request)
    : Traced (bool * COMMAND_RPC_START_MINING.response) :=
  let answer b s := (b, {| COMMAND_RPC_START_MINING.status := s |}) in
  if m_restricted_rpc N then mret (answer false "Failed, restricted handle")
  else
    adr ← call (EvParseAccountAddressString (COMMAND_RPC_START_MINING.miner_address req))
               (parseAccountAddressString N (COMMAND_RPC_START_MINING.miner_address req));
    match adr with
    | None => mret (answer true "Failed, wrong address")
    | Some adr =>
        let threads := COMMAND_RPC_START_MINING.threads_count req in
        started ← call (EvMinerStart adr threads) (miner_start N adr threads);
        if started : bool then mret (answer true CORE_RPC_STATUS_OK)
        else mret (answer true "Failed, mining not started")
    end.

Definition on_stop_mining : Traced (bool * COMMAND_RPC_STOP_MINING.response) :=
  let answer b s := (b, {| COMMAND_RPC_STOP_MINING.status := s |}) in
  if m_restricted_rpc N then mret (answer false "Failed, restricted handle")
  else
    stopped ← call EvMinerStop (miner_stop N);
    if stopped : bool then mret (answer true CORE_RPC_STATUS_OK)
    else mret (answer true "Failed, mining not stopped").

Definition on_stop_daemon : Traced (bool * COMMAND_RPC_STOP_DAEMON.response) :=
  let answer b s := (b, {| COMMAND_RPC_STOP_DAEMON.status := s |}) in
  if m_restricted_rpc N then mret (answer false "Failed, restricted handle")
  else
    t ← call EvIsTestnet (isTestnet N);
    if t : bool then
      _ ← call EvSendStopSignal tt;
      mret (answer true CORE_RPC_STATUS_OK)
    else
      mret (answer false (String (char_of_code CORE_RPC_ERROR_CODE_INTERNAL_ERROR) "")).

End Operator.

(** ** HTTP dispatch: the method table and processRequest *)

Inductive HttpStatus := STATUS_200 | STATUS_404 | STATUS_500.

Record HttpRequest := {
  getUrl : string;
  getBody : string
}.

Module HttpResponse.
Record t := {
  status : HttpStatus;
  body : string;
  headers : list (string * string)
}.
Definition setStatus (s : HttpStatus) (r : t) : t :=
  {| status := s; body := body r; headers := headers r |}.
Definition setBody (b : string) (r : t) : t :=
  {| status := status r; body := b; headers := headers r |}.
Definition addHeader (name value : string) (r : t) : t :=
  {| status := status r; body := body r; headers := headers r ++ [(name, value)] |}.
End HttpResponse.

Record RpcHandler (H : Type) := {
  handler : H;
  allowBusyCore : bool
}.
Arguments handler {H} _.
Arguments allowBusyCore {H} _.

(** The handler functions bound in [s_handlers]: a member function under
    its [binMethod] or [jsonMethod] wrapper, or [processJsonRpcRequest]. *)
Inductive BoundMethod :=
| bin_on_get_blocks
| bin_on_query_blocks
| bin_on_query_blocks_lite
| bin_on_get_indexes
| bin_on_get_random_outs
| bin_onGetPoolChanges
| bin_onGetPoolChangesLite
| json_on_get_info
| json_on_get_height
| json_on_get_transactions
| json_on_send_raw_tx
| json_on_get_fee_address
| json_on_get_peer_list
| json_on_get_payment_id
| json_on_start_mining
| json_on_stop_mining
| json_on_stop_daemon
| bound_processJsonRpcRequest.

Definition s_handlers : gmap string (RpcHandler BoundMethod) :=
  list_to_map [
    (* binary handlers *)
    ("/getblocks.bin", {| handler := bin_on_get_blocks; allowBusyCore := false |});
    ("/queryblocks.bin", {| handler := bin_on_query_blocks; allowBusyCore := false |});
    ("/queryblockslite.bin", {| handler := bin_on_query_blocks_lite; allowBusyCore := false |});
    ("/get_o_indexes.bin", {| handler := bin_on_get_indexes; allowBusyCore := false |});
    ("/getrandom_outs.bin", {| handler := bin_on_get_random_outs; allowBusyCore := false |});
    ("/get_pool_changes.bin", {| handler := bin_onGetPoolChanges; allowBusyCore := false |});
    ("/get_pool_changes_lite.bin", {| handler := bin_onGetPoolChangesLite; allowBusyCore := false |});
    (* json handlers *)
    ("/getinfo", {| handler := json_on_get_info; allowBusyCore := true |});
    ("/getheight", {| handler := json_on_get_height; allowBusyCore := true |});
    ("/gettransactions", {| handler := json_on_get_transactions; allowBusyCore := false |});
    ("/sendrawtransaction", {| handler := json_on_send_raw_tx; allowBusyCore := false |});
    ("/feeaddress", {| handler := json_on_get_fee_address; allowBusyCore := true |});
    ("/peers", {| handler := json_on_get_peer_list; allowBusyCore := true |});
    ("/paymentid", {| handler := json_on_get_payment_id; allowBusyCore := true |});
    (* disabled in restricted rpc mode *)
    ("/start_mining", {| handler := json_on_start_mining; allowBusyCore := false |});
    ("/stop_mining", {| handler := json_on_stop_mining; allowBusyCore := false |});
    ("/stop_daemon", {| handler := json_on_stop_daemon; allowBusyCore := true |});
    (* json rpc *)
    ("/json_rpc", {| handler := bound_processJsonRpcRequest; allowBusyCore := true |})
  ].

Definition HandlerFunction : Type :=
  HttpRequest -> HttpResponse.t -> Traced (bool * HttpResponse.t).

Section ProcessRequest.
Variable N : Node.

(** What each bound handler does with a request and the response it is
    handed. *)
Variable bound : BoundMethod -> HandlerFunction.

(** [processRequest] returns nothing; the response it was handed is its
    result. The run of a handler is recorded under the URL of its
    entry. *)
Definition processRequest (request : HttpRequest) (response : HttpResponse.t)
    : Traced HttpResponse.t :=
  let url := getUrl request in
  match s_handlers !! url with
  | None => mret (HttpResponse.setStatus STATUS_404 response)
  | Some it =>
      busy ← (if allowBusyCore it then mret false
              else ready ← isCoreReady N; mret (negb ready));
      if busy : bool then
        mret (HttpResponse.setBody "Core is busy"
                (HttpResponse.setStatus STATUS_500 response))
      else
        _ ← call (EvHandler url) tt;
        '(_, response') ← bound (handler it) request response;
        mret response'
  end.

End ProcessRequest.

(** ** The JSON-RPC sub-dispatcher *)

(** A JSON value, as its text. *)
Abbreviation JsonValue := string.

Module JsonRpc.

(** Modelled from the spec: the request envelope [JsonRpcRequest] of
    JsonRpc.h, which is not part of the sources: an opaque id, a method
    name and opaque parameters. *)
Record JsonRpcRequest := {
  getId : option JsonValue;
  getMethod : string;
  getParams : JsonValue
}.

(** Modelled from the spec: the response envelope [JsonRpcResponse] of
    JsonRpc.h, which is not part of the sources: the id, a success
    payload and an error object, each present or not, and the setters
    the dispatcher calls. *)
Record JsonRpcResponse := {
  id : option JsonValue;
  result : option JsonValue;
  error : option JsonRpcError
}.

Definition newResponse : JsonRpcResponse :=
  {| id := None; result := None; error := None |}.
Definition setId (i : option JsonValue) (r : JsonRpcResponse) : JsonRpcResponse :=
  {| id := i; result := result r; error := error r |}.
Definition setResult (v : JsonValue) (r : JsonRpcResponse) : JsonRpcResponse :=
  {| id := id r; result := Some v; error := error r |}.
Definition setError (e : JsonRpcError) (r : JsonRpcResponse) : JsonRpcResponse :=
  {| id := id r; result := result r; error := Some e |}.

Definition JsonMemberMethod : Type :=
  JsonRpcRequest -> JsonRpcResponse -> Outcome (bool * JsonRpcResponse).

(** Modelled from the spec: [makeMemberMethod], which is not part of the
    sources: it decodes the parameters, calls the member function and
    stores the result in the response when the member function returns
    [true]. [member] is the member function between the decoding of its
    request and the encoding of its response; an undecodable request is
    one of its [Throw]s. *)
Definition makeMemberMethod (member : JsonValue -> Outcome (bool * JsonValue))
    : JsonMemberMethod :=
  fun req resp =>
    '(ok, res) ← member (getParams req);
    mret (ok, if ok : bool then setResult res resp else resp).

End JsonRpc.

(** The member functions registered in [jsonRpcHandlers]. *)
Inductive JsonMethod :=
| rpc_on_getblockcount
| rpc_on_getblockhash
| rpc_on_getblocktemplate
| rpc_on_get_currency_id
| rpc_on_submitblock
| rpc_on_get_last_block_header
| rpc_on_get_block_header_by_hash
| rpc_on_get_block_header_by_height
| rpc_f_on_blocks_list_json
| rpc_f_on_block_json
| rpc_f_on_transaction_json
| rpc_f_on_pool_json
| rpc_f_on_mempool_json
| rpc_k_on_transactions_by_payment_id
| rpc_onGetTransactionHashesByPaymentId
| rpc_k_on_check_tx_key
| rpc_k_on_check_tx_with_view_key
| rpc_on_validate_address
| rpc_on_verify_message.

Definition jsonRpcHandlers : gmap string (RpcHandler JsonMethod) :=
  list_to_map [
    ("getblockcount", {| handler := rpc_on_getblockcount; allowBusyCore := true |});
    ("on_getblockhash", {| handler := rpc_on_getblockhash; allowBusyCore := false |});
    ("getblocktemplate", {| handler := rpc_on_getblocktemplate; allowBusyCore := false |});
    ("getcurrencyid", {| handler := rpc_on_get_currency_id; allowBusyCore := true |});
    ("submitblock", {| handler := rpc_on_submitblock; allowBusyCore := false |});
    ("getlastblockheader", {| handler := rpc_on_get_last_block_header; allowBusyCore := false |});
    ("getblockheaderbyhash", {| handler := rpc_on_get_block_header_by_hash; allowBusyCore := false |});
    ("getblockheaderbyheight", {| handler := rpc_on_get_block_header_by_height; allowBusyCore := false |});
    ("f_blocks_list_json", {| handler := rpc_f_on_blocks_list_json; allowBusyCore := false |});
    ("f_block_json", {| handler := rpc_f_on_block_json; allowBusyCore := false |});
    ("f_transaction_json", {| handler := rpc_f_on_transaction_json; allowBusyCore := false |});
    ("f_pool_json", {| handler := rpc_f_on_pool_json; allowBusyCore := false |});
    ("f_mempool_json", {| handler := rpc_f_on_mempool_json; allowBusyCore := false |});
    ("k_transactions_by_payment_id", {| handler := rpc_k_on_transactions_by_payment_id; allowBusyCore := false |});
    ("get_transaction_hashes_by_payment_id", {| handler := rpc_onGetTransactionHashesByPaymentId; allowBusyCore := false |});
    ("check_tx_key", {| handler := rpc_k_on_check_tx_key; allowBusyCore := false |});
    ("check_tx_with_view_key", {| handler := rpc_k_on_check_tx_with_view_key; allowBusyCore := false |});
    ("validateaddress", {| handler := rpc_on_validate_address; allowBusyCore := false |});
    ("verifymessage", {| handler := rpc_on_verify_message; allowBusyCore := false |})
  ].

Section ProcessJsonRpcRequest.
Import JsonRpc.
Variable N : Node.

(** [JsonRpcRequest::parseRequest], [JsonRpcResponse::getBody] and the
    message [JsonRpcError] gives a bare code. *)
Variable parseRequest : string -> Outcome JsonRpcRequest.
Variable getBody_response : JsonRpcResponse -> string.
Variable message_of_code : ErrorCode -> string.

(** The member functions, from decoded parameters to encoded result. *)
Variable member : JsonMethod -> JsonValue -> Outcome (bool * JsonValue).

Definition JsonRpcError_of_code (c : ErrorCode) : JsonRpcError :=
  {| code := c; message := message_of_code c |}.

(** The body of the [try] after the request is parsed and its id is
    copied. *)
Definition dispatchJsonRpc (jsonRequest : JsonRpcRequest) (jsonResponse : JsonRpcResponse)
    : Traced (Outcome JsonRpcResponse) :=
  match jsonRpcHandlers !! getMethod jsonRequest with
  | None => mret (Throw (JsonRpcError_of_code errMethodNotFound))
  | Some it =>
      busy ← (if allowBusyCore it then mret false
              else ready ← isCoreReady N; mret (negb ready));
      if busy : bool then
        mret (Throw {| code := CORE_RPC_ERROR_CODE_CORE_BUSY; message := "Core is busy" |})
      else
        mret ('(_, jsonResponse') ←
                makeMemberMethod (member (handler it)) jsonRequest jsonResponse;
              mret jsonResponse')
  end.

(** The two [catch] clauses. *)
Definition catchJsonRpc (jsonResponse : JsonRpcResponse) (o : Outcome JsonRpcResponse)
    : JsonRpcResponse :=
  match o with
  | Ret r => r
  | Throw err => setError err jsonResponse
  | Fault what => setError {| code := errInternalError; message := what |} jsonResponse
  end.

(** The JSON-RPC response [processJsonRpcRequest] builds. *)
Definition jsonRpcResponse_of (request : HttpRequest) : Traced JsonRpcResponse :=
  match parseRequest (getBody request) with
  | Ret jsonRequest =>
      let jsonResponse := setId (getId jsonRequest) newResponse in
      o ← dispatchJsonRpc jsonRequest jsonResponse;
      mret (catchJsonRpc jsonResponse o)
  | Throw err => mret (setError err newResponse)
  | Fault what =>
      mret (setError {| code := errInternalError; message := what |} newResponse)
  end.

Definition processJsonRpcRequest (request : HttpRequest) (response : HttpResponse.t)
    : Traced (bool * HttpResponse.t) :=
  let response := HttpResponse.addHeader "Content-Type" "application/json" response in
  let response :=
    if (String.length (m_cors_domain N) =? 0)%nat then response
    else HttpResponse.addHeader "Access-Control-Allow-Origin" (m_cors_domain N) response in
  jsonResponse ← jsonRpcResponse_of request;
  mret (true, HttpResponse.setBody (getBody_response jsonResponse) response).

End ProcessJsonRpcRequest.

(** ** Payment proofs: check_tx_key and check_tx_with_view_key *)

Module K_COMMAND_RPC_CHECK_TX_KEY.
Record request := {
  txid : string;
  txkey : string;
  address : string
}.
Record response := {
  amount : Z;
  outputs : list TransactionOutput;
  status : string
}.
End K_COMMAND_RPC_CHECK_TX_KEY.

Module K_COMMAND_RPC_CHECK_TX_WITH_PRIVATE_VIEW_KEY.
Record request := {
  txid : string;
  view_key : string;
  address : string
}.
Record response := {
  amount : Z;
  outputs : list TransactionOutput;
  confirmations : Z;
  status : string
}.
End K_COMMAND_RPC_CHECK_TX_WITH_PRIVATE_VIEW_KEY.

Section PaymentProof.
Variable L : Lib.
Variable N : Node.

(** [Common::fromHex(text, &pod, sizeof(pod), size) && size == sizeof(pod)]
    for a 32-byte pod. *)
Definition fromHex_pod32 (text : string) : option (list byte) :=
  match fromHex L text with
  | Some b => if (length b =? 32)%nat then Some b else None
  | None => None
  end.

(** [getTransactions(tx_ids, txs, missed_txs, true)] for one id and the
    test [1 == txs.size()]. *)
Definition fetch_tx (id : Hash) : option Transaction :=
  match fst (getTransactions N [id] true) with
  | [tx] => Some tx
  | _ => None
  end.

(** The loop over the outputs in [k_on_check_tx_key]. The derivation of
    the one-time key is a total function here, so the [catch (...)] around
    the loop has nothing to catch. *)
Fixpoint check_tx_key_scan (derivation : list byte) (spend : PublicKey)
    (outs : list TransactionOutput) (keyIndex received : Z)
    (found : list TransactionOutput) : Z * list TransactionOutput :=
  match outs with
  | [] => (received, found)
  | o :: rest =>
      match target o with
      | KeyOutput out_key =>
          let pubkey := derive_public_key L derivation keyIndex spend in
          if bytes_eqb pubkey out_key
          then check_tx_key_scan derivation spend rest (wrap64 (keyIndex + 1))
                 (wrap64 (received + amount o)) (found ++ [o])
          else check_tx_key_scan derivation spend rest (wrap64 (keyIndex + 1))
                 received found
      | MultisignatureOutput _ _ =>
          check_tx_key_scan derivation spend rest (wrap64 (keyIndex + 1)) received found
      end
  end.

Definition k_on_check_tx_key (req : K_COMMAND_RPC_CHECK_TX_KEY.request)
    : Outcome (bool * K_COMMAND_RPC_CHECK_TX_KEY.response) :=
  let req_txid := K_COMMAND_RPC_CHECK_TX_KEY.txid req in
  let req_address := K_COMMAND_RPC_CHECK_TX_KEY.address req in
  txid ← require_some (parse_hash256 L req_txid)
    CORE_RPC_ERROR_CODE_WRONG_PARAM "Failed to parse txid";
  address ← require_some (parseAccountAddressString N req_address)
    CORE_RPC_ERROR_CODE_WRONG_PARAM ("Failed to parse address " +:+ req_address +:+ ".");
  tx_key ← require_some (fromHex_pod32 (K_COMMAND_RPC_CHECK_TX_KEY.txkey req))
    CORE_RPC_ERROR_CODE_WRONG_PARAM "Failed to parse txkey";
  transaction ← require_some (fetch_tx txid)
    CORE_RPC_ERROR_CODE_WRONG_PARAM
    ("Couldn't find transaction with hash: " +:+ req_txid +:+ ".");
  derivation ← require_some (generate_key_derivation L (viewPublicKey address) tx_key)
    CORE_RPC_ERROR_CODE_WRONG_PARAM
    "Failed to generate key derivation from supplied parameters";
  let '(received, outs) :=
    check_tx_key_scan derivation (spendPublicKey address) (outputs transaction) 0 0 [] in
  mret (true, {| K_COMMAND_RPC_CHECK_TX_KEY.amount := received;
                 K_COMMAND_RPC_CHECK_TX_KEY.outputs := outs;
                 K_COMMAND_RPC_CHECK_TX_KEY.status := CORE_RPC_STATUS_OK |}).

(** The loop over the outputs in [k_on_check_tx_with_view_key]. *)
Fixpoint check_tx_with_view_key_scan (derivation : list byte) (spend : PublicKey)
    (outs : list TransactionOutput) (keyIndex received : Z)
    (found : list TransactionOutput) : Z * list TransactionOutput :=
  match outs with
  | [] => (received, found)
  | o :: rest =>
      match target o with
      | KeyOutput out_key =>
          let pubkey := derive_public_key L derivation keyIndex spend in
          if bytes_eqb pubkey out_key
          then check_tx_with_view_key_scan derivation spend rest (wrap64 (keyIndex + 1))
                 (wrap64 (received + amount o)) (found ++ [o])
          else check_tx_with_view_key_scan derivation spend rest (wrap64 (keyIndex + 1))
                 received found
      | MultisignatureOutput _ _ =>
          check_tx_with_view_key_scan derivation spend rest (wrap64 (keyIndex + 1))
            received found
      end
  end.

Definition k_on_check_tx_with_view_key
    (req : K_COMMAND_RPC_CHECK_TX_WITH_PRIVATE_VIEW_KEY.request)
    : Outcome (bool * K_COMMAND_RPC_CHECK_TX_WITH_PRIVATE_VIEW_KEY.response) :=
  let req_txid := K_COMMAND_RPC_CHECK_TX_WITH_PRIVATE_VIEW_KEY.txid req in
  let req_address := K_COMMAND_RPC_CHECK_TX_WITH_PRIVATE_VIEW_KEY.address req in
  txid ← require_some (parse_hash256 L req_txid)
    CORE_RPC_ERROR_CODE_WRONG_PARAM "Failed to parse txid";
  address ← require_some (parseAccountAddressString N req_address)
    CORE_RPC_ERROR_CODE_WRONG_PARAM ("Failed to parse address " +:+ req_address +:+ ".");
  viewKey ← require_some
    (fromHex_pod32 (K_COMMAND_RPC_CHECK_TX_WITH_PRIVATE_VIEW_KEY.view_key req))
    CORE_RPC_ERROR_CODE_WRONG_PARAM "Failed to parse private view key";
  transaction ← require_some (fetch_tx txid)
    CORE_RPC_ERROR_CODE_WRONG_PARAM
    ("Couldn't find transaction with hash: " +:+ req_txid +:+ ".");
  let txPubKey := getTransactionPublicKeyFromExtra L (extra transaction) in
  derivation ← require_some (generate_key_derivation L txPubKey viewKey)
    CORE_RPC_ERROR_CODE_WRONG_PARAM
    "Failed to generate key derivation from supplied parameters";
  let '(received, outs) :=
    check_tx_with_view_key_scan derivation (spendPublicKey address)
      (outputs transaction) 0 0 [] in
  let confirmations :=
    match getBlockContainingTx N txid with
    | Some (_, blockHeight) => wrap32 (getObservedHeight N - blockHeight)
    | None => 0
    end in
  mret (true, {| K_COMMAND_RPC_CHECK_TX_WITH_PRIVATE_VIEW_KEY.amount := received;
                 K_COMMAND_RPC_CHECK_TX_WITH_PRIVATE_VIEW_KEY.outputs := outs;
                 K_COMMAND_RPC_CHECK_TX_WITH_PRIVATE_VIEW_KEY.confirmations := confirmations;
                 K_COMMAND_RPC_CHECK_TX_WITH_PRIVATE_VIEW_KEY.status := CORE_RPC_STATUS_OK |}).

End PaymentProof.

(** ** Explorer views: block details, transaction details, pool listing *)

Definition input_amount (i : TransactionInput) : Z :=
  match i with
  | BaseInput _ => 0
  | KeyInput a _ _ => a
  | MultisignatureInput a _ _ => a
  end.

(** Modelled from the spec: [get_inputs_money_amount] of
    CryptoNoteFormatUtils, which is not part of the sources: the sum of the
    amounts of the inputs, in a [uint64_t]; a coinbase input carries no
    amount. *)
Definition get_inputs_money_amount (tx : Transaction) : Z :=
  fold_left (fun money i => wrap64 (money + input_amount i)) (inputs tx) 0.

(** Modelled from the spec: [get_outs_money_amount] of
    CryptoNoteFormatUtils, which is not part of the sources: the sum of the
    amounts of the outputs, in a [uint64_t]. *)
Definition get_outs_money_amount (tx : Transaction) : Z :=
  fold_left (fun money o => wrap64 (money + amount o)) (outputs tx) 0.

(** Modelled from the spec: [getInputAmount] of TransactionUtils, which is
    not part of the sources: the sum of the amounts of the inputs. *)
Definition getInputAmount (tx : Transaction) : Z :=
  fold_left (fun money i => wrap64 (money + input_amount i)) (inputs tx) 0.

(** Modelled from the spec: [getOutputAmount] of TransactionUtils, which is
    not part of the sources: the sum of the amounts of the outputs. *)
Definition getOutputAmount (tx : Transaction) : Z :=
  fold_left (fun money o => wrap64 (money + amount o)) (outputs tx) 0.

Record f_transaction_short_response := {
  ts_hash : string;
  ts_fee : Z;
  ts_amount_out : Z;
  ts_size : Z
}.

Record f_block_short_response := {
  bs_timestamp : Z;
  bs_height : Z;
  bs_hash : string;
  bs_tx_count : Z;
  bs_cumul_size : Z;
  bs_difficulty : Z;
  bs_min_tx_fee : Z
}.

Record block_header_response := {
  bh_major_version : Z;
  bh_minor_version : Z;
  bh_timestamp : Z;
  bh_prev_hash : string;
  bh_nonce : Z;
  bh_orphan_status : bool;
  bh_height : Z;
  bh_depth : Z;
  bh_hash : string;
  bh_difficulty : Z;
  bh_reward : Z
}.

(** The block details; the floating-point [penalty] is left out. *)
Record f_block_details_response := {
  bd_major_version : Z;
  bd_minor_version : Z;
  bd_timestamp : Z;
  bd_prev_hash : string;
  bd_nonce : Z;
  bd_hash : string;
  bd_depth : Z;
  bd_height : Z;
  bd_difficulty : Z;
  bd_reward : Z;
  bd_sizeMedian : Z;
  bd_effectiveSizeMedian : Z;
  bd_transactionsCumulativeSize : Z;
  bd_blockSize : Z;
  bd_alreadyGeneratedCoins : string;
  bd_alreadyGeneratedTransactions : Z;
  bd_baseReward : Z;
  bd_transactions : list f_transaction_short_response;
  bd_totalFeeAmount : Z
}.

Record f_transaction_details_response := {
  td_hash : string;
  td_size : Z;
  td_paymentId : string;
  td_mixin : Z;
  td_fee : Z;
  td_amount_out : Z;
  td_confirmations : Z
}.

Module F_COMMAND_RPC_GET_BLOCK_DETAILS.
Record request := {
  hash : string
}.
Record response := {
  block : f_block_details_response;
  status : string
}.
End F_COMMAND_RPC_GET_BLOCK_DETAILS.

Module F_COMMAND_RPC_GET_TRANSACTION_DETAILS.
Record request := {
  hash : string
}.
Record response := {
  tx : Transaction;
  txDetails : f_transaction_details_response;
  block : f_block_short_response;
  status : string
}.
End F_COMMAND_RPC_GET_TRANSACTION_DETAILS.

Module F_COMMAND_RPC_GET_POOL.
Record response := {
  transactions : list f_transaction_short_response;
  status : string
}.
End F_COMMAND_RPC_GET_POOL.

Section Explorer.
Variable L : Lib.
Variable N : Node.

Definition getObjectBinarySize_Block (b : Block) : Z :=
  Z.of_nat (length (toBinaryArray_Block L b)).
Definition getObjectBinarySize_Transaction (t : Transaction) : Z :=
  Z.of_nat (length (toBinaryArray_Transaction L t)).
Definition getObjectHash_Transaction (t : Transaction) : Hash :=
  cn_fast_hash L (toBinaryArray_Transaction L t).

(** An out-parameter that the call leaves alone when it fails, read
    although the result of the call is ignored. *)
Definition or_indeterminate (o : option Z) : Z :=
  match o with
  | Some z => z
  | None => indeterminate N
  end.

Definition get_block_reward (blk : Block) : Z :=
  fold_left (fun reward out => wrap64 (reward + amount out))
    (outputs (baseTransaction blk)) 0.

Definition fill_block_header_response (blk : Block) (orphan_status : bool)
    (height : Z) (hash : Hash) : block_header_response :=
  {| bh_major_version := majorVersion blk;
     bh_minor_version := minorVersion blk;
     bh_timestamp := timestamp blk;
     bh_prev_hash := podToHex L (previousBlockHash blk);
     bh_nonce := nonce blk;
     bh_orphan_status := orphan_status;
     bh_height := height;
     bh_depth := wrap64 (get_current_blockchain_height N - height - 1);
     bh_hash := podToHex L hash;
     bh_difficulty := or_indeterminate (getBlockDifficulty N (wrap32 height));
     bh_reward := get_block_reward blk |}.

Definition f_getMixin (transaction : Transaction) : bool * Z :=
  (true,
   fold_left
     (fun mixin txin =>
        match txin with
        | KeyInput _ outputIndexes _ =>
            let currentMixin := Z.of_nat (length outputIndexes) in
            if mixin <? currentMixin then currentMixin else mixin
        | _ => mixin
        end)
     (inputs transaction) 0).

(** The short view [f_on_block_json] and [k_on_transactions_by_payment_id]
    push for a transaction of the list. *)
Definition block_transaction_short (tx : Transaction) : f_transaction_short_response :=
  let amount_in := get_inputs_money_amount tx in
  let amount_out := get_outs_money_amount tx in
  {| ts_hash := podToHex L (getObjectHash_Transaction tx);
     ts_fee := wrap64 (amount_in - amount_out);
     ts_amount_out := amount_out;
     ts_size := getObjectBinarySize_Transaction tx |}.

(** The short view [f_on_block_json] pushes for the base transaction. *)
Definition base_transaction_short (blk : Block) : f_transaction_short_response :=
  {| ts_hash := podToHex L (getObjectHash_Transaction (baseTransaction blk));
     ts_fee := 0;
     ts_amount_out := get_outs_money_amount (baseTransaction blk);
     ts_size := getObjectBinarySize_Transaction (baseTransaction blk) |}.

(** The short view [f_on_pool_json] pushes. *)
Definition pool_transaction_short (tx : Transaction) : f_transaction_short_response :=
  let amount_in := getInputAmount tx in
  let amount_out := getOutputAmount tx in
  {| ts_hash := podToHex L (getObjectHash_Transaction tx);
     ts_fee := if amount_in <? wrap64 (amount_out + MINIMUM_FEE N)
               then MINIMUM_FEE N else wrap64 (amount_in - amount_out);
     ts_amount_out := amount_out;
     ts_size := getObjectBinarySize_Transaction tx |}.

Definition f_on_pool_json : Outcome (bool * F_COMMAND_RPC_GET_POOL.response) :=
  let pool := getPoolTransactions N in
  mret (true,
        {| F_COMMAND_RPC_GET_POOL.transactions := map pool_transaction_short pool;
           F_COMMAND_RPC_GET_POOL.status := CORE_RPC_STATUS_OK |}).

(** [f_on_block_json]. The handler answers [None] where the source
    returns [false], which leaves the JSON-RPC response without a
    result. *)
Definition f_on_block_json (req : F_COMMAND_RPC_GET_BLOCK_DETAILS.request)
    : Outcome (option F_COMMAND_RPC_GET_BLOCK_DETAILS.response) :=
  let req_hash := F_COMMAND_RPC_GET_BLOCK_DETAILS.hash req in
  hash ← match lexical_cast_uint32 L req_hash with
          | Some height => mret (getBlockIdByHeight N height)
          | None =>
              require_some (parse_hash256 L req_hash)
                CORE_RPC_ERROR_CODE_WRONG_PARAM
                ("Failed to parse hex representation of block hash. Hex = "
                   +:+ req_hash +:+ ".")
          end;
  blk ← require_some (getBlockByHash N hash)
          CORE_RPC_ERROR_CODE_INTERNAL_ERROR
          ("Internal error: can't get block by hash. Hash = " +:+ req_hash +:+ ".");
  height ← match inputs (baseTransaction blk) with
            | BaseInput blockIndex :: _ => mret blockIndex
            | _ => Throw {| code := CORE_RPC_ERROR_CODE_INTERNAL_ERROR;
                            message := "Internal error: coinbase transaction in the block has the wrong type" |}
            end;
  let tmp_hash := getBlockIdByHeight N height in
  let is_orphaned := negb (bytes_eqb hash tmp_hash) in
  let block_header := fill_block_header_response blk is_orphaned height hash in
  let difficulty := or_indeterminate (getBlockDifficulty N (wrap32 height)) in
  mret (
    blocksSizes ← getBackwardBlocksSizes N height (CRYPTONOTE_REWARD_BLOCKS_WINDOW N);
    let sizeMedian := medianValue L blocksSizes in
    blockSize ← getBlockSize N hash;
    let blokBlobSize := getObjectBinarySize_Block blk in
    let minerTxBlobSize := getObjectBinarySize_Transaction (baseTransaction blk) in
    alreadyGeneratedCoins ← getAlreadyGeneratedCoins N hash;
    alreadyGeneratedTransactions ← getGeneratedTransactionsNumber N height;
    prevBlockGeneratedCoins ←
      (if 0 <? height then getAlreadyGeneratedCoins N (previousBlockHash blk) else Some 0);
    '(maxReward, _) ← getBlockReward N (bh_major_version block_header) sizeMedian 0
                         prevBlockGeneratedCoins 0;
    '(currentReward, _) ← getBlockReward N (bh_major_version block_header) sizeMedian
                             blockSize prevBlockGeneratedCoins 0;
    if negb ((maxReward =? 0) && (currentReward =? 0)) && (maxReward <? currentReward)
    then None
    else
      let txs := fst (getTransactions N (transactionHashes blk) false) in
      let shorts := map block_transaction_short txs in
      Some {| F_COMMAND_RPC_GET_BLOCK_DETAILS.block :=
                {| bd_major_version := bh_major_version block_header;
                   bd_minor_version := bh_minor_version block_header;
                   bd_timestamp := bh_timestamp block_header;
                   bd_prev_hash := bh_prev_hash block_header;
                   bd_nonce := bh_nonce block_header;
                   bd_hash := bh_hash block_header;
                   bd_depth := bh_depth block_header;
                   bd_height := height;
                   bd_difficulty := difficulty;
                   bd_reward := bh_reward block_header;
                   bd_sizeMedian := sizeMedian;
                   bd_effectiveSizeMedian :=
                     Z.max sizeMedian (CRYPTONOTE_BLOCK_GRANTED_FULL_REWARD_ZONE N);
                   bd_transactionsCumulativeSize := blockSize;
                   bd_blockSize := wrap64 (blokBlobSize + blockSize - minerTxBlobSize);
                   bd_alreadyGeneratedCoins := to_string L alreadyGeneratedCoins;
                   bd_alreadyGeneratedTransactions := alreadyGeneratedTransactions;
                   bd_baseReward := maxReward;
                   bd_transactions := base_transaction_short blk :: shorts;
                   bd_totalFeeAmount :=
                     fold_left (fun total t => wrap64 (total + ts_fee t)) shorts 0 |};
              F_COMMAND_RPC_GET_BLOCK_DETAILS.status := CORE_RPC_STATUS_OK |}).

(** The block summary of [f_on_transaction_json]: the local
    [block_short] is declared without an initializer, and the handler
    assigns five of its fields before it copies it into the response;
    [difficulty] and [min_tx_fee] are never assigned and hold whatever
    the storage held, the value [indeterminate N] of an uninitialised
    local. *)
Definition transaction_block_short (blockHash : Hash) (blockHeight : Z) (blk : Block)
    : f_block_short_response :=
  let tx_cumulative_block_size := or_indeterminate (getBlockSize N blockHash) in
  let blokBlobSize := getObjectBinarySize_Block blk in
  let minerTxBlobSize := getObjectBinarySize_Transaction (baseTransaction blk) in
  {| bs_timestamp := timestamp blk;
     bs_height := blockHeight;
     bs_hash := podToHex L blockHash;
     bs_tx_count := wrap64 (Z.of_nat (length (transactionHashes blk)) + 1);
     bs_cumul_size := wrap64 (blokBlobSize + tx_cumulative_block_size - minerTxBlobSize);
     bs_difficulty := indeterminate N;
     bs_min_tx_fee := indeterminate N |}.

Definition empty_block_short : f_block_short_response :=
  {| bs_timestamp := 0; bs_height := 0; bs_hash := ""; bs_tx_count := 0;
     bs_cumul_size := 0; bs_difficulty := 0; bs_min_tx_fee := 0 |}.

(** [f_on_transaction_json], with [None] for [return false]. *)
Definition f_on_transaction_json (req : F_COMMAND_RPC_GET_TRANSACTION_DETAILS.request)
    : Outcome (option F_COMMAND_RPC_GET_TRANSACTION_DETAILS.response) :=
  let req_hash := F_COMMAND_RPC_GET_TRANSACTION_DETAILS.hash req in
  hash ← require_some (parse_hash256 L req_hash)
           CORE_RPC_ERROR_CODE_WRONG_PARAM
           ("Failed to parse hex representation of transaction hash. Hex = "
              +:+ req_hash +:+ ".");
  res_tx ← require_some
           (match fst (getTransactions N [hash] true) with
            | [t] => Some t
            | _ => None
            end)
           CORE_RPC_ERROR_CODE_WRONG_PARAM
           ("transaction wasn't found. Hash = " +:+ req_hash +:+ ".");
  let '(block_short, confirmations) :=
    match getBlockContainingTx N hash with
    | Some (blockHash, blockHeight) =>
        match getBlockByHash N blockHash with
        | Some blk =>
            (transaction_block_short blockHash blockHeight blk,
             wrap32 (getObservedHeight N - blockHeight))
        | None => (empty_block_short, 0)
        end
    | None => (empty_block_short, 0)
    end in
  let amount_in := get_inputs_money_amount res_tx in
  let amount_out := get_outs_money_amount res_tx in
  let fee := if amount_in =? 0 then 0 else wrap64 (amount_in - amount_out) in
  let '(ok, mixin) := f_getMixin res_tx in
  if negb ok then mret None
  else
    let paymentId :=
      match getPaymentIdFromTxExtra L (extra res_tx) with
      | Some paymentId => podToHex L paymentId
      | None => ""
      end in
    mret (Some
      {| F_COMMAND_RPC_GET_TRANSACTION_DETAILS.tx := res_tx;
         F_COMMAND_RPC_GET_TRANSACTION_DETAILS.txDetails :=
           {| td_hash := podToHex L (getObjectHash_Transaction res_tx);
              td_size := getObjectBinarySize_Transaction res_tx;
              td_paymentId := paymentId;
              td_mixin := mixin;
              td_fee := fee;
              td_amount_out := amount_out;
              td_confirmations := confirmations |};
         F_COMMAND_RPC_GET_TRANSACTION_DETAILS.block := block_short;
         F_COMMAND_RPC_GET_TRANSACTION_DETAILS.status := CORE_RPC_STATUS_OK |}).

End Explorer.

(** ** gettransactions *)

Module COMMAND_RPC_GET_TRANSACTIONS.
Record request := {
  txs_hashes : list string
}.
Record response := {
  txs_as_hex : list string;
  missed_tx : list string;
  status : string
}.
End COMMAND_RPC_GET_TRANSACTIONS.

Section GetTransactions.
Import COMMAND_RPC_GET_TRANSACTIONS.
Variable L : Lib.
Variable N : Node.


(** [*reinterpret_cast<const Hash*>(b.data())] reads the 32 bytes at the
    start of the buffer. A buffer of fewer than 32 bytes holds no [Hash]:
    the read runs past the end of the buffer, and through a null pointer
    when the buffer is empty. The behaviour of the program is then
    undefined: [None]. *)
Definition reinterpret_Hash (b : BinaryArray) : option Hash :=
  if Z.of_nat (length b) <? sizeof_Hash then None else Some (firstn 32 b).

(** The first loop of [on_get_transactions], over [vh] and [res.status]:
    [inl] is the early [return true] with the status it leaves, and
    [None] the read past the end of a decoded buffer. *)
Fixpoint parse_txs_hashes (hashes : list string) (vh : list Hash) (status : string)
    : option (string + (list Hash * string)) :=
  match hashes with
  | [] => Some (inr (vh, status))
  | tx_hex_str :: rest =>
      match fromHex L tx_hex_str with
      | None => Some (inl "Failed to parse hex representation of transaction hash")
      | Some b =>
          let status :=
            if negb (Z.of_nat (length b) =? sizeof_Hash)
            then "Failed, size of data mismatch" else status in
          match reinterpret_Hash b with
          | None => None
          | Some h => parse_txs_hashes rest (vh ++ [h]) status
          end
      end
  end.

(** [on_get_transactions]; [None] when the first loop read past the end
    of a buffer. *)
Definition on_get_transactions (req : request) : option (bool * response) :=
  match parse_txs_hashes (txs_hashes req) [] "" with
  | None => None
  | Some (inl failed) =>
      Some (true, {| txs_as_hex := []; missed_tx := []; status := failed |})
  | Some (inr (vh, _)) =>
      let '(txs, missed_txs) := getTransactions N vh false in
      Some (true,
            {| txs_as_hex := map (fun tx => toHex L (toBinaryArray_Transaction L tx)) txs;
               missed_tx := map (podToHex L) missed_txs;
               status := CORE_RPC_STATUS_OK |})
  end.

End GetTransactions.

(** ** f_blocks_list_json *)

Module F_COMMAND_RPC_GET_BLOCKS_LIST.
Record request := {
  height : Z
}.
Record response := {
  blocks : list f_block_short_response;
  status : string
}.
End F_COMMAND_RPC_GET_BLOCKS_LIST.

Section BlocksList.
Import F_COMMAND_RPC_GET_BLOCKS_LIST.
Variable L : Lib.
Variable N : Node.

Definition blocks_list_short (i : Z) (block_hash : Hash) (blk : Block)
    : f_block_short_response :=
  let tx_cumulative_block_size := or_indeterminate N (getBlockSize N block_hash) in
  let blokBlobSize := getObjectBinarySize_Block L blk in
  let minerTxBlobSize := getObjectBinarySize_Transaction L (baseTransaction blk) in
  {| bs_timestamp := timestamp blk;
     bs_height := i;
     bs_hash := podToHex L block_hash;
     bs_tx_count := wrap64 (Z.of_nat (length (transactionHashes blk)) + 1);
     bs_cumul_size := wrap64 (blokBlobSize + tx_cumulative_block_size - minerTxBlobSize);
     bs_difficulty := or_indeterminate N (getBlockDifficulty N i);
     bs_min_tx_fee := getMinimalFeeForHeight N i |}.

(** [for (uint32_t i = req.height; i >= last_height; i--)], one round
    per unit of fuel; [None] is an exhausted fuel. *)
Fixpoint blocks_list_loop (fuel : nat) (i last_height : Z)
    (blocks : list f_block_short_response)
    : option (Outcome (list f_block_short_response)) :=
  match fuel with
  | O => None
  | S fuel' =>
      if last_height <=? i then
        let block_hash := getBlockIdByHeight N i in
        match getBlockByHash N block_hash with
        | None =>
            Some (Throw {| code := CORE_RPC_ERROR_CODE_INTERNAL_ERROR;
                           message := "Internal error: can't get block by height. Height = "
                                        +:+ to_string L i +:+ "." |})
        | Some blk =>
            let blocks := blocks ++ [blocks_list_short i block_hash blk] in
            if i =? 0 then Some (Ret blocks)
            else blocks_list_loop fuel' (wrap32 (i - 1)) last_height blocks
        end
      else Some (Ret blocks)
  end.

Definition f_on_blocks_list_json (fuel : nat) (req : request)
    : option (Outcome (bool * response)) :=
  if get_current_blockchain_height N <=? height req then
    Some (Throw {| code := CORE_RPC_ERROR_CODE_TOO_BIG_HEIGHT;
                   message := "To big height: " +:+ to_string L (height req)
                                +:+ ", current blockchain height = "
                                +:+ to_string L (get_current_blockchain_height N) |})
  else
    let print_blocks_count := 30 in
    let last_height :=
      if height req <=? print_blocks_count then 0
      else wrap32 (height req - print_blocks_count) in
    match blocks_list_loop fuel (wrap32 (height req)) last_height [] with
    | None => None
    | Some o =>
        Some (bs ← o; mret (true, {| blocks := bs; status := CORE_RPC_STATUS_OK |}))
    end.

End BlocksList.

(** ** The properties in the words of the specification *)

Section SpecWords.
Variable L : Lib.

(** The payment proof as the specification words it: every output is
    visited with the next derivation index, and the key-type outputs
    whose key is the one-time key derived at their index match. *)
Fixpoint spec_matching_outputs (derivation : list byte) (spend : PublicKey)
    (outs : list TransactionOutput) (index : Z) : list TransactionOutput :=
  match outs with
  | [] => []
  | o :: rest =>
      let matches :=
        match target o with
        | KeyOutput key => bytes_eqb (derive_public_key L derivation index spend) key
        | MultisignatureOutput _ _ => false
        end in
      (if matches then [o] else [])
        ++ spec_matching_outputs derivation spend rest (wrap64 (index + 1))
  end.

(** The received amount: the sum of the matching outputs, in a
    [uint64_t]. *)
Definition spec_received_amount (received : Z) (matching : list TransactionOutput) : Z :=
  fold_left (fun sum o => wrap64 (sum + amount o)) matching received.

End SpecWords.

(** The fee as the specification words it: the inputs minus the outputs. *)
Definition spec_fee (tx : Transaction) : Z :=
  fold_right Z.add 0 (map input_amount (inputs tx))
  - fold_right Z.add 0 (map amount (outputs tx)).

(** The heights [i], [i - 1], ... of [n] blocks in descending order. *)
Definition heights_down (i : Z) (n : nat) : list Z :=
  map (fun k => i - Z.of_nat k) (seq 0 n).

(** ** A small node to run the handlers on

    A toy helper library (a real hexadecimal codec, a serialization that
    keeps only the extra field, a key agreement by exclusive or) and a toy
    chain; the examples below evaluate the handlers on them. *)

Module Fixture.

Definition byte_of_N (n : N) : byte :=
  match Byte.of_N (n mod 256) with
  | Some b => b
  | None => Byte.x00
  end.

Definition hex_digit (n : N) : Ascii.ascii :=
  Ascii.ascii_of_N (if (n <? 10)%N then 48 + n else 87 + n).

Definition hex_value (c : Ascii.ascii) : option N :=
  let n := Ascii.N_of_ascii c in
  if ((48 <=? n) && (n <=? 57))%N then Some (n - 48)%N
  else if ((97 <=? n) && (n <=? 102))%N then Some (n - 87)%N
  else if ((65 <=? n) && (n <=? 70))%N then Some (n - 55)%N
  else None.

Fixpoint hex_encode (b : list byte) : string :=
  match b with
  | [] => ""
  | x :: rest =>
      let n := Byte.to_N x in
      String (hex_digit (n / 16)) (String (hex_digit (n mod 16)) (hex_encode rest))
  end.

Fixpoint hex_decode (text : string) : option (list byte) :=
  match text with
  | EmptyString => Some []
  | String c1 (String c2 rest) =>
      match hex_value c1, hex_value c2, hex_decode rest with
      | Some v1, Some v2, Some bytes => Some (byte_of_N (v1 * 16 + v2) :: bytes)
      | _, _, _ => None
      end
  | String _ EmptyString => None
  end.

Definition xor_byte (a b : byte) : byte :=
  byte_of_N (N.lxor (Byte.to_N a) (Byte.to_N b)).

Fixpoint xor_bytes (a b : list byte) : list byte :=
  match a, b with
  | x :: a', y :: b' => xor_byte x y :: xor_bytes a' b'
  | _, _ => []
  end.

(** The toy key agreement: the public key of a secret key is the key
    itself, and the derivation is the exclusive or of the two keys. *)
Definition secret_key_to_public_key (sec : SecretKey) : PublicKey := sec.

Definition lib : Lib :=
  {| fromHex := hex_decode;
     toHex := hex_encode;
     podToHex := hex_encode;
     parse_hash256 := fun text =>
       match hex_decode text with
       | Some b => if (length b =? 32)%nat then Some b else None
       | None => None
       end;
     lexical_cast_uint32 := fun _ => None;
     to_string := fun z => DecimalString.NilZero.string_of_int (Z.to_int z);
     toBinaryArray_Block := fun b =>
       Byte.x01 :: Byte.x00 :: extra (baseTransaction b)
         ++ [byte_of_N (N.of_nat (length (transactionHashes b)))];
     toBinaryArray_Transaction := fun t => extra t;
     cn_fast_hash := fun b => firstn 32 (b ++ repeat Byte.x00 32);
     getTransactionPublicKeyFromExtra := fun ex =>
       match ex with
       | Byte.x01 :: rest =>
           if (32 <=? length rest)%nat then firstn 32 rest else NULL_PUBLIC_KEY
       | _ => NULL_PUBLIC_KEY
       end;
     getPaymentIdFromTxExtra := fun _ => None;
     get_block_hashing_blob := fun b => Some [Byte.x01; Byte.x00];
     medianValue := fun sizes => hd 0 sizes;
     generate_key_derivation := fun pub sec => Some (xor_bytes pub sec);
     derive_public_key := fun derivation index spend =>
       xor_bytes (xor_bytes derivation spend) (repeat (byte_of_N (Z.to_N index)) 32);
     memory_after := fun _ => [] |}.

(** Keys of the example: the transaction key pair, the view key pair and
    the public spend key of the recipient. *)
Definition tx_secret : SecretKey := repeat Byte.x05 32.
Definition view_secret : SecretKey := repeat Byte.x09 32.
Definition spend_public : PublicKey := repeat Byte.x30 32.

Definition recipient : AccountPublicAddress :=
  {| spendPublicKey := spend_public;
     viewPublicKey := secret_key_to_public_key view_secret |}.

(** A payment of 1000 units: 600 to the recipient at index 1, 300 to
    someone else, 100 left as fee. *)
Definition payment_tx : Transaction :=
  {| inputs := [KeyInput 1000 [3; 1; 4] (repeat Byte.x77 32)];
     outputs :=
       [ {| amount := 300; target := KeyOutput (repeat Byte.x42 32) |};
         {| amount := 600; target := KeyOutput (repeat Byte.x3d 32) |} ];
     extra := Byte.x01 :: secret_key_to_public_key tx_secret |}.

(** A payment that leaves 50 units, less than the minimal fee of the
    example node. *)
Definition cheap_tx : Transaction :=
  {| inputs := [KeyInput 1000 [2; 7] (repeat Byte.x78 32)];
     outputs := [ {| amount := 950; target := KeyOutput (repeat Byte.x42 32) |} ];
     extra := Byte.x01 :: secret_key_to_public_key tx_secret |}.

Definition coinbase_tx : Transaction :=
  {| inputs := [BaseInput 7];
     outputs := [ {| amount := 5; target := KeyOutput (repeat Byte.x42 32) |} ];
     extra := Byte.x01 :: repeat Byte.x2a 32 |}.

Definition payment_id : Hash := repeat Byte.x11 32.
Definition coinbase_id : Hash := repeat Byte.x22 32.

Definition tx_by_hash (id : Hash) : option Transaction :=
  if bytes_eqb id payment_id then Some payment_tx
  else if bytes_eqb id coinbase_id then Some coinbase_tx
  else None.

Definition genesis_id : Hash := repeat Byte.xaa 32.

Definition block_at (h : Z) : Block :=
  {| majorVersion := 1; minorVersion := 0; timestamp := 1000 + h;
     previousBlockHash := repeat (byte_of_N (Z.to_N (h - 1))) 32; nonce := 0;
     baseTransaction := coinbase_tx;
     transactionHashes := [payment_id] |}.

(** The candidate block of the miner: the extra field of its coinbase is
    the key tag, the key, the nonce tag, the size and the reserved
    bytes. *)
Definition template (reserve : BinaryArray) : Block :=
  {| majorVersion := 1; minorVersion := 0; timestamp := 2000;
     previousBlockHash := genesis_id; nonce := 0;
     baseTransaction :=
       {| inputs := [BaseInput 100];
          outputs := [ {| amount := 50; target := KeyOutput spend_public |} ];
          extra := Byte.x01 :: repeat Byte.x2a 32
                     ++ Byte.x02 :: byte_of_N (N.of_nat (length reserve)) :: reserve |};
     transactionHashes := [] |}.

Definition node (restricted testnet synchronized : bool) : Node :=
  {| get_current_blockchain_height := 100;
     getBlockIdByHeight := fun h =>
       if h =? 0 then genesis_id else repeat (byte_of_N (Z.to_N h)) 32;
     getBlockByHash := fun id => Some (block_at (Z.of_N (Byte.to_N (hd Byte.x00 id))));
     getBlockSize := fun _ => Some 40;
     getBlockDifficulty := fun _ => Some 5;
     getMinimalFeeForHeight := fun _ => 100;
     getTransactions := fun ids _ =>
       (omap tx_by_hash ids,
        List.filter (fun id => match tx_by_hash id with None => true | Some _ => false end) ids);
     getPoolTransactions := [payment_tx; cheap_tx];
     getBlockContainingTx := fun _ => None;
     getBackwardBlocksSizes := fun _ _ => Some [40];
     getAlreadyGeneratedCoins := fun _ => Some 500;
     getGeneratedTransactionsNumber := fun _ => Some 200;
     getBlockReward := fun _ _ _ _ _ => Some (5, 5);
     get_block_template := fun _ reserve => Some (template reserve, 5, 100);
     handle_incoming_block_blob := fun blob =>
       {| m_added_to_main_chain := bytes_eqb blob [Byte.x01];
          m_verification_failed := false;
          m_marked_as_orphaned := bytes_eqb blob [Byte.x02];
          m_already_exists := false;
          m_switched_to_alt_chain := false |};
     findBlockchainSupplement := fun _ _ => ([], 100, 0);
     have_block := fun _ => true;
     getBlock := fun _ => None;
     miner_start := fun _ _ => true;
     miner_stop := true;
     isTestnet := testnet;
     parseAccountAddressString := fun text =>
       if (String.length text =? 0)%nat then None else Some recipient;
     isSynchronized := synchronized;
     getObservedHeight := 100;
     MINIMUM_FEE := 100;
     CRYPTONOTE_REWARD_BLOCKS_WINDOW := 100;
     CRYPTONOTE_BLOCK_GRANTED_FULL_REWARD_ZONE := 1000000;
     COMMAND_RPC_GET_BLOCKS_FAST_MAX_COUNT := 500;
     m_restricted_rpc := restricted;
     m_cors_domain := "";
     indeterminate := 0 |}.

End Fixture.

(** ** Further calls of the collaborators

    The calls of the handlers below that [Node] and [Lib] do not list:
    the admission of a transaction, the relay policy of the node, the pool
    changes, the serialization that can fail, the Base58 codec and the
    check of a signature. *)

Module tx_verification_context.
Record t := {
  m_should_be_relayed : bool;
  m_verification_failed : bool
}.
End tx_verification_context.

Definition NULL_SECRET_KEY : SecretKey := repeat Byte.x00 32.
Definition NULL_HASH : Hash := repeat Byte.x00 32.
Definition sizeof_Signature : Z := 64.

Record Collaborators := {
  (* m_core *)
  handle_incoming_tx : BinaryArray -> bool * tx_verification_context.t;
  getPoolChanges : Hash -> list Hash -> bool * list Transaction * list Hash;
  get_blockchain_top : Z * Hash;
  (* CryptoNoteTools, CryptoNoteFormatUtils, Base58, crypto *)
  toBinaryArray_checked : Transaction -> option BinaryArray;
  parseAndValidateTransactionFromBinaryArray : BinaryArray -> option Transaction;
  findOutputsToAccount :
    Transaction -> AccountPublicAddress -> SecretKey -> option (list Z * Z);
  Base58_decode : string -> option (list byte);
  check_signature : Hash -> PublicKey -> list byte -> bool;
  (* configuration of the server *)
  m_fee_address : string;
  m_fee_acc : AccountPublicAddress;
  m_view_key : SecretKey
}.

(** ** The codec wrappers of the method table *)

Section CodecWrappers.
Context {Req Res : Type}.

(** [binMethod]: [load] is [loadFromBinaryKeyValue] into a
    value-initialized request, [store] is [storeToBinaryKeyValue], [res0]
    the value-initialized response, [handler] the member function. *)
Definition binMethod (load : string -> option Req) (store : Res -> string) (res0 : Res)
    (handler : Req -> Res -> Traced (bool * Res)) : HandlerFunction :=
  fun request response =>
    match load (getBody request) with
    | None => mret (false, response)
    | Some req =>
        '(result, res) ← handler req res0;
        mret (result, HttpResponse.setBody (store res) response)
    end.

(** [jsonMethod]: the same with [loadFromJson] and [storeToJson]. *)
Definition jsonMethod (load : string -> option Req) (store : Res -> string) (res0 : Res)
    (handler : Req -> Res -> Traced (bool * Res)) : HandlerFunction :=
  fun request response =>
    match load (getBody request) with
    | None => mret (false, response)
    | Some req =>
        '(result, res) ← handler req res0;
        mret (result, HttpResponse.setBody (store res) response)
    end.

End CodecWrappers.

(** ** sendrawtransaction and the relay fee gate *)

Module COMMAND_RPC_SEND_RAW_TX.
Record request := {
  tx_as_hex : string
}.
Record response := {
  status : string
}.
End COMMAND_RPC_SEND_RAW_TX.

(** The request [relay_transactions] is called with. *)
Module NOTIFY_NEW_TRANSACTIONS.
Record request := {
  txs : list BinaryArray
}.
End NOTIFY_NEW_TRANSACTIONS.

Section SendRawTx.
Import COMMAND_RPC_SEND_RAW_TX.
Variable L : Lib.
Variable C : Collaborators.

Definition masternode_check_incoming_tx (tx_blob : BinaryArray) : bool :=
  match parseAndValidateTransactionFromBinaryArray C tx_blob with
  | None => false
  | Some transaction =>
      match findOutputsToAccount C transaction (m_fee_acc C) (m_view_key C) with
      | None => false
      | Some (out, amount) => negb (amount =? 0)
      end
  end.

(** [on_send_raw_tx]; beside the result, the requests handed to
    [relay_transactions], in order. *)
Definition on_send_raw_tx (req : request)
    : (bool * response) * list NOTIFY_NEW_TRANSACTIONS.request :=
  let answer s := ((true, {| status := s |}), []) in
  match fromHex L (tx_as_hex req) with
  | None => answer "Failed"
  | Some tx_blob =>
      let '(handled, tvc) := handle_incoming_tx C tx_blob in
      if negb handled then answer "Failed"
      else if tx_verification_context.m_verification_failed tvc then answer "Failed"
      else if negb (tx_verification_context.m_should_be_relayed tvc)
      then answer "Not relayed"
      else if negb (String.length (m_fee_address C) =? 0)%nat
                && negb (bytes_eqb (m_view_key C) NULL_SECRET_KEY)
                && negb (masternode_check_incoming_tx tx_blob)
      then answer "Not relayed due to lack of node fee"
      else
        ((true, {| status := CORE_RPC_STATUS_OK |}),
         [ {| NOTIFY_NEW_TRANSACTIONS.txs := [tx_blob] |} ])
  end.

End SendRawTx.

(** ** get_pool_changes *)

Module COMMAND_RPC_GET_POOL_CHANGES.
Record request := {
  tailBlockId : Hash;
  knownTxsIds : list Hash
}.
Record response := {
  isTailBlockActual : bool;
  addedTxs : list BinaryArray;
  deletedTxsIds : list Hash;
  status : string
}.
End COMMAND_RPC_GET_POOL_CHANGES.

Section PoolChanges.
Import COMMAND_RPC_GET_POOL_CHANGES.
Variable C : Collaborators.

(** The loop over the added transactions, over [rsp.addedTxs] and
    [rsp.status]; it breaks at the first transaction that does not
    serialize. *)
Fixpoint pool_changes_loop (addedTransactions : list Transaction)
    (added : list BinaryArray) (st : string) : list BinaryArray * string :=
  match addedTransactions with
  | [] => (added, st)
  | tx :: rest =>
      match toBinaryArray_checked C tx with
      | None => (added, "Internal error")
      | Some txBlob => pool_changes_loop rest (added ++ [txBlob]) st
      end
  end.

Definition onGetPoolChanges (req : request) : bool * response :=
  let '(actual, addedTransactions, deleted) :=
    getPoolChanges C (tailBlockId req) (knownTxsIds req) in
  let '(added, st) := pool_changes_loop addedTransactions [] CORE_RPC_STATUS_OK in
  (true, {| isTailBlockActual := actual;
            addedTxs := added;
            deletedTxsIds := deleted;
            status := st |}).

End PoolChanges.

(** ** Block headers and block ids *)

Module COMMAND_RPC_GET_BLOCK_HEADER_BY_HEIGHT.
Record request := {
  height : Z
}.
Record response := {
  block_header : block_header_response;
  status : string
}.
End COMMAND_RPC_GET_BLOCK_HEADER_BY_HEIGHT.

Module COMMAND_RPC_GET_BLOCK_HEADER_BY_HASH.
Record request := {
  hash : string
}.
Record response := {
  block_header : block_header_response;
  status : string
}.
End COMMAND_RPC_GET_BLOCK_HEADER_BY_HASH.

Module COMMAND_RPC_GET_LAST_BLOCK_HEADER.
Record response := {
  block_header : block_header_response;
  status : string
}.
End COMMAND_RPC_GET_LAST_BLOCK_HEADER.

Section BlockHeaders.
Variable L : Lib.
Variable N : Node.
Variable C : Collaborators.

(** The request is the JSON array of the parameters, of [uint64_t]; the
    response is the id as text. *)
Definition on_getblockhash (req : list Z) : Outcome (bool * string) :=
  match req with
  | [height] =>
      let h := wrap32 height in
      let blockId := getBlockIdByHeight N h in
      if bytes_eqb blockId NULL_HASH then
        Throw {| code := CORE_RPC_ERROR_CODE_TOO_BIG_HEIGHT;
                 message := "To big height: " +:+ to_string L h
                              +:+ ", current blockchain height = "
                              +:+ to_string L (get_current_blockchain_height N) |}
      else mret (true, podToHex L blockId)
  | _ => Throw {| code := CORE_RPC_ERROR_CODE_WRONG_PARAM;
                  message := "Wrong parameters, expected height" |}
  end.

Definition on_get_block_header_by_height
    (req : COMMAND_RPC_GET_BLOCK_HEADER_BY_HEIGHT.request)
    : Outcome (bool * COMMAND_RPC_GET_BLOCK_HEADER_BY_HEIGHT.response) :=
  let req_height := COMMAND_RPC_GET_BLOCK_HEADER_BY_HEIGHT.height req in
  if get_current_blockchain_height N <=? req_height then
    Throw {| code := CORE_RPC_ERROR_CODE_TOO_BIG_HEIGHT;
             message := "To big height: " +:+ to_string L req_height
                          +:+ ", current blockchain height = "
                          +:+ to_string L (get_current_blockchain_height N) |}
  else
    let block_hash := getBlockIdByHeight N (wrap32 req_height) in
    blk ← require_some (getBlockByHash N block_hash)
            CORE_RPC_ERROR_CODE_INTERNAL_ERROR
            ("Internal error: can't get block by height. Height = "
               +:+ to_string L req_height +:+ ".");
    let tmp_hash := getBlockIdByHeight N (wrap32 req_height) in
    let is_orphaned := negb (bytes_eqb block_hash tmp_hash) in
    mret (true,
          {| COMMAND_RPC_GET_BLOCK_HEADER_BY_HEIGHT.block_header :=
               fill_block_header_response L N blk is_orphaned req_height block_hash;
             COMMAND_RPC_GET_BLOCK_HEADER_BY_HEIGHT.status := CORE_RPC_STATUS_OK |}).

Definition on_get_block_header_by_hash
    (req : COMMAND_RPC_GET_BLOCK_HEADER_BY_HASH.request)
    : Outcome (bool * COMMAND_RPC_GET_BLOCK_HEADER_BY_HASH.response) :=
  let req_hash := COMMAND_RPC_GET_BLOCK_HEADER_BY_HASH.hash req in
  block_hash ← require_some (parse_hash256 L req_hash)
                 CORE_RPC_ERROR_CODE_WRONG_PARAM
                 ("Failed to parse hex representation of block hash. Hex = "
                    +:+ req_hash +:+ ".");
  blk ← require_some (getBlockByHash N block_hash)
          CORE_RPC_ERROR_CODE_INTERNAL_ERROR
          ("Internal error: can't get block by hash. Hash = " +:+ req_hash +:+ ".");
  block_height ← match inputs (baseTransaction blk) with
                  | BaseInput blockIndex :: _ => mret blockIndex
                  | _ => Throw {| code := CORE_RPC_ERROR_CODE_INTERNAL_ERROR;
                                  message := "Internal error: coinbase transaction in the block has the wrong type" |}
                  end;
  let tmp_hash := getBlockIdByHeight N (wrap32 block_height) in
  let is_orphaned := negb (bytes_eqb block_hash tmp_hash) in
  mret (true,
        {| COMMAND_RPC_GET_BLOCK_HEADER_BY_HASH.block_header :=
             fill_block_header_response L N blk is_orphaned block_height block_hash;
           COMMAND_RPC_GET_BLOCK_HEADER_BY_HASH.status := CORE_RPC_STATUS_OK |}).

Definition on_get_last_block_header
    : Outcome (bool * COMMAND_RPC_GET_LAST_BLOCK_HEADER.response) :=
  let '(last_block_height, last_block_hash) := get_blockchain_top C in
  last_block ← require_some (getBlockByHash N last_block_hash)
                 CORE_RPC_ERROR_CODE_INTERNAL_ERROR
                 "Internal error: can't get last block hash.";
  let tmp_hash := getBlockIdByHeight N last_block_height in
  let is_orphaned := negb (bytes_eqb last_block_hash tmp_hash) in
  mret (true,
        {| COMMAND_RPC_GET_LAST_BLOCK_HEADER.block_header :=
             fill_block_header_response L N last_block is_orphaned last_block_height
               last_block_hash;
           COMMAND_RPC_GET_LAST_BLOCK_HEADER.status := CORE_RPC_STATUS_OK |}).

End BlockHeaders.

(** ** verifymessage *)

Module COMMAND_RPC_VERIFY_MESSAGE.
Record request := {
  message : string;
  address : string;
  signature : string
}.
Record response := {
  sig_valid : bool;
  status : string
}.
End COMMAND_RPC_VERIFY_MESSAGE.

Section VerifyMessage.
Variable L : Lib.
Variable N : Node.
Variable C : Collaborators.

(** [s.substr(pos)]: the text from [pos] to the end. *)
Definition substr_from (pos : nat) (s : string) : string :=
  String.substring pos (String.length s - pos) s.

Definition on_verify_message (req : COMMAND_RPC_VERIFY_MESSAGE.request)
    : Outcome (bool * COMMAND_RPC_VERIFY_MESSAGE.response) :=
  let req_signature := COMMAND_RPC_VERIFY_MESSAGE.signature req in
  let hash :=
    cn_fast_hash L (String.list_byte_of_string (COMMAND_RPC_VERIFY_MESSAGE.message req)) in
  acc ← require_some
          (parseAccountAddressString N (COMMAND_RPC_VERIFY_MESSAGE.address req))
          CORE_RPC_ERROR_CODE_WRONG_PARAM "Failed to parse address";
  let header_len := String.length "SigV1" in
  _ ← require (negb ((String.length req_signature <? header_len)%nat
                      || negb (String.eqb (String.substring 0 header_len req_signature)
                                 "SigV1")))
        CORE_RPC_ERROR_CODE_WRONG_PARAM "Signature header check error";
  decoded ← require_some
              (match Base58_decode C (substr_from header_len req_signature) with
               | Some decoded =>
                   if Z.of_nat (length decoded) =? sizeof_Signature
                   then Some decoded else None
               | None => None
               end)
              CORE_RPC_ERROR_CODE_WRONG_PARAM "Signature decoding error";
  mret (true,
        {| COMMAND_RPC_VERIFY_MESSAGE.sig_valid :=
             check_signature C hash (spendPublicKey acc) decoded;
           COMMAND_RPC_VERIFY_MESSAGE.status := CORE_RPC_STATUS_OK |}).

End VerifyMessage.

(** ** Words for the further properties *)

(** The entry of [get_blocks] for a complete block: its serialization and
    the serializations of its transactions. *)
Definition complete_entry (L : Lib) (cb : CompleteBlock)
    : COMMAND_RPC_GET_BLOCKS_FAST.block_complete_entry :=
  {| COMMAND_RPC_GET_BLOCKS_FAST.block := toBinaryArray_Block L (cb_getBlock cb);
     COMMAND_RPC_GET_BLOCKS_FAST.txs :=
       map (toBinaryArray_Transaction L) (cb_transactions cb) |}.

(** The ring size of an input: the number of output indexes of a key
    input, 0 for the other inputs. *)
Definition ring_size (txin : TransactionInput) : Z :=
  match txin with
  | KeyInput _ outputIndexes _ => Z.of_nat (length outputIndexes)
  | _ => 0
  end.

(** The paths and the JSON-RPC methods by the flag of their entry. *)
Definition busy_paths : list string :=
  ["/getinfo"; "/getheight"; "/feeaddress"; "/peers"; "/paymentid"; "/stop_daemon";
   "/json_rpc"].

Definition gated_paths : list string :=
  ["/getblocks.bin"; "/queryblocks.bin"; "/queryblockslite.bin"; "/get_o_indexes.bin";
   "/getrandom_outs.bin"; "/get_pool_changes.bin"; "/get_pool_changes_lite.bin";
   "/gettransactions"; "/sendrawtransaction"; "/start_mining"; "/stop_mining"].

Definition busy_methods : list string := ["getblockcount"; "getcurrencyid"].

Definition gated_methods : list string :=
  ["on_getblockhash"; "getblocktemplate"; "submitblock"; "getlastblockheader";
   "getblockheaderbyhash"; "getblockheaderbyheight"; "f_blocks_list_json"; "f_block_json";
   "f_transaction_json"; "f_pool_json"; "f_mempool_json"; "k_transactions_by_payment_id";
   "get_transaction_hashes_by_payment_id"; "check_tx_key"; "check_tx_with_view_key";
   "validateaddress"; "verifymessage"].

(** The readiness queries made for a gated entry on a ready node. *)
Definition asked_when_ready (N : Node) : list Event :=
  if isTestnet N then [EvIsTestnet] else [EvIsTestnet; EvIsSynchronized].

(** ** More of the example node *)

Module Fixture2.

(** A transaction with an empty extra field, which the toy serialization
    with a check refuses. *)
Definition bare_tx : Transaction :=
  {| inputs := [KeyInput 10 [1] (repeat Byte.x79 32)];
     outputs := [ {| amount := 9; target := KeyOutput (repeat Byte.x42 32) |} ];
     extra := [] |}.

(** A payment of 40 units to the fee account of the node. *)
Definition fee_paying_tx : Transaction :=
  {| inputs := [KeyInput 1000 [5; 6] (repeat Byte.x7a 32)];
     outputs :=
       [ {| amount := 900; target := KeyOutput (repeat Byte.x42 32) |};
         {| amount := 40; target := KeyOutput Fixture.spend_public |} ];
     extra := Byte.x01 :: Fixture.tx_secret |}.

Definition paid_to (acc : AccountPublicAddress) (tx : Transaction) : Z :=
  fold_left
    (fun sum o =>
       match target o with
       | KeyOutput key => if bytes_eqb key (spendPublicKey acc) then sum + amount o else sum
       | MultisignatureOutput _ _ => sum
       end)
    (outputs tx) 0.

Definition collaborators (fee_address : string) (view_key : SecretKey) : Collaborators :=
  {| handle_incoming_tx := fun blob =>
       (negb (bytes_eqb blob []),
        {| tx_verification_context.m_should_be_relayed :=
             negb (bytes_eqb (firstn 1 blob) [Byte.xff]);
           tx_verification_context.m_verification_failed :=
             bytes_eqb (firstn 1 blob) [Byte.x00] |});
     getPoolChanges := fun _ _ =>
       (false, [Fixture.payment_tx; bare_tx; Fixture.cheap_tx], [Fixture.coinbase_id]);
     get_blockchain_top := (99, repeat (Fixture.byte_of_N 99) 32);
     toBinaryArray_checked := fun tx =>
       match extra tx with
       | [] => None
       | _ :: _ => Some (extra tx)
       end;
     parseAndValidateTransactionFromBinaryArray := fun blob =>
       if bytes_eqb blob [Byte.x01] then Some fee_paying_tx
       else if bytes_eqb blob [Byte.x02] then Some Fixture.payment_tx
       else None;
     findOutputsToAccount := fun tx acc _ => Some ([], paid_to acc tx);
     Base58_decode := Fixture.hex_decode;
     check_signature := fun _ pub sig => bytes_eqb (firstn 32 sig) pub;
     m_fee_address := fee_address;
     m_fee_acc := Fixture.recipient;
     m_view_key := view_key |}.

(** The example node with a supplement of two blocks for every locator:
    the blocks at the heights 1 and 2. *)
Definition supplement : list Hash := [repeat Byte.x01 32; repeat Byte.x02 32].

Definition complete_block (id : Hash) : CompleteBlock :=
  {| cb_getBlock := Fixture.block_at (Z.of_N (Byte.to_N (hd Byte.x00 id)));
     cb_transactions := [Fixture.payment_tx] |}.

Definition syncing_node : Node :=
  let n := Fixture.node false false true in
  {| get_current_blockchain_height := get_current_blockchain_height n;
     getBlockIdByHeight := getBlockIdByHeight n;
     getBlockByHash := getBlockByHash n;
     getBlockSize := getBlockSize n;
     getBlockDifficulty := getBlockDifficulty n;
     getMinimalFeeForHeight := getMinimalFeeForHeight n;
     getTransactions := getTransactions n;
     getPoolTransactions := getPoolTransactions n;
     getBlockContainingTx := getBlockContainingTx n;
     getBackwardBlocksSizes := getBackwardBlocksSizes n;
     getAlreadyGeneratedCoins := getAlreadyGeneratedCoins n;
     getGeneratedTransactionsNumber := getGeneratedTransactionsNumber n;
     getBlockReward := getBlockReward n;
     get_block_template := get_block_template n;
     handle_incoming_block_blob := handle_incoming_block_blob n;
     findBlockchainSupplement := fun _ _ => (supplement, 100, 1);
     have_block := have_block n;
     getBlock := fun id => Some (complete_block id);
     miner_start := miner_start n;
     miner_stop := miner_stop n;
     isTestnet := isTestnet n;
     parseAccountAddressString := parseAccountAddressString n;
     isSynchronized := isSynchronized n;
     getObservedHeight := getObservedHeight n;
     MINIMUM_FEE := MINIMUM_FEE n;
     CRYPTONOTE_REWARD_BLOCKS_WINDOW := CRYPTONOTE_REWARD_BLOCKS_WINDOW n;
     CRYPTONOTE_BLOCK_GRANTED_FULL_REWARD_ZONE := CRYPTONOTE_BLOCK_GRANTED_FULL_REWARD_ZONE n;
     COMMAND_RPC_GET_BLOCKS_FAST_MAX_COUNT := COMMAND_RPC_GET_BLOCKS_FAST_MAX_COUNT n;
     m_restricted_rpc := m_restricted_rpc n;
     m_cors_domain := "https://explorer.example";
     indeterminate := indeterminate n |}.

End Fixture2.

(** * Properties *)

(** ** Machine integers and bytes *)

Lemma wrap32_small z : 0 <= z < 2 ^ 32 -> wrap32 z = z.
Proof. intros Hz. unfold wrap32. apply Z.mod_small. exact Hz. Qed.

Lemma wrap64_small z : 0 <= z < 2 ^ 64 -> wrap64 z = z.
Proof. intros Hz. unfold wrap64. apply Z.mod_small. exact Hz. Qed.

Lemma byte_eqb_refl (c : byte) : Byte.eqb c c = true.
Proof. apply Byte.byte_dec_lb. reflexivity. Qed.

Lemma bytes_eqb_eq a b : bytes_eqb a b = true <-> a = b.
Proof.
  revert b; induction a as [|x a IH]; intros [|y b]; simpl; try (split; congruence).
  rewrite andb_true_iff, IH. split.
  - intros [Hx ->]. apply Byte.byte_dec_bl in Hx. congruence.
  - intros [= -> ->]. split; [apply Byte.byte_dec_lb|]; reflexivity.
Qed.

(** ** slow_memmem finds the first occurrence *)

Section MemmemFacts.
Import Memmem.

Lemma memchr_Some mem c n : forall from p,
  memchr mem from c n = Some p ->
  (from <= p < from + n)%nat /\ nth_error mem p = Some c /\
  forall q, (from <= q < p)%nat -> nth_error mem q <> Some c.
Proof.
  induction n as [|n IH]; intros from p; simpl; [discriminate|].
  destruct (nth_error mem from) as [b|] eqn:Hb; [|discriminate].
  destruct (Byte.eqb b c) eqn:Hbc.
  - intros [= <-]. apply Byte.byte_dec_bl in Hbc. subst b.
    repeat split; try lia; exact Hb.
  - intros Hp. apply IH in Hp as (Hr & Hn & Hq).
    repeat split; try lia; [exact Hn|].
    intros q Hlt. destruct (Nat.eq_dec q from) as [->|Hne].
    + rewrite Hb. intros [= ->].
      rewrite byte_eqb_refl in Hbc. discriminate.
    + apply Hq. lia.
Qed.

Lemma memchr_None mem c n : forall from,
  memchr mem from c n = None ->
  forall q, (from <= q < from + n)%nat -> nth_error mem q <> Some c.
Proof.
  induction n as [|n IH]; intros from; simpl; [intros _ q Hq; lia|].
  destruct (nth_error mem from) as [b|] eqn:Hb.
  - destruct (Byte.eqb b c) eqn:Hbc; [discriminate|].
    intros Hnone q Hq. destruct (Nat.eq_dec q from) as [->|Hne].
    + rewrite Hb. intros [= ->].
      rewrite byte_eqb_refl in Hbc. discriminate.
    + apply (IH _ Hnone). lia.
  - intros _ q Hq Hsome.
    apply nth_error_None in Hb.
    assert (q < length mem)%nat by (apply nth_error_Some; congruence).
    lia.
Qed.

(** Inside the buffer the comparison does not see what follows it. *)
Lemma memcmp_eq_inside blob after pat p :
  (p + length pat <= length blob)%nat ->
  memcmp_eq (blob ++ after) p pat = true <->
  firstn (length pat) (skipn p blob) = pat.
Proof.
  intros Hin. unfold memcmp_eq. rewrite bytes_eqb_eq.
  rewrite skipn_app, firstn_app, length_skipn.
  replace (length pat - (length blob - p))%nat with 0%nat by lia.
  simpl. rewrite app_nil_r. reflexivity.
Qed.

Lemma occurs_at_first_byte blob after pat q :
  pat <> [] -> occurs_at blob pat q ->
  nth_error (blob ++ after) q = Some (nth 0 pat Byte.x00).
Proof.
  intros Hne [Hlen Heq]. destruct pat as [|c pat']; [congruence|]. simpl in *.
  rewrite nth_error_app1 by lia.
  destruct (skipn q blob) as [|x rest] eqn:Hs; [discriminate|].
  injection Heq as -> _.
  rewrite <- (Nat.add_0_r q), <- nth_error_skipn, Hs. reflexivity.
Qed.

Lemma slow_memmem_loop_spec blob after pat : pat <> [] ->
  forall fuel buf,
    (buf <= length blob)%nat ->
    (length blob < fuel + buf)%nat ->
    (forall q, (q < buf)%nat -> ~ occurs_at blob pat q) ->
    exists r, slow_memmem_loop fuel (blob ++ after) (length blob) pat buf = Some r /\
              search_result blob pat r.
Proof.
  intros Hne. induction fuel as [|fuel IH]; intros buf Hbuf Hfuel Hinv; [lia|].
  simpl.
  assert (Hfirst : forall q, occurs_at blob pat q -> (buf <= q < buf + length blob)%nat /\
            nth_error (blob ++ after) q = Some (nth 0 pat Byte.x00)).
  { intros q Hq. split; [|apply occurs_at_first_byte; assumption].
    destruct (Nat.lt_ge_cases q buf) as [Hlt|Hge]; [destruct (Hinv q Hlt Hq)|].
    destruct Hq as [Hq _]. destruct pat; [congruence|]. simpl in Hq. lia. }
  destruct (memchr (blob ++ after) buf (nth 0 pat Byte.x00) (length blob)) as [p|] eqn:Hm.
  - apply memchr_Some in Hm as (Hrange & Hp & Hbefore).
    destruct (Z.ltb_spec (Z.of_nat (length blob) - Z.of_nat (length pat)) (Z.of_nat p)) as [Hend|Hend].
    + exists 0. split; [reflexivity|]. left. split; [|reflexivity].
      intros q Hq. destruct (Hfirst q Hq) as [Hr Hc].
      apply (Hbefore q); [|exact Hc]. destruct Hq as [Hq _]. lia.
    + assert (Hin : (p + length pat <= length blob)%nat) by lia.
      destruct (memcmp_eq (blob ++ after) p pat) eqn:Hcmp.
      * exists (wrap64 (Z.of_nat p)). split; [reflexivity|]. right. exists p.
        split; [|reflexivity]. split.
        -- split; [exact Hin|]. apply (memcmp_eq_inside blob after); assumption.
        -- intros q Hq Hocc. destruct (Hfirst q Hocc) as [Hr Hc].
           apply (Hbefore q); [lia|exact Hc].
      * assert (Hpat : (1 <= length pat)%nat) by (destruct pat; [congruence|simpl; lia]).
        apply IH; try lia.
        intros q Hq Hocc. destruct (Nat.eq_dec q p) as [->|Hqp].
        -- destruct Hocc as [_ Heq].
           apply (memcmp_eq_inside blob after) in Heq; [congruence|exact Hin].
        -- destruct (Hfirst q Hocc) as [Hr Hc]. apply (Hbefore q); [lia|exact Hc].
  - exists 0. split; [reflexivity|]. left. split; [|reflexivity].
    intros q Hq. destruct (Hfirst q Hq) as [Hr Hc].
    apply (memchr_None _ _ _ _ Hm q); [lia|exact Hc].
Qed.

(** The search terminates within [length blob + 1] rounds, whatever
    follows the buffer in memory. *)
Lemma slow_memmem_spec after blob pat fuel :
  pat <> [] -> (length blob < fuel)%nat ->
  exists r, slow_memmem fuel after blob pat = Some r /\ search_result blob pat r.
Proof.
  intros Hne Hfuel. unfold slow_memmem.
  apply slow_memmem_loop_spec; try assumption; lia.
Qed.

Lemma first_occurrence_unique blob pat p q :
  first_occurrence blob pat p -> first_occurrence blob pat q -> p = q.
Proof.
  intros [Hp Hpm] [Hq Hqm].
  destruct (Nat.lt_trichotomy p q) as [Hlt|[Heq|Hgt]]; [|exact Heq|].
  - destruct (Hqm p Hlt Hp).
  - destruct (Hpm q Hgt Hq).
Qed.

End MemmemFacts.

(** ** getblocktemplate: the reserved offset *)

Section GetBlockTemplateFacts.
Import COMMAND_RPC_GETBLOCKTEMPLATE Memmem.
Variable L : Lib.
Variable N : Node.

(** C1. For a request with [0 < reserve_size <= 255] whose candidate
    block was built (the address parsed, the engine gave a template, the
    coinbase carries a key of 32 bytes), the handler terminates; when it
    returns, [reserved_offset] is the offset of the first occurrence of
    the key in the serialized block plus the size of the key plus 3, and
    [reserved_offset + reserve_size] is at most the length of the blob;
    when the key does not occur in the blob, or the region computed from
    its first occurrence does not fit, the call raises the internal
    error. And it does return, with that offset, the blob as text and the
    status [OK], when the first occurrence of the key lies after the
    start of the blob, the region fits and the hashing blob is built. *)
Theorem on_getblocktemplate_reserved_offset
    (fuel : nat) (req : request) (b : Block) (diffic h : Z)
    (blob : BinaryArray) (key : PublicKey) :
  0 < reserve_size req <= 255 ->
  getblocktemplate_candidate L N req = Ret (b, diffic, h, blob, key) ->
  length key = 32%nat ->
  Z.of_nat (length blob) + 35 + 255 < 2 ^ 64 ->
  (length blob < fuel)%nat ->
  exists o, on_getblocktemplate L N fuel req = Some o /\
    (forall flag res, o = Ret (flag, res) ->
       blocktemplate_blob res = toHex L blob /\
       exists p, first_occurrence blob key p /\
         reserved_offset res = Z.of_nat p + Z.of_nat (length key) + 3 /\
         reserved_offset res + reserve_size req <= Z.of_nat (length blob)) /\
    ((forall q, ~ occurs_at blob key q) \/
     (exists p, first_occurrence blob key p /\
        Z.of_nat (length blob) < Z.of_nat p + Z.of_nat (length key) + 3 + reserve_size req) ->
     exists msg, o = Throw {| code := CORE_RPC_ERROR_CODE_INTERNAL_ERROR; message := msg |}) /\
    (forall p hashing_blob,
       first_occurrence blob key p ->
       (0 < p)%nat ->
       Z.of_nat p + Z.of_nat (length key) + 3 + reserve_size req <= Z.of_nat (length blob) ->
       get_block_hashing_blob L b = Some hashing_blob ->
       o = Ret (true,
                {| difficulty := diffic;
                   height := h;
                   reserved_offset := Z.of_nat p + Z.of_nat (length key) + 3;
                   blocktemplate_blob := toHex L blob;
                   blockhashing_blob := toHex L hashing_blob;
                   status := "OK" |})).
Proof.
  intros [Hpos Hmax] Hcand Hkey Hsize Hfuel.
  unfold on_getblocktemplate. rewrite Hcand.
  unfold getblocktemplate_reserved_offset.
  destruct (Z.ltb_spec 0 (reserve_size req)) as [_|]; [|lia].
  assert (Hne : key <> []) by (destruct key; [discriminate|congruence]).
  destruct (slow_memmem_spec (memory_after L blob) blob key fuel Hne Hfuel)
    as (r & -> & Hr).
  rewrite Hkey. change (Z.of_nat 32) with 32. unfold sizeof_PublicKey.
  destruct Hr as [[Hnone ->]|(p & Hfirst & ->)].
  - (* the key does not occur *)
    simpl. eexists. split; [reflexivity|]. split; [discriminate|].
    split; [intros _; eexists; reflexivity|].
    intros q hb [Hq _] _ _ _. destruct (Hnone q Hq).
  - assert (Hp : (p + 32 <= length blob)%nat).
    { destruct Hfirst as [[Hin _] _]. rewrite Hkey in Hin. exact Hin. }
    rewrite (wrap64_small (Z.of_nat p)) by lia.
    destruct (Z.eqb_spec (Z.of_nat p) 0) as [Hzero|Hnz].
    + (* an occurrence at offset 0 reads as a failed search *)
      eexists. split; [reflexivity|]. split; [discriminate|].
      split; [intros _; eexists; reflexivity|].
      intros q hb Hq Hqpos _ _.
      rewrite (first_occurrence_unique _ _ _ _ Hq Hfirst) in Hqpos. lia.
    + rewrite (wrap64_small (Z.of_nat p + 32 + 3)) by lia.
      rewrite (wrap64_small (Z.of_nat p + 32 + 3 + reserve_size req)) by lia.
      destruct (Z.ltb_spec (Z.of_nat (length blob))
                  (Z.of_nat p + 32 + 3 + reserve_size req)) as [Hbig|Hfit].
      * eexists. split; [reflexivity|]. split; [discriminate|].
        split; [intros _; eexists; reflexivity|].
        intros q hb Hq _ Hqfit _.
        rewrite (first_occurrence_unique _ _ _ _ Hq Hfirst) in Hqfit. lia.
      * destruct (get_block_hashing_blob L b) as [hb|] eqn:Hhb.
        -- eexists. split; [reflexivity|]. split; [|split].
           ++ intros flag res [= <- <-]. simpl. split; [reflexivity|].
              exists p. repeat split; try apply Hfirst; lia.
           ++ intros [Hnone|(q & Hq & Hbig)].
              ** destruct (Hnone p). apply Hfirst.
              ** rewrite (first_occurrence_unique _ _ _ _ Hq Hfirst) in Hbig. lia.
           ++ intros q hb' Hq _ _ [= <-].
              rewrite (first_occurrence_unique _ _ _ _ Hq Hfirst). reflexivity.
        -- eexists. split; [reflexivity|]. split; [discriminate|].
           split; [intros _; eexists; reflexivity|].
           intros q hb _ _ _ Hsome. discriminate Hsome.
Qed.

End GetBlockTemplateFacts.

Lemma on_getblocktemplate_reserved_offset_witness :
  on_getblocktemplate Fixture.lib (Fixture.node false false true) 64
    {| COMMAND_RPC_GETBLOCKTEMPLATE.reserve_size := 4;
       COMMAND_RPC_GETBLOCKTEMPLATE.wallet_address := "K" |} =
    Some (Ret (true,
               {| COMMAND_RPC_GETBLOCKTEMPLATE.difficulty := 5;
                  COMMAND_RPC_GETBLOCKTEMPLATE.height := 100;
                  COMMAND_RPC_GETBLOCKTEMPLATE.reserved_offset := 3 + 32 + 3;
                  COMMAND_RPC_GETBLOCKTEMPLATE.blocktemplate_blob :=
                    toHex Fixture.lib
                      (toBinaryArray_Block Fixture.lib (Fixture.template (repeat Byte.x00 4)));
                  COMMAND_RPC_GETBLOCKTEMPLATE.blockhashing_blob :=
                    toHex Fixture.lib [Byte.x01; Byte.x00];
                  COMMAND_RPC_GETBLOCKTEMPLATE.status := "OK" |})).
Proof.
  destruct (on_getblocktemplate_reserved_offset Fixture.lib (Fixture.node false false true) 64
              {| COMMAND_RPC_GETBLOCKTEMPLATE.reserve_size := 4;
                 COMMAND_RPC_GETBLOCKTEMPLATE.wallet_address := "K" |}
              (Fixture.template (repeat Byte.x00 4)) 5 100
              (toBinaryArray_Block Fixture.lib (Fixture.template (repeat Byte.x00 4)))
              (repeat Byte.x2a 32))
    as (o & Heq & _ & _ & Hreturns).
  - simpl. lia.
  - reflexivity.
  - reflexivity.
  - vm_compute. reflexivity.
  - vm_compute. lia.
  - rewrite Heq. f_equal.
    apply (Hreturns 3%nat [Byte.x01; Byte.x00]).
    + split.
      * split; [vm_compute; lia|reflexivity].
      * intros q Hq [_ Hocc].
        destruct q as [|[|[|q]]]; [vm_compute in Hocc; discriminate..|lia].
    + lia.
    + vm_compute. discriminate.
    + reflexivity.
Defined.

(** ** The record of calls *)

Lemma traced_bind_call {A B} (e : Event) (a : A) (k : A -> Traced B) (tr : list Event) :
  (call e a ≫= k) tr = k a (tr ++ [e]).
Proof. reflexivity. Qed.

Lemma traced_bind_ret {A B} (a : A) (k : A -> Traced B) (tr : list Event) :
  (mret a ≫= k) tr = k a tr.
Proof. reflexivity. Qed.

Lemma traced_bind_bind {A B C} (m : Traced A) (k : A -> Traced B) (k' : B -> Traced C)
    (tr : list Event) :
  ((m ≫= k) ≫= k') tr = (m ≫= (fun a => k a ≫= k')) tr.
Proof.
  unfold mbind, Traced_bind. destruct (m tr) as [a tr']. reflexivity.
Qed.

(** What [isCoreReady] answers and records. *)
Lemma isCoreReady_run (N : Node) (tr : list Event) :
  isCoreReady N tr =
    (isTestnet N || isSynchronized N,
     if isTestnet N then tr ++ [EvIsTestnet]
     else (tr ++ [EvIsTestnet]) ++ [EvIsSynchronized]).
Proof.
  unfold isCoreReady. rewrite traced_bind_call.
  destruct (isTestnet N); reflexivity.
Qed.

(** ** get_blocks: a locator that does not end at the genesis block *)

Section GetBlocksFacts.
Import COMMAND_RPC_GET_BLOCKS_FAST.
Variable L : Lib.
Variable N : Node.

(** C2. When the last id of the locator is not the id of the block at
    height 0, [on_get_blocks] returns [false] with the status [Failed]
    and no blocks, and the only call it has made is the lookup of the id
    at height 0: no search of the supplement, no retrieval of a block. *)
Theorem on_get_blocks_foreign_genesis (req : request) :
  block_ids req <> [] ->
  List.last (block_ids req) [] <> getBlockIdByHeight N 0 ->
  exists res,
    run (on_get_blocks L N req) = (Some (false, res), [EvGetBlockIdByHeight 0]) /\
    status res = "Failed" /\ blocks res = [].
Proof.
  intros Hne Hlast. exists get_blocks_failed.
  unfold on_get_blocks, run. destruct (block_ids req) as [|x ids] eqn:Hids; [congruence|].
  rewrite traced_bind_call.
  destruct (bytes_eqb (List.last (x :: ids) []) (getBlockIdByHeight N 0)) eqn:Heq.
  - apply bytes_eqb_eq in Heq. congruence.
  - repeat split; reflexivity.
Qed.

(** An empty locator is rejected before any call. *)
Lemma on_get_blocks_empty_locator (req : request) :
  block_ids req = [] ->
  run (on_get_blocks L N req) = (Some (false, get_blocks_failed), []).
Proof. intros Hids. unfold on_get_blocks, run. rewrite Hids. reflexivity. Qed.

End GetBlocksFacts.

Lemma on_get_blocks_foreign_genesis_witness :
  exists res,
    run (on_get_blocks Fixture.lib (Fixture.node false false true)
           {| COMMAND_RPC_GET_BLOCKS_FAST.block_ids := [Fixture.payment_id; Fixture.coinbase_id] |})
      = (Some (false, res), [EvGetBlockIdByHeight 0]) /\
    COMMAND_RPC_GET_BLOCKS_FAST.status res = "Failed" /\
    COMMAND_RPC_GET_BLOCKS_FAST.blocks res = [].
Proof.
  apply (on_get_blocks_foreign_genesis Fixture.lib (Fixture.node false false true)
           {| COMMAND_RPC_GET_BLOCKS_FAST.block_ids := [Fixture.payment_id; Fixture.coinbase_id] |}).
  - simpl. discriminate.
  - vm_compute. discriminate.
Defined.

(** ** submitblock: the main chain is the sole success *)

Section SubmitBlockFacts.
Import COMMAND_RPC_SUBMITBLOCK.
Variable L : Lib.
Variable N : Node.

(** C3. For a request whose blob decodes and is handed to the core: when
    the block is not added to the main chain the handler raises the
    block-not-accepted error with the message [Block not accepted],
    whatever else the verification context says; and it returns, with
    the status [OK], exactly when the block is added to the main
    chain. *)
Theorem on_submitblock_main_chain_only (blob_hex : string) (blockblob : BinaryArray) :
  fromHex L blob_hex = Some blockblob ->
  (m_added_to_main_chain (handle_incoming_block_blob N blockblob) = false ->
     on_submitblock L N [blob_hex] =
       Throw {| code := CORE_RPC_ERROR_CODE_BLOCK_NOT_ACCEPTED;
                message := "Block not accepted" |}) /\
  (on_submitblock L N [blob_hex] = Ret (true, {| status := CORE_RPC_STATUS_OK |}) <->
     m_added_to_main_chain (handle_incoming_block_blob N blockblob) = true) /\
  (forall r, on_submitblock L N [blob_hex] = Ret r ->
     r = (true, {| status := "OK" |})).
Proof.
  intros Hhex. unfold on_submitblock. rewrite Hhex. cbn [require_some mbind Outcome_bind].
  destruct (m_added_to_main_chain (handle_incoming_block_blob N blockblob)); simpl.
  - split; [discriminate|]. split; [split; reflexivity|].
    intros r [= <-]. reflexivity.
  - split; [reflexivity|]. split; [split; discriminate|]. discriminate.
Qed.

End SubmitBlockFacts.

Lemma on_submitblock_main_chain_only_witness :
  on_submitblock Fixture.lib (Fixture.node false false true) ["02"] =
    Throw {| code := CORE_RPC_ERROR_CODE_BLOCK_NOT_ACCEPTED; message := "Block not accepted" |}.
Proof.
  apply (on_submitblock_main_chain_only Fixture.lib (Fixture.node false false true)
           "02" [Byte.x02]); reflexivity.
Defined.

(** ** Restricted mode *)

Section RestrictedFacts.
Variable N : Node.
Variable char_of_code : ErrorCode -> Ascii.ascii.

(** C7. With restricted mode enabled, [on_start_mining], [on_stop_mining]
    and [on_stop_daemon] return [false] with the status
    [Failed, restricted handle], and have made no call: no parsing of the
    address, no start or stop of the miner, no query of the currency, no
    stop signal. *)
Theorem restricted_operator_methods (req : COMMAND_RPC_START_MINING.request) :
  m_restricted_rpc N = true ->
  run (on_start_mining N req) =
    ((false, {| COMMAND_RPC_START_MINING.status := "Failed, restricted handle" |}), []) /\
  run (on_stop_mining N) =
    ((false, {| COMMAND_RPC_STOP_MINING.status := "Failed, restricted handle" |}), []) /\
  run (on_stop_daemon N char_of_code) =
    ((false, {| COMMAND_RPC_STOP_DAEMON.status := "Failed, restricted handle" |}), []).
Proof.
  intros Hr. unfold on_start_mining, on_stop_mining, on_stop_daemon, run.
  rewrite Hr. repeat split; reflexivity.
Qed.

End RestrictedFacts.

Lemma restricted_operator_methods_witness :
  run (on_stop_mining (Fixture.node true false true)) =
    ((false, {| COMMAND_RPC_STOP_MINING.status := "Failed, restricted handle" |}), []).
Proof.
  apply (restricted_operator_methods (Fixture.node true false true)
           (fun _ => Ascii.zero)
           {| COMMAND_RPC_START_MINING.miner_address := "K";
              COMMAND_RPC_START_MINING.threads_count := 2 |}).
  reflexivity.
Defined.

(** ** processRequest: the dispatch on the URL *)

Section ProcessRequestFacts.
Variable N : Node.
Variable bound : BoundMethod -> HandlerFunction.

(** C6. A URL that is not a key of the method table gives the status 404
    and nothing is called. A URL whose entry disallows a busy core, on a
    node that is neither a test network nor synchronized, gives the
    status 500 with the body [Core is busy]; the two readiness queries
    are the only calls, the handler does not run. In the remaining case
    the handler bound to the URL runs, on the request and the response
    handed over, and the response is the one it leaves. *)
Theorem processRequest_dispatch (request : HttpRequest) (response : HttpResponse.t) :
  (s_handlers !! getUrl request = None ->
     run (processRequest N bound request response) =
       (HttpResponse.setStatus STATUS_404 response, []) /\
     HttpResponse.status (fst (run (processRequest N bound request response))) = STATUS_404) /\
  (forall it, s_handlers !! getUrl request = Some it ->
     allowBusyCore it = false -> isTestnet N = false -> isSynchronized N = false ->
     run (processRequest N bound request response) =
       (HttpResponse.setBody "Core is busy" (HttpResponse.setStatus STATUS_500 response),
        [EvIsTestnet; EvIsSynchronized]) /\
     HttpResponse.status (fst (run (processRequest N bound request response))) = STATUS_500 /\
     HttpResponse.body (fst (run (processRequest N bound request response))) = "Core is busy") /\
  (forall it, s_handlers !! getUrl request = Some it ->
     allowBusyCore it = true \/ isTestnet N = true \/ isSynchronized N = true ->
     let asked :=
       if allowBusyCore it then []
       else if isTestnet N then [EvIsTestnet]
       else [EvIsTestnet; EvIsSynchronized] in
     run (processRequest N bound request response) =
       (let '(_, response', tr) :=
          bound (handler it) request response (asked ++ [EvHandler (getUrl request)]) in
        (response', tr))).
Proof.
  split; [|split].
  - intros Hit. unfold processRequest, run. rewrite Hit. split; reflexivity.
  - intros it Hit Hbusy Ht Hs.
    assert (Heq : run (processRequest N bound request response) =
              (HttpResponse.setBody "Core is busy"
                 (HttpResponse.setStatus STATUS_500 response),
               [EvIsTestnet; EvIsSynchronized])).
    { unfold processRequest, run. rewrite Hit, Hbusy.
      rewrite traced_bind_bind. unfold mbind at 1, Traced_bind at 1.
      rewrite isCoreReady_run, Ht, Hs. reflexivity. }
    rewrite Heq. repeat split; reflexivity.
  - unfold processRequest, run.
    intros it -> Hready. destruct (allowBusyCore it).
    + rewrite traced_bind_ret, traced_bind_call. simpl.
      unfold mbind, Traced_bind.
      destruct (bound (handler it) request response [EvHandler (getUrl request)])
        as [[ok response'] tr]. reflexivity.
    + destruct Hready as [Hc|Hready]; [discriminate|].
      rewrite traced_bind_bind. unfold mbind at 1, Traced_bind at 1.
      rewrite isCoreReady_run.
      destruct (isTestnet N) eqn:Ht.
      * simpl. unfold mbind, Traced_bind, call. simpl.
        destruct (bound (handler it) request response _) as [[ok response'] tr].
        reflexivity.
      * destruct Hready as [Hc|Hs]; [discriminate|]. rewrite Hs.
        simpl. unfold mbind, Traced_bind, call. simpl.
        destruct (bound (handler it) request response _) as [[ok response'] tr].
        reflexivity.
Qed.

End ProcessRequestFacts.

Lemma processRequest_dispatch_witness :
  HttpResponse.status
    (fst (run (processRequest (Fixture.node false false false)
                 (fun _ _ r => mret (true, r))
                 {| getUrl := "/getblocks"; getBody := "" |}
                 {| HttpResponse.status := STATUS_200; HttpResponse.body := "";
                    HttpResponse.headers := [] |}))) = STATUS_404.
Proof.
  apply (processRequest_dispatch (Fixture.node false false false)
           (fun _ _ r => mret (true, r))
           {| getUrl := "/getblocks"; getBody := "" |}
           {| HttpResponse.status := STATUS_200; HttpResponse.body := "";
              HttpResponse.headers := [] |}).
  vm_compute. reflexivity.
Defined.

(** ** The JSON-RPC envelope *)

Section JsonRpcFacts.
Import JsonRpc.
Variable N : Node.
Variable parseRequest : string -> Outcome JsonRpcRequest.
Variable message_of_code : ErrorCode -> string.
Variable member : JsonMethod -> JsonValue -> Outcome (bool * JsonValue).

(** What the dispatch answers, apart from the record of its calls. *)
Lemma dispatchJsonRpc_fst (jsonRequest : JsonRpcRequest) (jsonResponse : JsonRpcResponse)
    (tr : list Event) :
  fst (dispatchJsonRpc N message_of_code member jsonRequest jsonResponse tr) =
    match jsonRpcHandlers !! getMethod jsonRequest with
    | None => Throw {| code := errMethodNotFound;
                       message := message_of_code errMethodNotFound |}
    | Some it =>
        if negb (allowBusyCore it) && negb (isTestnet N || isSynchronized N) then
          Throw {| code := CORE_RPC_ERROR_CODE_CORE_BUSY; message := "Core is busy" |}
        else
          '(_, jsonResponse') ←
            makeMemberMethod (member (handler it)) jsonRequest jsonResponse;
          mret jsonResponse'
    end.
Proof.
  unfold dispatchJsonRpc.
  destruct (jsonRpcHandlers !! getMethod jsonRequest) as [it|]; [|reflexivity].
  destruct (allowBusyCore it); [reflexivity|].
  rewrite traced_bind_bind. unfold mbind at 1, Traced_bind at 1.
  rewrite isCoreReady_run.
  destruct (isTestnet N); [reflexivity|].
  destruct (isSynchronized N); reflexivity.
Qed.

(** C4. For a request whose envelope parses, the response carries the id
    of the request and never both a result and an error. Path by path:
    an unregistered method gives the method-not-found error, whatever the
    parameters; a gated method on a node that is not ready gives the
    core-busy error; a handler that returns [true] gives its result and
    no error; a handler that raises a [JsonRpcError] gives that error and
    no result; any other exception gives the internal error with its
    message and no result. *)
Theorem jsonRpc_response_envelope (request : HttpRequest)
    (jsonRequest : JsonRpcRequest) (tr : list Event) :
  parseRequest (getBody request) = Ret jsonRequest ->
  let resp := fst (jsonRpcResponse_of N parseRequest message_of_code member request tr) in
  id resp = getId jsonRequest /\
  (result resp = None \/ error resp = None) /\
  match jsonRpcHandlers !! getMethod jsonRequest with
  | None =>
      result resp = None /\
      error resp = Some {| code := errMethodNotFound;
                           message := message_of_code errMethodNotFound |}
  | Some it =>
      if negb (allowBusyCore it) && negb (isTestnet N || isSynchronized N) then
        result resp = None /\
        error resp = Some {| code := CORE_RPC_ERROR_CODE_CORE_BUSY;
                             message := "Core is busy" |}
      else
        match member (handler it) (getParams jsonRequest) with
        | Ret (true, v) => result resp = Some v /\ error resp = None
        | Ret (false, _) => result resp = None /\ error resp = None
        | Throw e => result resp = None /\ error resp = Some e
        | Fault what =>
            result resp = None /\
            error resp = Some {| code := errInternalError; message := what |}
        end
  end.
Proof.
  intros Hparse resp.
  assert (Hresp : resp =
            catchJsonRpc (setId (getId jsonRequest) newResponse)
              (fst (dispatchJsonRpc N message_of_code member jsonRequest
                      (setId (getId jsonRequest) newResponse) tr))).
  { unfold resp, jsonRpcResponse_of. rewrite Hparse.
    unfold mbind, Traced_bind. destruct (dispatchJsonRpc _ _ _ _ _ tr). reflexivity. }
  rewrite Hresp, dispatchJsonRpc_fst. clear Hresp resp.
  destruct (jsonRpcHandlers !! getMethod jsonRequest) as [it|]; [|simpl; auto].
  destruct (negb (allowBusyCore it) && negb (isTestnet N || isSynchronized N));
    [simpl; auto|].
  unfold makeMemberMethod.
  destruct (member (handler it) (getParams jsonRequest)) as [[[|] v]|e|w]; simpl; auto.
Qed.

(** The HTTP side: [processJsonRpcRequest] always returns [true], and the
    body of the HTTP response is the text of that JSON-RPC response. *)
Lemma processJsonRpcRequest_body (getBody_response : JsonRpcResponse -> string)
    (request : HttpRequest) (response : HttpResponse.t) (tr : list Event) :
  let '(ok, response', tr') :=
    processJsonRpcRequest N parseRequest getBody_response message_of_code member
      request response tr in
  ok = true /\
  HttpResponse.body response' =
    getBody_response
      (fst (jsonRpcResponse_of N parseRequest message_of_code member request tr)) /\
  tr' = snd (jsonRpcResponse_of N parseRequest message_of_code member request tr).
Proof.
  unfold processJsonRpcRequest, mbind, Traced_bind.
  destruct (jsonRpcResponse_of N parseRequest message_of_code member request tr)
    as [jsonResponse tr'].
  repeat split; reflexivity.
Qed.

End JsonRpcFacts.

Lemma jsonRpc_response_envelope_witness :
  JsonRpc.id
    (fst (jsonRpcResponse_of (Fixture.node false false true)
            (fun body => Ret {| JsonRpc.getId := Some "1";
                                JsonRpc.getMethod := body;
                                JsonRpc.getParams := "{}" |})
            (fun _ => "Method not found")
            (fun _ _ => Ret (true, "100"%string))
            {| getUrl := "/json_rpc"; getBody := "getblockcount" |} [])) = Some "1".
Proof.
  apply (jsonRpc_response_envelope (Fixture.node false false true)
           (fun body => Ret {| JsonRpc.getId := Some "1";
                               JsonRpc.getMethod := body;
                               JsonRpc.getParams := "{}" |})
           (fun _ => "Method not found")
           (fun _ _ => Ret (true, "100"%string))
           {| getUrl := "/json_rpc"; getBody := "getblockcount" |}
           {| JsonRpc.getId := Some "1"; JsonRpc.getMethod := "getblockcount";
              JsonRpc.getParams := "{}" |} []).
  reflexivity.
Defined.

(** ** Payment proofs: the two handlers agree *)

Section PaymentProofFacts.
Variable L : Lib.
Variable N : Node.

(** Each loop computes what the specification words. *)
Lemma check_tx_key_scan_spec derivation spend outs : forall keyIndex received found,
  check_tx_key_scan L derivation spend outs keyIndex received found =
    (spec_received_amount received (spec_matching_outputs L derivation spend outs keyIndex),
     found ++ spec_matching_outputs L derivation spend outs keyIndex).
Proof.
  induction outs as [|o rest IH]; intros keyIndex received found; simpl.
  - rewrite app_nil_r. reflexivity.
  - destruct (target o) as [out_key|keys n].
    + destruct (bytes_eqb (derive_public_key L derivation keyIndex spend) out_key).
      * rewrite IH, <- app_assoc. reflexivity.
      * rewrite IH. reflexivity.
    + rewrite IH. reflexivity.
Qed.

Lemma check_tx_with_view_key_scan_spec derivation spend outs :
  forall keyIndex received found,
  check_tx_with_view_key_scan L derivation spend outs keyIndex received found =
    (spec_received_amount received (spec_matching_outputs L derivation spend outs keyIndex),
     found ++ spec_matching_outputs L derivation spend outs keyIndex).
Proof.
  induction outs as [|o rest IH]; intros keyIndex received found; simpl.
  - rewrite app_nil_r. reflexivity.
  - destruct (target o) as [out_key|keys n].
    + destruct (bytes_eqb (derive_public_key L derivation keyIndex spend) out_key).
      * rewrite IH, <- app_assoc. reflexivity.
      * rewrite IH. reflexivity.
    + rewrite IH. reflexivity.
Qed.

(** The key pairs of the scheme, and the agreement that makes two key
    materials match: a secret key and the public key of another derive
    what the other secret key and the public key of the first derive. *)
Variable secret_key_to_public_key : SecretKey -> PublicKey.
Hypothesis key_agreement : forall a r,
  generate_key_derivation L (secret_key_to_public_key a) r =
  generate_key_derivation L (secret_key_to_public_key r) a.

(** C5. Take a transaction that is found, [check_tx_key] called with its
    secret key and the address of the recipient, and
    [check_tx_with_view_key] called with the private view key of the same
    recipient, the public key of the transaction being the one of that
    secret key. Then both handlers return, or both raise the same error;
    when they return, the amounts are equal and the sequences of outputs
    are equal: the outputs matched by one scan over all the outputs, with
    the index advanced at every output, and the sum of their amounts. *)
Theorem check_tx_key_agrees_with_view_key
    (req1 : K_COMMAND_RPC_CHECK_TX_KEY.request)
    (req2 : K_COMMAND_RPC_CHECK_TX_WITH_PRIVATE_VIEW_KEY.request)
    (txid : Hash) (tx : Transaction) (address : AccountPublicAddress)
    (tx_key view_key : SecretKey) :
  K_COMMAND_RPC_CHECK_TX_KEY.txid req1 =
    K_COMMAND_RPC_CHECK_TX_WITH_PRIVATE_VIEW_KEY.txid req2 ->
  K_COMMAND_RPC_CHECK_TX_KEY.address req1 =
    K_COMMAND_RPC_CHECK_TX_WITH_PRIVATE_VIEW_KEY.address req2 ->
  parse_hash256 L (K_COMMAND_RPC_CHECK_TX_KEY.txid req1) = Some txid ->
  fetch_tx N txid = Some tx ->
  parseAccountAddressString N (K_COMMAND_RPC_CHECK_TX_KEY.address req1) = Some address ->
  fromHex_pod32 L (K_COMMAND_RPC_CHECK_TX_KEY.txkey req1) = Some tx_key ->
  fromHex_pod32 L (K_COMMAND_RPC_CHECK_TX_WITH_PRIVATE_VIEW_KEY.view_key req2)
    = Some view_key ->
  getTransactionPublicKeyFromExtra L (extra tx) = secret_key_to_public_key tx_key ->
  viewPublicKey address = secret_key_to_public_key view_key ->
  match k_on_check_tx_key L N req1, k_on_check_tx_with_view_key L N req2 with
  | Ret (ok1, res1), Ret (ok2, res2) =>
      ok1 = true /\ ok2 = true /\
      K_COMMAND_RPC_CHECK_TX_KEY.amount res1 =
        K_COMMAND_RPC_CHECK_TX_WITH_PRIVATE_VIEW_KEY.amount res2 /\
      K_COMMAND_RPC_CHECK_TX_KEY.outputs res1 =
        K_COMMAND_RPC_CHECK_TX_WITH_PRIVATE_VIEW_KEY.outputs res2 /\
      exists derivation,
        generate_key_derivation L (viewPublicKey address) tx_key = Some derivation /\
        K_COMMAND_RPC_CHECK_TX_KEY.outputs res1 =
          spec_matching_outputs L derivation (spendPublicKey address) (outputs tx) 0 /\
        K_COMMAND_RPC_CHECK_TX_KEY.amount res1 =
          spec_received_amount 0 (K_COMMAND_RPC_CHECK_TX_KEY.outputs res1)
  | Throw e1, Throw e2 => e1 = e2
  | _, _ => False
  end.
Proof.
  intros Hid Haddr Hparse Hfetch Hacc Hkey Hview Hpub Hviewpub.
  unfold k_on_check_tx_key, k_on_check_tx_with_view_key.
  rewrite <- Hid, <- Haddr, Hparse, Hacc, Hkey, Hview. simpl.
  rewrite Hfetch. simpl.
  rewrite Hpub, Hviewpub, (key_agreement view_key tx_key).
  destruct (generate_key_derivation L (secret_key_to_public_key tx_key) view_key)
    as [derivation|]; simpl; [|reflexivity].
  rewrite check_tx_key_scan_spec, check_tx_with_view_key_scan_spec. simpl.
  repeat split; try reflexivity.
  exists derivation. repeat split; reflexivity.
Qed.

End PaymentProofFacts.

(** The toy key agreement of the example node is one. *)
Lemma Fixture_xor_bytes_comm a : forall b, Fixture.xor_bytes a b = Fixture.xor_bytes b a.
Proof.
  induction a as [|x a IH]; intros [|y b]; simpl; try reflexivity.
  unfold Fixture.xor_byte. rewrite N.lxor_comm, IH. reflexivity.
Qed.

Lemma Fixture_key_agreement a r :
  generate_key_derivation Fixture.lib (Fixture.secret_key_to_public_key a) r =
  generate_key_derivation Fixture.lib (Fixture.secret_key_to_public_key r) a.
Proof.
  simpl. unfold Fixture.secret_key_to_public_key. rewrite Fixture_xor_bytes_comm. reflexivity.
Qed.

Lemma check_tx_key_agrees_with_view_key_witness :
  match k_on_check_tx_key Fixture.lib (Fixture.node false false true)
          {| K_COMMAND_RPC_CHECK_TX_KEY.txid := Fixture.hex_encode Fixture.payment_id;
             K_COMMAND_RPC_CHECK_TX_KEY.txkey := Fixture.hex_encode Fixture.tx_secret;
             K_COMMAND_RPC_CHECK_TX_KEY.address := "K" |},
        k_on_check_tx_with_view_key Fixture.lib (Fixture.node false false true)
          {| K_COMMAND_RPC_CHECK_TX_WITH_PRIVATE_VIEW_KEY.txid :=
               Fixture.hex_encode Fixture.payment_id;
             K_COMMAND_RPC_CHECK_TX_WITH_PRIVATE_VIEW_KEY.view_key :=
               Fixture.hex_encode Fixture.view_secret;
             K_COMMAND_RPC_CHECK_TX_WITH_PRIVATE_VIEW_KEY.address := "K" |}
  with
  | Ret (ok1, res1), Ret (ok2, res2) =>
      ok1 = true /\ ok2 = true /\
      K_COMMAND_RPC_CHECK_TX_KEY.amount res1 =
        K_COMMAND_RPC_CHECK_TX_WITH_PRIVATE_VIEW_KEY.amount res2 /\
      K_COMMAND_RPC_CHECK_TX_KEY.outputs res1 =
        K_COMMAND_RPC_CHECK_TX_WITH_PRIVATE_VIEW_KEY.outputs res2 /\
      exists derivation,
        generate_key_derivation Fixture.lib (viewPublicKey Fixture.recipient)
          Fixture.tx_secret = Some derivation /\
        K_COMMAND_RPC_CHECK_TX_KEY.outputs res1 =
          spec_matching_outputs Fixture.lib derivation
            (spendPublicKey Fixture.recipient) (outputs Fixture.payment_tx) 0 /\
        K_COMMAND_RPC_CHECK_TX_KEY.amount res1 =
          spec_received_amount 0 (K_COMMAND_RPC_CHECK_TX_KEY.outputs res1)
  | Throw e1, Throw e2 => e1 = e2
  | _, _ => False
  end.
Proof.
  apply (check_tx_key_agrees_with_view_key Fixture.lib (Fixture.node false false true)
           Fixture.secret_key_to_public_key Fixture_key_agreement
           {| K_COMMAND_RPC_CHECK_TX_KEY.txid := Fixture.hex_encode Fixture.payment_id;
              K_COMMAND_RPC_CHECK_TX_KEY.txkey := Fixture.hex_encode Fixture.tx_secret;
              K_COMMAND_RPC_CHECK_TX_KEY.address := "K" |}
           {| K_COMMAND_RPC_CHECK_TX_WITH_PRIVATE_VIEW_KEY.txid :=
                Fixture.hex_encode Fixture.payment_id;
              K_COMMAND_RPC_CHECK_TX_WITH_PRIVATE_VIEW_KEY.view_key :=
                Fixture.hex_encode Fixture.view_secret;
              K_COMMAND_RPC_CHECK_TX_WITH_PRIVATE_VIEW_KEY.address := "K" |}
           Fixture.payment_id Fixture.payment_tx Fixture.recipient
           Fixture.tx_secret Fixture.view_secret);
    vm_compute; reflexivity.
Defined.

(** ** The fee of the short views *)

Section FeeFacts.
Variable L : Lib.
Variable N : Node.

(** Where the sums do not wrap and the inputs cover the outputs, the
    wrapped difference is the fee in the words of the specification. *)
Lemma fold_left_wrap64_sum {A} (f : A -> Z) (l : list A) : forall acc,
  (forall x, In x l -> 0 <= f x) ->
  0 <= acc -> acc + fold_right Z.add 0 (map f l) < 2 ^ 64 ->
  fold_left (fun sum x => wrap64 (sum + f x)) l acc = acc + fold_right Z.add 0 (map f l).
Proof.
  induction l as [|x l IH]; intros acc Hpos Hacc Hsum; simpl in *; [lia|].
  assert (Hx : 0 <= f x) by (apply Hpos; left; reflexivity).
  assert (Hl : 0 <= fold_right Z.add 0 (map f l)).
  { clear -Hpos. induction l as [|y l IHl]; simpl; [lia|].
    assert (0 <= f y) by (apply Hpos; right; left; reflexivity).
    assert (0 <= fold_right Z.add 0 (map f l)); [|lia].
    apply IHl. intros z Hz. apply Hpos. simpl in *. tauto. }
  rewrite wrap64_small by lia.
  rewrite IH; try lia. intros z Hz. apply Hpos. right. exact Hz.
Qed.

Lemma wrapped_fee_is_spec_fee (tx : Transaction) :
  (forall i, In i (inputs tx) -> 0 <= input_amount i) ->
  (forall o, In o (outputs tx) -> 0 <= amount o) ->
  fold_right Z.add 0 (map input_amount (inputs tx)) < 2 ^ 64 ->
  fold_right Z.add 0 (map amount (outputs tx))
    <= fold_right Z.add 0 (map input_amount (inputs tx)) ->
  wrap64 (get_inputs_money_amount tx - get_outs_money_amount tx) = spec_fee tx.
Proof.
  intros Hin Hout Hbound Hcover.
  assert (Ho : 0 <= fold_right Z.add 0 (map amount (outputs tx))).
  { clear -Hout. induction (outputs tx) as [|y l IHl]; simpl; [lia|].
    assert (0 <= amount y) by (apply Hout; left; reflexivity).
    assert (0 <= fold_right Z.add 0 (map amount l)); [|lia].
    apply IHl. intros z Hz. apply Hout. right. exact Hz. }
  unfold get_inputs_money_amount, get_outs_money_amount, spec_fee.
  rewrite !fold_left_wrap64_sum by (try assumption; lia).
  apply wrap64_small. lia.
Qed.

(** C8, as the code has it. The pool listing reports the inputs minus
    the outputs (in a [uint64_t]) only for a transaction whose inputs
    reach the outputs plus the minimal fee, and the minimal fee for every
    other one. The transaction details report the inputs minus the
    outputs only when the inputs are not zero, and zero otherwise. In the
    block details the first view is the one of the base transaction,
    with the fee zero, and the view of every listed transaction reports
    its inputs minus its outputs. The difference in a [uint64_t] is the
    difference of the sums whenever the inputs cover the outputs and their
    sum fits 64 bits. *)
Theorem short_view_fee_by_handler :
  (exists res, f_on_pool_json L N = Ret (true, res) /\
     F_COMMAND_RPC_GET_POOL.transactions res =
       map (pool_transaction_short L N) (getPoolTransactions N) /\
     forall tx, ts_fee (pool_transaction_short L N tx) =
       if getInputAmount tx <? wrap64 (getOutputAmount tx + MINIMUM_FEE N)
       then MINIMUM_FEE N
       else wrap64 (getInputAmount tx - getOutputAmount tx)) /\
  (forall req res, f_on_transaction_json L N req = Ret (Some res) ->
     td_fee (F_COMMAND_RPC_GET_TRANSACTION_DETAILS.txDetails res) =
       let tx := F_COMMAND_RPC_GET_TRANSACTION_DETAILS.tx res in
       if get_inputs_money_amount tx =? 0 then 0
       else wrap64 (get_inputs_money_amount tx - get_outs_money_amount tx)) /\
  (forall req res, f_on_block_json L N req = Ret (Some res) ->
     exists blk txs,
       bd_transactions (F_COMMAND_RPC_GET_BLOCK_DETAILS.block res) =
         base_transaction_short L blk :: map (block_transaction_short L) txs /\
       ts_fee (base_transaction_short L blk) = 0 /\
       forall tx, ts_fee (block_transaction_short L tx) =
         wrap64 (get_inputs_money_amount tx - get_outs_money_amount tx)) /\
  (forall tx,
     (forall i, In i (inputs tx) -> 0 <= input_amount i) ->
     (forall o, In o (outputs tx) -> 0 <= amount o) ->
     fold_right Z.add 0 (map input_amount (inputs tx)) < 2 ^ 64 ->
     fold_right Z.add 0 (map amount (outputs tx))
       <= fold_right Z.add 0 (map input_amount (inputs tx)) ->
     wrap64 (get_inputs_money_amount tx - get_outs_money_amount tx) = spec_fee tx /\
     wrap64 (getInputAmount tx - getOutputAmount tx) = spec_fee tx).
Proof.
  split; [|split; [|split]];
    [| | |intros tx Hi Ho Hb Hc; split; apply wrapped_fee_is_spec_fee; assumption].
  - eexists. split; [reflexivity|]. split; reflexivity.
  - intros req res. unfold f_on_transaction_json.
    destruct (parse_hash256 L _) as [hash|]; [|discriminate]. simpl.
    destruct (match (getTransactions N [hash] true).1 with
              | [t] => Some t | _ => None end) as [res_tx|]; [|discriminate].
    simpl.
    destruct (match getBlockContainingTx N hash with
              | Some (blockHash, blockHeight) => _ | None => _ end) as [bshort conf].
    intros [= <-]. reflexivity.
  - intros req res. unfold f_on_block_json.
    destruct (match lexical_cast_uint32 L _ with Some _ => _ | None => _ end)
      as [hash|e|w]; [|discriminate..]. simpl.
    destruct (getBlockByHash N hash) as [blk|]; [|discriminate]. simpl.
    destruct (inputs (baseTransaction blk)) as [|[blockIndex|a o k|a c i] rest];
      try discriminate. simpl.
    intros [= Hres]. exists blk.
    exists (getTransactions N (transactionHashes blk) false).1.
    destruct (getBackwardBlocksSizes N blockIndex _) as [sizes|]; [|discriminate].
    simpl in Hres.
    destruct (getBlockSize N hash) as [blockSize|]; [|discriminate]. simpl in Hres.
    destruct (getAlreadyGeneratedCoins N hash) as [coins|]; [|discriminate].
    simpl in Hres.
    destruct (getGeneratedTransactionsNumber N blockIndex) as [ntx|]; [|discriminate].
    simpl in Hres.
    destruct (if 0 <? blockIndex then _ else _) as [prev|]; [|discriminate].
    simpl in Hres.
    destruct (getBlockReward N _ _ 0 prev 0) as [[maxReward e1]|]; [|discriminate].
    simpl in Hres.
    destruct (getBlockReward N _ _ blockSize prev 0) as [[currentReward e2]|];
      [|discriminate].
    simpl in Hres.
    destruct (negb _ && _); [discriminate|].
    injection Hres as <-. simpl. repeat split; reflexivity.
Qed.

End FeeFacts.

(** C8, as stated, fails on the example node: the transaction details of a
    coinbase transaction with one output of 5 units report the fee 0, the
    block details list the same transaction with the fee 0, and the pool
    listing, under a minimal fee of 100 units, reports 100 for a
    transaction that pays 1000 units in and 950 out. *)
Lemma short_view_fee_counterexample :
  (exists res,
     f_on_transaction_json Fixture.lib (Fixture.node false false true)
       {| F_COMMAND_RPC_GET_TRANSACTION_DETAILS.hash :=
            Fixture.hex_encode Fixture.coinbase_id |} = Ret (Some res) /\
     F_COMMAND_RPC_GET_TRANSACTION_DETAILS.tx res = Fixture.coinbase_tx /\
     spec_fee Fixture.coinbase_tx = -5 /\
     td_fee (F_COMMAND_RPC_GET_TRANSACTION_DETAILS.txDetails res) = 0 /\
     td_fee (F_COMMAND_RPC_GET_TRANSACTION_DETAILS.txDetails res)
       <> spec_fee (F_COMMAND_RPC_GET_TRANSACTION_DETAILS.tx res) /\
     td_fee (F_COMMAND_RPC_GET_TRANSACTION_DETAILS.txDetails res)
       <> wrap64 (spec_fee (F_COMMAND_RPC_GET_TRANSACTION_DETAILS.tx res))) /\
  (exists res,
     f_on_pool_json Fixture.lib (Fixture.node false false true) = Ret (true, res) /\
     map ts_fee (F_COMMAND_RPC_GET_POOL.transactions res) = [100; 100] /\
     map spec_fee (getPoolTransactions (Fixture.node false false true)) = [100; 50]) /\
  (exists res,
     f_on_block_json Fixture.lib (Fixture.node false false true)
       {| F_COMMAND_RPC_GET_BLOCK_DETAILS.hash :=
            Fixture.hex_encode Fixture.coinbase_id |} = Ret (Some res) /\
     map ts_fee (bd_transactions (F_COMMAND_RPC_GET_BLOCK_DETAILS.block res)) = [0; 100] /\
     map spec_fee [Fixture.coinbase_tx; Fixture.payment_tx] = [-5; 100]) /\
  ~ (forall (L : Lib) (N : Node) (tx : Transaction),
       ts_fee (pool_transaction_short L N tx) = spec_fee tx).
Proof.
  split; [|split; [|split]].
  - eexists. split; [vm_compute; reflexivity|].
    repeat split; try reflexivity; vm_compute; discriminate.
  - eexists. split; [reflexivity|]. split; reflexivity.
  - eexists. split; [vm_compute; reflexivity|]. split; reflexivity.
  - intros Hall.
    specialize (Hall Fixture.lib (Fixture.node false false true) Fixture.cheap_tx).
    vm_compute in Hall. discriminate.
Qed.

(** ** gettransactions: a hash of the wrong size *)

Section GetTransactionsFacts.
Import COMMAND_RPC_GET_TRANSACTIONS.
Variable L : Lib.
Variable N : Node.

(** The first loop on strings that all decode to at least the size of a
    hash: it never leaves early, it pushes the first 32 bytes of every
    decoded buffer, in order, and the status it leaves is the mismatch as
    soon as one buffer has another size than a hash. *)
Lemma parse_txs_hashes_valid hashes : forall decoded vh status,
  Forall2 (fun text b => fromHex L text = Some b /\ sizeof_Hash <= Z.of_nat (length b))
    hashes decoded ->
  parse_txs_hashes L hashes vh status =
    Some (inr (vh ++ map (firstn 32) decoded,
               if existsb (fun b => negb (Z.of_nat (length b) =? sizeof_Hash)) decoded
               then "Failed, size of data mismatch"%string else status)).
Proof.
  induction hashes as [|text rest IH]; intros decoded vh status Hall;
    inversion Hall as [|? b ? decoded' [Hb Hlen] Hrest]; subst;
    cbn [parse_txs_hashes map existsb].
  - rewrite app_nil_r. reflexivity.
  - rewrite Hb. unfold reinterpret_Hash.
    destruct (Z.ltb_spec (Z.of_nat (length b)) sizeof_Hash) as [Hshort|_]; [lia|].
    rewrite (IH decoded' _ _ Hrest), <- app_assoc. cbn [app].
    destruct (negb (Z.of_nat (length b) =? sizeof_Hash)); cbn [orb];
      [destruct (existsb _ decoded')|]; reflexivity.
Qed.

(** The loop leaves early only on a string that is not hexadecimal. *)
Lemma parse_txs_hashes_early hashes : forall vh status failed,
  parse_txs_hashes L hashes vh status = Some (inl failed) ->
  failed = "Failed to parse hex representation of transaction hash".
Proof.
  induction hashes as [|t rest IH]; intros vh st failed; cbn [parse_txs_hashes];
    [discriminate|].
  destruct (fromHex L t) as [b|]; [|intros [= <-]; reflexivity].
  destruct (reinterpret_Hash b); [apply IH|discriminate].
Qed.

(** C9, as the code has it. Take a request with a string that is valid
    hexadecimal and decodes to a number of bytes other than the size of a
    hash. Whenever the handler returns, it returns [true] and its status
    is not the mismatch. When every string of the request decodes to at
    least the size of a hash, the handler does return: the loop sets the
    status to the mismatch and goes on, every string gives one hash, the
    first 32 bytes of its buffer, the one of the wrong size included, the
    engine is asked for all of them in the order of the request, and the
    status is overwritten with [OK]. *)
Theorem on_get_transactions_size_mismatch (req : request) (text : string)
    (b : BinaryArray) :
  In text (txs_hashes req) ->
  fromHex L text = Some b ->
  Z.of_nat (length b) <> sizeof_Hash ->
  (forall r, on_get_transactions L N req = Some r ->
     fst r = true /\ status (snd r) <> "Failed, size of data mismatch") /\
  (forall decoded,
     Forall2 (fun text b => fromHex L text = Some b /\ sizeof_Hash <= Z.of_nat (length b))
       (txs_hashes req) decoded ->
     In (firstn 32 b) (map (firstn 32) decoded) /\
     parse_txs_hashes L (txs_hashes req) [] "" =
       Some (inr (map (firstn 32) decoded, "Failed, size of data mismatch"%string)) /\
     on_get_transactions L N req =
       Some (true,
             {| txs_as_hex :=
                  map (fun tx => toHex L (toBinaryArray_Transaction L tx))
                      (fst (getTransactions N (map (firstn 32) decoded) false));
                missed_tx :=
                  map (podToHex L) (snd (getTransactions N (map (firstn 32) decoded) false));
                status := "OK" |})).
Proof.
  intros Hin Hb Hsize. split.
  - intros r. unfold on_get_transactions.
    destruct (parse_txs_hashes L (txs_hashes req) [] "") as [[failed|[vh st]]|] eqn:Hloop;
      [| |discriminate].
    + intros [= <-]. cbn [fst snd status]. split; [reflexivity|].
      rewrite (parse_txs_hashes_early _ _ _ _ Hloop). discriminate.
    + destruct (getTransactions N vh false). intros [= <-].
      cbn [fst snd status]. split; [reflexivity|discriminate].
  - intros decoded Hall.
    assert (Hdec : In b decoded).
    { clear Hsize. revert Hin. generalize (txs_hashes req) as hashes, Hall. clear Hall.
      intros hashes Hall. induction Hall as [|t b' hashes' decoded' [Hb' _] _ IH].
      - intros [].
      - intros [<-|Hin]; [left; congruence|right; apply IH; exact Hin]. }
    assert (Hwrong : existsb (fun b => negb (Z.of_nat (length b) =? sizeof_Hash)) decoded
                     = true).
    { apply existsb_exists. exists b. split; [exact Hdec|].
      destruct (Z.eqb_spec (Z.of_nat (length b)) sizeof_Hash); [contradiction|reflexivity]. }
    pose proof (parse_txs_hashes_valid _ _ [] ""%string Hall) as Hloop.
    rewrite Hwrong in Hloop. cbn [app] in Hloop.
    split; [apply in_map; exact Hdec|]. split; [exact Hloop|].
    unfold on_get_transactions. rewrite Hloop.
    destruct (getTransactions N (map (firstn 32) decoded) false). reflexivity.
Qed.

End GetTransactionsFacts.

Lemma on_get_transactions_size_mismatch_witness :
  on_get_transactions Fixture.lib (Fixture.node false false true)
    {| COMMAND_RPC_GET_TRANSACTIONS.txs_hashes :=
         [Fixture.hex_encode (Fixture.payment_id ++ [Byte.xab]);
          Fixture.hex_encode Fixture.genesis_id] |} =
    Some (true,
          {| COMMAND_RPC_GET_TRANSACTIONS.txs_as_hex :=
               map (fun tx => toHex Fixture.lib (toBinaryArray_Transaction Fixture.lib tx))
                 (fst (getTransactions (Fixture.node false false true)
                         [Fixture.payment_id; Fixture.genesis_id] false));
             COMMAND_RPC_GET_TRANSACTIONS.missed_tx :=
               map (podToHex Fixture.lib)
                 (snd (getTransactions (Fixture.node false false true)
                         [Fixture.payment_id; Fixture.genesis_id] false));
             COMMAND_RPC_GET_TRANSACTIONS.status := "OK" |}).
Proof.
  refine (proj2 (proj2 (proj2
           (on_get_transactions_size_mismatch Fixture.lib (Fixture.node false false true)
              {| COMMAND_RPC_GET_TRANSACTIONS.txs_hashes :=
                   [Fixture.hex_encode (Fixture.payment_id ++ [Byte.xab]);
                    Fixture.hex_encode Fixture.genesis_id] |}
              (Fixture.hex_encode (Fixture.payment_id ++ [Byte.xab]))
              (Fixture.payment_id ++ [Byte.xab])
              (or_introl eq_refl) eq_refl ltac:(vm_compute; discriminate))
           [Fixture.payment_id ++ [Byte.xab]; Fixture.genesis_id] _))).
  repeat constructor; vm_compute; discriminate.
Defined.

(** C9, as stated, fails on the example node. The empty string is valid
    hexadecimal and decodes to no byte at all, which is not the size of a
    hash; the handler then reads a hash from the empty buffer, past its
    end, and does not come back with a status. And a string of 33 bytes
    followed by a string that is not hexadecimal is rejected with the
    parse failure, not answered [OK]. *)
Lemma on_get_transactions_size_mismatch_counterexample :
  (fromHex Fixture.lib "" = Some [] /\
   Z.of_nat (length (@nil Byte.byte)) <> sizeof_Hash /\
   on_get_transactions Fixture.lib (Fixture.node false false true)
     {| COMMAND_RPC_GET_TRANSACTIONS.txs_hashes := [""%string] |} = None) /\
  (fromHex Fixture.lib (Fixture.hex_encode (Fixture.payment_id ++ [Byte.xab])) =
     Some (Fixture.payment_id ++ [Byte.xab]) /\
   Z.of_nat (length (Fixture.payment_id ++ [Byte.xab])) <> sizeof_Hash /\
   on_get_transactions Fixture.lib (Fixture.node false false true)
     {| COMMAND_RPC_GET_TRANSACTIONS.txs_hashes :=
          [Fixture.hex_encode (Fixture.payment_id ++ [Byte.xab]); "xyz"%string] |} =
     Some (true,
           {| COMMAND_RPC_GET_TRANSACTIONS.txs_as_hex := [];
              COMMAND_RPC_GET_TRANSACTIONS.missed_tx := [];
              COMMAND_RPC_GET_TRANSACTIONS.status :=
                "Failed to parse hex representation of transaction hash" |})) /\
  ~ (forall (L : Lib) (N : Node) (req : COMMAND_RPC_GET_TRANSACTIONS.request)
            (text : string) (b : BinaryArray),
       In text (COMMAND_RPC_GET_TRANSACTIONS.txs_hashes req) ->
       fromHex L text = Some b ->
       Z.of_nat (length b) <> sizeof_Hash ->
       exists res,
         on_get_transactions L N req = Some (true, res) /\
         COMMAND_RPC_GET_TRANSACTIONS.status res = "OK").
Proof.
  split; [|split].
  - split; [reflexivity|]. split; [vm_compute; discriminate|reflexivity].
  - split; [reflexivity|]. split; [vm_compute; discriminate|reflexivity].
  - intros Hclaim.
    destruct (Hclaim Fixture.lib (Fixture.node false false true)
                {| COMMAND_RPC_GET_TRANSACTIONS.txs_hashes := [""%string] |}
                ""%string [] (or_introl eq_refl) eq_refl ltac:(vm_compute; discriminate))
      as (res & Hres & _).
    discriminate Hres.
Qed.

(** ** f_blocks_list_json: the descending loop *)

Section BlocksListFacts.
Import F_COMMAND_RPC_GET_BLOCKS_LIST.
Variable L : Lib.
Variable N : Node.

Lemma heights_down_S i n : heights_down i (S n) = i :: heights_down (i - 1) n.
Proof.
  unfold heights_down. simpl. rewrite Z.sub_0_r. f_equal.
  rewrite <- seq_shift, map_map. apply map_ext. intros k. lia.
Qed.

(** From height [last_height + n] the loop makes [n + 1] rounds and
    stops, at height 0 by the [break] and above it by the test of the
    [for], unless the engine fails to retrieve one of the blocks, which
    raises the internal error. *)
Lemma blocks_list_loop_rounds last_height : 0 <= last_height ->
  forall n fuel i blocks,
    (S n < fuel)%nat ->
    i = last_height + Z.of_nat n -> i < 2 ^ 32 ->
    (exists bs,
       blocks_list_loop L N fuel i last_height blocks = Some (Ret (blocks ++ bs)) /\
       map bs_height bs = heights_down i (S n) /\
       forall h, last_height <= h <= i ->
         getBlockByHash N (getBlockIdByHeight N h) <> None) \/
    (exists h msg,
       last_height <= h <= i /\
       getBlockByHash N (getBlockIdByHeight N h) = None /\
       blocks_list_loop L N fuel i last_height blocks =
         Some (Throw {| code := CORE_RPC_ERROR_CODE_INTERNAL_ERROR; message := msg |})).
Proof.
  intros Hlast. induction n as [|n IH]; intros fuel i blocks Hfuel Hi Hmax.
  - destruct fuel as [|[|fuel]]; try lia.
    cbn [blocks_list_loop]. destruct (Z.leb_spec last_height i) as [_|]; [|lia].
    destruct (getBlockByHash N (getBlockIdByHeight N i)) as [blk|] eqn:Hb.
    + left. exists [blocks_list_short L N i (getBlockIdByHeight N i) blk].
      split; [|split; [rewrite heights_down_S; reflexivity|]].
      * destruct (Z.eqb_spec i 0) as [Hz|Hnz]; [reflexivity|].
        rewrite wrap32_small by lia.
        destruct (Z.leb_spec last_height (i - 1)) as [|_]; [lia|reflexivity].
      * intros h Hh. replace h with i by lia. congruence.
    + right. eexists i, _. repeat split; try lia; exact Hb.
  - destruct fuel as [|fuel]; try lia.
    cbn [blocks_list_loop]. destruct (Z.leb_spec last_height i) as [_|]; [|lia].
    destruct (getBlockByHash N (getBlockIdByHeight N i)) as [blk|] eqn:Hb.
    + destruct (Z.eqb_spec i 0) as [Hz|Hnz]; [lia|].
      rewrite wrap32_small by lia.
      destruct (IH fuel (i - 1)
                  (blocks ++ [blocks_list_short L N i (getBlockIdByHeight N i) blk]))
        as [(bs & Heq & Hh & Hall)|(h & msg & Hh & Hnone & Heq)]; try lia.
      * left. exists (blocks_list_short L N i (getBlockIdByHeight N i) blk :: bs).
        rewrite Heq, <- app_assoc. split; [reflexivity|]. split.
        -- rewrite heights_down_S. simpl. rewrite Hh. reflexivity.
        -- intros h Hrange. destruct (Z.eq_dec h i) as [->|Hne]; [congruence|].
           apply Hall. lia.
      * right. exists h, msg. repeat split; try lia; assumption.
    + right. eexists i, _. repeat split; try lia; exact Hb.
Qed.

(** C10. For a height below the height of the chain the loop terminates:
    32 rounds of fuel are enough. Whenever the handler returns, its
    response lists exactly [min (height + 1) 31] blocks, at the heights
    [height], [height - 1], ... in this order; it returns when the
    engine retrieves every block of the range, and raises the internal
    error when it fails to. *)
Theorem f_on_blocks_list_json_count (fuel : nat) (req : request) :
  0 <= height req < get_current_blockchain_height N ->
  get_current_blockchain_height N <= 2 ^ 32 ->
  (32 <= fuel)%nat ->
  exists o,
    f_on_blocks_list_json L N fuel req = Some o /\
    (forall flag res, o = Ret (flag, res) ->
       flag = true /\ status res = "OK" /\
       Z.of_nat (length (blocks res)) = Z.min (height req + 1) 31 /\
       map bs_height (blocks res) =
         heights_down (height req) (Z.to_nat (Z.min (height req + 1) 31))) /\
    ((forall h, 0 <= h <= height req ->
        getBlockByHash N (getBlockIdByHeight N h) <> None) ->
     exists res, o = Ret (true, res)) /\
    ((exists h, height req - 30 <= h <= height req /\ 0 <= h /\
                getBlockByHash N (getBlockIdByHeight N h) = None) ->
     exists msg, o = Throw {| code := CORE_RPC_ERROR_CODE_INTERNAL_ERROR;
                              message := msg |}).
Proof.
  intros [Hpos Hlt] Hmax Hfuel. unfold f_on_blocks_list_json.
  destruct (Z.leb_spec (get_current_blockchain_height N) (height req)) as [|_]; [lia|].
  rewrite (wrap32_small (height req)) by lia.
  set (last_height := if height req <=? 30 then 0 else wrap32 (height req - 30)).
  set (n := Z.to_nat (Z.min (height req + 1) 31)).
  assert (Hlast : last_height = Z.max 0 (height req - 30)).
  { unfold last_height. destruct (Z.leb_spec (height req) 30); [lia|].
    rewrite wrap32_small by lia. lia. }
  assert (Hn : n = S (Z.to_nat (height req - last_height))) by lia.
  destruct (blocks_list_loop_rounds last_height ltac:(lia)
              (Z.to_nat (height req - last_height)) fuel (height req) [])
    as [(bs & Heq & Hh & Hall)|(h & msg & Hh & Hnone & Heq)]; try lia.
  - rewrite Heq. eexists. split; [reflexivity|]. split; [|split].
    + intros flag res [= <- <-]. cbn [status blocks app].
      split; [reflexivity|]. split; [reflexivity|]. rewrite Hn. split; [|exact Hh].
      rewrite <- (length_map bs_height), Hh. unfold heights_down.
      rewrite length_map, length_seq. lia.
    + intros _. eexists. reflexivity.
    + intros (h & Hrange & Hh0 & Hnone). destruct (Hall h ltac:(lia) Hnone).
  - rewrite Heq. eexists. split; [reflexivity|]. split; [|split].
    + discriminate.
    + intros Hall. destruct (Hall h ltac:(lia) Hnone).
    + intros _. exists msg. reflexivity.
Qed.

End BlocksListFacts.

Lemma f_on_blocks_list_json_count_witness :
  exists res,
    f_on_blocks_list_json Fixture.lib (Fixture.node false false true) 32
      {| F_COMMAND_RPC_GET_BLOCKS_LIST.height := 40 |} = Some (Ret (true, res)) /\
    Z.of_nat (length (F_COMMAND_RPC_GET_BLOCKS_LIST.blocks res)) = 31 /\
    map bs_height (F_COMMAND_RPC_GET_BLOCKS_LIST.blocks res) = heights_down 40 31.
Proof.
  destruct (f_on_blocks_list_json_count Fixture.lib (Fixture.node false false true) 32
              {| F_COMMAND_RPC_GET_BLOCKS_LIST.height := 40 |})
    as (o & Heq & Hret & Hall & _).
  - simpl. lia.
  - simpl. lia.
  - lia.
  - destruct Hall as [res ->]; [intros h _; simpl; discriminate|].
    exists res. split; [exact Heq|].
    destruct (Hret true res eq_refl) as (_ & _ & Hlen & Hheights).
    split; [exact Hlen|exact Hheights].
Defined.

(** ** The handlers on the example node *)

Example slow_memmem_first_of_two :
  Memmem.slow_memmem 8 [] [Byte.x01; Byte.x02; Byte.x03; Byte.x02; Byte.x03]
    [Byte.x02; Byte.x03] = Some 1.
Proof. reflexivity. Qed.

Example slow_memmem_absent :
  Memmem.slow_memmem 8 [Byte.x02; Byte.x03] [Byte.x01; Byte.x02; Byte.x04; Byte.x02]
    [Byte.x02; Byte.x03] = Some 0.
Proof. reflexivity. Qed.

(** An occurrence at the start of the buffer reads as no occurrence. *)
Example slow_memmem_at_start :
  Memmem.slow_memmem 8 [] [Byte.x02; Byte.x03; Byte.x01] [Byte.x02; Byte.x03] = Some 0.
Proof. reflexivity. Qed.

Example getblocktemplate_on_example_node :
  exists res,
    on_getblocktemplate Fixture.lib (Fixture.node false false true) 64
      {| COMMAND_RPC_GETBLOCKTEMPLATE.reserve_size := 4;
         COMMAND_RPC_GETBLOCKTEMPLATE.wallet_address := "K" |} = Some (Ret (true, res)) /\
    COMMAND_RPC_GETBLOCKTEMPLATE.reserved_offset res = 3 + 32 + 3 /\
    String.length (COMMAND_RPC_GETBLOCKTEMPLATE.blocktemplate_blob res) = (2 * 42)%nat.
Proof. eexists. split; [vm_compute; reflexivity|]. split; reflexivity. Qed.

Example getblocktemplate_too_big_reserve :
  on_getblocktemplate Fixture.lib (Fixture.node false false true) 64
    {| COMMAND_RPC_GETBLOCKTEMPLATE.reserve_size := 256;
       COMMAND_RPC_GETBLOCKTEMPLATE.wallet_address := "K" |} =
  Some (Throw {| code := CORE_RPC_ERROR_CODE_TOO_BIG_RESERVE_SIZE;
                 message := "To big reserved size, maximum 255" |}).
Proof. reflexivity. Qed.

Example get_blocks_from_genesis :
  run (on_get_blocks Fixture.lib (Fixture.node false false true)
         {| COMMAND_RPC_GET_BLOCKS_FAST.block_ids := [Fixture.payment_id; Fixture.genesis_id] |}) =
    (Some (true, {| COMMAND_RPC_GET_BLOCKS_FAST.blocks := [];
                    COMMAND_RPC_GET_BLOCKS_FAST.start_height := 0;
                    COMMAND_RPC_GET_BLOCKS_FAST.current_height := 100;
                    COMMAND_RPC_GET_BLOCKS_FAST.status := "OK" |}),
     [EvGetBlockIdByHeight 0;
      EvFindBlockchainSupplement [Fixture.payment_id; Fixture.genesis_id] 500]).
Proof. vm_compute. reflexivity. Qed.

Example submitblock_accepted :
  on_submitblock Fixture.lib (Fixture.node false false true) ["01"] =
    Ret (true, {| COMMAND_RPC_SUBMITBLOCK.status := "OK" |}).
Proof. reflexivity. Qed.

Example submitblock_wrong_blob :
  on_submitblock Fixture.lib (Fixture.node false false true) ["0g"] =
    Throw {| code := CORE_RPC_ERROR_CODE_WRONG_BLOCKBLOB; message := "Wrong block blob" |}.
Proof. reflexivity. Qed.

Example check_tx_key_on_example_node :
  exists res,
    k_on_check_tx_key Fixture.lib (Fixture.node false false true)
      {| K_COMMAND_RPC_CHECK_TX_KEY.txid := Fixture.hex_encode Fixture.payment_id;
         K_COMMAND_RPC_CHECK_TX_KEY.txkey := Fixture.hex_encode Fixture.tx_secret;
         K_COMMAND_RPC_CHECK_TX_KEY.address := "K" |} = Ret (true, res) /\
    K_COMMAND_RPC_CHECK_TX_KEY.amount res = 600 /\
    length (K_COMMAND_RPC_CHECK_TX_KEY.outputs res) = 1%nat.
Proof. eexists. split; [vm_compute; reflexivity|]. split; reflexivity. Qed.

Example processRequest_busy :
  run (processRequest (Fixture.node false false false) (fun _ _ r => mret (true, r))
         {| getUrl := "/getblocks.bin"; getBody := "" |}
         {| HttpResponse.status := STATUS_200; HttpResponse.body := "";
            HttpResponse.headers := [] |}) =
    ({| HttpResponse.status := STATUS_500; HttpResponse.body := "Core is busy";
        HttpResponse.headers := [] |},
     [EvIsTestnet; EvIsSynchronized]).
Proof. vm_compute. reflexivity. Qed.

Example processRequest_allowed_when_busy :
  run (processRequest (Fixture.node false false false) (fun _ _ r => mret (true, r))
         {| getUrl := "/getinfo"; getBody := "" |}
         {| HttpResponse.status := STATUS_200; HttpResponse.body := "";
            HttpResponse.headers := [] |}) =
    ({| HttpResponse.status := STATUS_200; HttpResponse.body := "";
        HttpResponse.headers := [] |},
     [EvHandler "/getinfo"]).
Proof. vm_compute. reflexivity. Qed.

Example start_mining_unrestricted :
  run (on_start_mining (Fixture.node false false true)
         {| COMMAND_RPC_START_MINING.miner_address := "K";
            COMMAND_RPC_START_MINING.threads_count := 2 |}) =
    ((true, {| COMMAND_RPC_START_MINING.status := "OK" |}),
     [EvParseAccountAddressString "K"; EvMinerStart Fixture.recipient 2]).
Proof. reflexivity. Qed.

Example blocks_list_near_genesis :
  exists res,
    f_on_blocks_list_json Fixture.lib (Fixture.node false false true) 32
      {| F_COMMAND_RPC_GET_BLOCKS_LIST.height := 3 |} = Some (Ret (true, res)) /\
    map bs_height (F_COMMAND_RPC_GET_BLOCKS_LIST.blocks res) = [3; 2; 1; 0].
Proof. eexists. split; [vm_compute; reflexivity|]. reflexivity. Qed.

Example blocks_list_too_big_height :
  exists msg,
    f_on_blocks_list_json Fixture.lib (Fixture.node false false true) 32
      {| F_COMMAND_RPC_GET_BLOCKS_LIST.height := 100 |} =
    Some (Throw {| code := CORE_RPC_ERROR_CODE_TOO_BIG_HEIGHT; message := msg |}).
Proof. eexists. reflexivity. Qed.

(** * Further properties of the code *)

(** ** slow_memmem *)

Section MemmemMore.
Import Memmem.

Lemma search_result_unique blob pat r1 r2 :
  search_result blob pat r1 -> search_result blob pat r2 -> r1 = r2.
Proof.
  intros [[Hn1 ->]|(p1 & Hp1 & ->)] [[Hn2 ->]|(p2 & Hp2 & ->)].
  - reflexivity.
  - destruct (Hn1 p2). apply Hp2.
  - destruct (Hn2 p1). apply Hp1.
  - rewrite (first_occurrence_unique _ _ _ _ Hp1 Hp2). reflexivity.
Qed.

(** X1. The answer of [slow_memmem] depends neither on the bytes that
    follow the buffer, which its [memchr] can read, nor on the fuel beyond
    the length of the buffer. *)
Theorem slow_memmem_ignores_memory_after
    (after1 after2 blob pat : list byte) (fuel1 fuel2 : nat) :
  pat <> [] ->
  (length blob < fuel1)%nat -> (length blob < fuel2)%nat ->
  slow_memmem fuel1 after1 blob pat = slow_memmem fuel2 after2 blob pat /\
  slow_memmem fuel1 after1 blob pat <> None.
Proof.
  intros Hne H1 H2.
  destruct (slow_memmem_spec after1 blob pat fuel1 Hne H1) as (r1 & -> & Hr1).
  destruct (slow_memmem_spec after2 blob pat fuel2 Hne H2) as (r2 & -> & Hr2).
  rewrite (search_result_unique _ _ _ _ Hr1 Hr2). split; [reflexivity|discriminate].
Qed.

(** X2. The answer of [slow_memmem] is 0 or the offset of an occurrence
    that lies within the buffer; a pattern longer than the buffer, and so
    any pattern on an empty buffer, gives 0. *)
Theorem slow_memmem_in_bounds (after blob pat : list byte) (fuel : nat) :
  pat <> [] ->
  (length blob < fuel)%nat ->
  Z.of_nat (length blob) < 2 ^ 64 ->
  exists r,
    slow_memmem fuel after blob pat = Some r /\
    (r = 0 \/
     (0 < r /\ r + Z.of_nat (length pat) <= Z.of_nat (length blob) /\
      firstn (length pat) (skipn (Z.to_nat r) blob) = pat)) /\
    ((length blob < length pat)%nat -> r = 0).
Proof.
  intros Hne Hfuel Hsize.
  destruct (slow_memmem_spec after blob pat fuel Hne Hfuel) as (r & Heq & Hr).
  exists r. split; [exact Heq|].
  destruct Hr as [[Hnone ->]|(p & [[Hin Hocc] Hmin] & ->)].
  - split; [left; reflexivity|reflexivity].
  - rewrite wrap64_small by lia. split.
    + destruct p as [|p]; [left; reflexivity|right].
      rewrite Nat2Z.id. repeat split; try lia. exact Hocc.
    + intros Hlong. lia.
Qed.

End MemmemMore.

Lemma slow_memmem_ignores_memory_after_witness :
  Memmem.slow_memmem 6 [Byte.x07; Byte.x08] [Byte.x01; Byte.x07; Byte.x08] [Byte.x07; Byte.x08]
  = Memmem.slow_memmem 4 [] [Byte.x01; Byte.x07; Byte.x08] [Byte.x07; Byte.x08].
Proof.
  apply (slow_memmem_ignores_memory_after [Byte.x07; Byte.x08] []
           [Byte.x01; Byte.x07; Byte.x08] [Byte.x07; Byte.x08] 6 4).
  - discriminate.
  - simpl. lia.
  - simpl. lia.
Defined.

Lemma slow_memmem_in_bounds_witness :
  exists r,
    Memmem.slow_memmem 4 [Byte.x07] [Byte.x01; Byte.x07] [Byte.x07; Byte.x07; Byte.x07] = Some r /\
    (r = 0 \/
     (0 < r /\ r + 3 <= 2 /\
      firstn 3 (skipn (Z.to_nat r) [Byte.x01; Byte.x07]) = [Byte.x07; Byte.x07; Byte.x07])) /\
    ((2 < 3)%nat -> r = 0).
Proof.
  apply (slow_memmem_in_bounds [Byte.x07] [Byte.x01; Byte.x07]
           [Byte.x07; Byte.x07; Byte.x07] 4).
  - discriminate.
  - simpl. lia.
  - simpl. lia.
Defined.

(** ** getblocktemplate: what is checked first, and a request without
    reserve *)

Section GetBlockTemplateMore.
Import COMMAND_RPC_GETBLOCKTEMPLATE.
Variable L : Lib.
Variable N : Node.

(** X3. A reserve above 255 bytes is refused with the too-big-reserve
    error before anything else is looked at: whatever the address, the
    engine and the fuel. An empty wallet address is refused with the
    wrong-address error without the parser being asked: the answer is the
    same on a node whose parser accepts every text. *)
Theorem on_getblocktemplate_refusals (fuel : nat) (req : request) :
  (TX_EXTRA_NONCE_MAX_COUNT < reserve_size req ->
   on_getblocktemplate L N fuel req =
     Some (Throw {| code := CORE_RPC_ERROR_CODE_TOO_BIG_RESERVE_SIZE;
                    message := "To big reserved size, maximum 255" |})) /\
  (reserve_size req <= TX_EXTRA_NONCE_MAX_COUNT -> wallet_address req = "" ->
   on_getblocktemplate L N fuel req =
     Some (Throw {| code := CORE_RPC_ERROR_CODE_WRONG_WALLET_ADDRESS;
                    message := "Failed to parse wallet address" |})) /\
  (reserve_size req <= TX_EXTRA_NONCE_MAX_COUNT -> wallet_address req <> "" ->
   parseAccountAddressString N (wallet_address req) = None ->
   on_getblocktemplate L N fuel req =
     Some (Throw {| code := CORE_RPC_ERROR_CODE_WRONG_WALLET_ADDRESS;
                    message := "Failed to parse wallet address" |})).
Proof.
  unfold on_getblocktemplate, getblocktemplate_candidate. split; [|split].
  - intros Hbig. destruct (Z.ltb_spec TX_EXTRA_NONCE_MAX_COUNT (reserve_size req)); [|lia].
    reflexivity.
  - intros Hok Hempty.
    destruct (Z.ltb_spec TX_EXTRA_NONCE_MAX_COUNT (reserve_size req)); [lia|].
    rewrite Hempty. reflexivity.
  - intros Hok Hne Hparse.
    destruct (Z.ltb_spec TX_EXTRA_NONCE_MAX_COUNT (reserve_size req)); [lia|].
    cbn [negb require mbind Outcome_bind].
    destruct (wallet_address req) as [|c rest]; [congruence|].
    cbn [String.length Nat.eqb]. rewrite Hparse. reflexivity.
Qed.


End GetBlockTemplateMore.


(** ** get_blocks: the accepted locator *)

Section GetBlocksMore.
Import COMMAND_RPC_GET_BLOCKS_FAST.
Variable L : Lib.
Variable N : Node.

Lemma get_blocks_loop_all (cbs : Hash -> CompleteBlock) supplement :
  forall acc tr,
    (forall id, In id supplement ->
       have_block N id = true /\ getBlock N id = Some (cbs id)) ->
    get_blocks_loop L N supplement acc tr =
      (Some (acc ++ map (fun id => complete_entry L (cbs id)) supplement),
       tr ++ flat_map (fun id => [EvHaveBlock id; EvGetBlock id]) supplement).
Proof.
  induction supplement as [|id rest IH]; intros acc tr Hall.
  - simpl. rewrite !app_nil_r. reflexivity.
  - destruct (Hall id (or_introl eq_refl)) as [Hhave Hget].
    cbn [get_blocks_loop]. rewrite traced_bind_call, Hhave, traced_bind_call, Hget.
    rewrite IH by (intros id' Hin; apply Hall; right; exact Hin).
    simpl. rewrite <- !app_assoc. reflexivity.
Qed.

(** X5. For a locator that ends at the genesis id, the response lists one
    entry per id of the supplement the engine computed, in the order of the
    supplement, each with the serialized block and its serialized
    transactions; the heights are the ones the engine reported; and the
    calls are the genesis lookup, the search, then for each id of the
    supplement the presence test and the retrieval. *)
Theorem on_get_blocks_supplement (req : request) (cbs : Hash -> CompleteBlock)
    (supplement : list Hash) (totalBlockCount startBlockIndex : Z) :
  block_ids req <> [] ->
  List.last (block_ids req) [] = getBlockIdByHeight N 0 ->
  findBlockchainSupplement N (block_ids req) (COMMAND_RPC_GET_BLOCKS_FAST_MAX_COUNT N)
    = (supplement, totalBlockCount, startBlockIndex) ->
  (forall id, In id supplement ->
     have_block N id = true /\ getBlock N id = Some (cbs id)) ->
  run (on_get_blocks L N req) =
    (Some (true,
           {| blocks := map (fun id => complete_entry L (cbs id)) supplement;
              start_height := startBlockIndex;
              current_height := totalBlockCount;
              status := "OK" |}),
     [EvGetBlockIdByHeight 0;
      EvFindBlockchainSupplement (block_ids req) (COMMAND_RPC_GET_BLOCKS_FAST_MAX_COUNT N)]
       ++ flat_map (fun id => [EvHaveBlock id; EvGetBlock id]) supplement).
Proof.
  intros Hne Hlast Hfind Hall. unfold on_get_blocks, run.
  destruct (block_ids req) as [|x ids] eqn:Hids; [congruence|].
  rewrite traced_bind_call.
  assert (Heq : bytes_eqb (List.last (x :: ids) []) (getBlockIdByHeight N 0) = true)
    by (apply bytes_eqb_eq; exact Hlast).
  rewrite Heq. cbn [negb]. rewrite traced_bind_call, Hfind.
  unfold mbind at 1, Traced_bind at 1.
  rewrite (get_blocks_loop_all cbs) by exact Hall. reflexivity.
Qed.

End GetBlocksMore.

Lemma on_get_blocks_supplement_witness :
  run (on_get_blocks Fixture.lib Fixture2.syncing_node
         {| COMMAND_RPC_GET_BLOCKS_FAST.block_ids := [Fixture.genesis_id] |}) =
    (Some (true,
           {| COMMAND_RPC_GET_BLOCKS_FAST.blocks :=
                map (fun id => complete_entry Fixture.lib (Fixture2.complete_block id))
                    Fixture2.supplement;
              COMMAND_RPC_GET_BLOCKS_FAST.start_height := 1;
              COMMAND_RPC_GET_BLOCKS_FAST.current_height := 100;
              COMMAND_RPC_GET_BLOCKS_FAST.status := "OK" |}),
     [EvGetBlockIdByHeight 0; EvFindBlockchainSupplement [Fixture.genesis_id] 500]
       ++ flat_map (fun id => [EvHaveBlock id; EvGetBlock id]) Fixture2.supplement).
Proof.
  apply (on_get_blocks_supplement Fixture.lib Fixture2.syncing_node
           {| COMMAND_RPC_GET_BLOCKS_FAST.block_ids := [Fixture.genesis_id] |}
           Fixture2.complete_block Fixture2.supplement 100 1).
  - simpl. discriminate.
  - reflexivity.
  - reflexivity.
  - intros id _. split; reflexivity.
Defined.

(** ** gettransactions: well-formed and malformed requests *)

Section GetTransactionsMore.
Import COMMAND_RPC_GET_TRANSACTIONS.
Variable L : Lib.
Variable N : Node.

Lemma reinterpret_Hash_exact (b : BinaryArray) :
  length b = 32%nat -> reinterpret_Hash b = Some b.
Proof.
  intros Hlen. unfold reinterpret_Hash, sizeof_Hash.
  destruct (Z.ltb_spec (Z.of_nat (length b)) 32) as [Hshort|_]; [lia|].
  f_equal. rewrite <- Hlen. apply firstn_all.
Qed.

Lemma parse_txs_hashes_exact hashes : forall decoded vh st,
  Forall2 (fun text b => fromHex L text = Some b /\ length b = 32%nat) hashes decoded ->
  parse_txs_hashes L hashes vh st = Some (inr (vh ++ decoded, st)).
Proof.
  induction hashes as [|text rest IH]; intros decoded vh st Hall;
    inversion Hall as [|? b ? decoded' [Hb Hlen] Hrest]; subst; cbn [parse_txs_hashes].
  - rewrite app_nil_r. reflexivity.
  - rewrite Hb, (reinterpret_Hash_exact b Hlen).
    unfold sizeof_Hash. rewrite Hlen. cbn [Z.of_nat Z.eqb negb Pos.of_succ_nat].
    rewrite (IH decoded' _ st Hrest), <- app_assoc. reflexivity.
Qed.

(** X6. When every string of the request decodes to 32 bytes, the engine
    is asked for exactly the decoded hashes, in the order of the request;
    the bytes that follow the decoding buffers in memory play no part, the
    status is never touched before the final [OK], and the answer carries
    the found transactions as text and the missed ids as text. *)
Theorem on_get_transactions_well_formed (req : request) (decoded : list Hash) :
  Forall2 (fun text b => fromHex L text = Some b /\ length b = 32%nat)
    (txs_hashes req) decoded ->
  parse_txs_hashes L (txs_hashes req) [] "" = Some (inr (decoded, ""%string)) /\
  on_get_transactions L N req =
    Some (true,
          {| txs_as_hex :=
               map (fun tx => toHex L (toBinaryArray_Transaction L tx))
                   (fst (getTransactions N decoded false));
             missed_tx := map (podToHex L) (snd (getTransactions N decoded false));
             status := "OK" |}).
Proof.
  intros Hall.
  pose proof (parse_txs_hashes_exact _ _ [] ""%string Hall) as Hloop.
  simpl in Hloop. split; [exact Hloop|].
  unfold on_get_transactions. rewrite Hloop.
  destruct (getTransactions N decoded false). reflexivity.
Qed.

(** X7. A string that is not hexadecimal rejects the whole request when
    every string before it that decodes gives at least the 32 bytes of a
    hash: the status names the parse failure, no transaction and no missed
    id is reported, and the handler still returns [true]. What stands
    after the string plays no part. *)
Theorem on_get_transactions_bad_hex (req : request) (before after : list string)
    (bad : string) :
  txs_hashes req = before ++ bad :: after ->
  Forall (fun text => forall b, fromHex L text = Some b ->
                                sizeof_Hash <= Z.of_nat (length b)) before ->
  fromHex L bad = None ->
  on_get_transactions L N req =
    Some (true,
          {| txs_as_hex := []; missed_tx := [];
             status := "Failed to parse hex representation of transaction hash" |}).
Proof.
  intros Hreq Hsizes Hbad. unfold on_get_transactions. rewrite Hreq.
  assert (Hloop : forall vh st,
            parse_txs_hashes L (before ++ bad :: after) vh st =
              Some (inl "Failed to parse hex representation of transaction hash"%string)).
  { clear Hreq. induction before as [|text rest IH]; intros vh st; cbn [app parse_txs_hashes].
    - rewrite Hbad. reflexivity.
    - inversion Hsizes as [|? ? Htext Hrest]; subst.
      destruct (fromHex L text) as [b|] eqn:Hb; [|reflexivity].
      unfold reinterpret_Hash.
      destruct (Z.ltb_spec (Z.of_nat (length b)) sizeof_Hash) as [Hshort|_].
      + specialize (Htext b eq_refl). lia.
      + apply IH. exact Hrest. }
  rewrite Hloop. reflexivity.
Qed.

End GetTransactionsMore.

Lemma on_get_transactions_well_formed_witness :
  parse_txs_hashes Fixture.lib
    [Fixture.hex_encode Fixture.payment_id; Fixture.hex_encode Fixture.genesis_id] [] ""
    = Some (inr ([Fixture.payment_id; Fixture.genesis_id], ""%string)).
Proof.
  apply (on_get_transactions_well_formed Fixture.lib (Fixture.node false false true)
           {| COMMAND_RPC_GET_TRANSACTIONS.txs_hashes :=
                [Fixture.hex_encode Fixture.payment_id;
                 Fixture.hex_encode Fixture.genesis_id] |}
           [Fixture.payment_id; Fixture.genesis_id]).
  repeat constructor.
Defined.

Lemma on_get_transactions_bad_hex_witness :
  on_get_transactions Fixture.lib (Fixture.node false false true)
    {| COMMAND_RPC_GET_TRANSACTIONS.txs_hashes :=
         [Fixture.hex_encode Fixture.payment_id; "xyz"; "abcd"] |} =
    Some (true,
          {| COMMAND_RPC_GET_TRANSACTIONS.txs_as_hex := [];
             COMMAND_RPC_GET_TRANSACTIONS.missed_tx := [];
             COMMAND_RPC_GET_TRANSACTIONS.status :=
               "Failed to parse hex representation of transaction hash" |}).
Proof.
  apply (on_get_transactions_bad_hex Fixture.lib (Fixture.node false false true)
           {| COMMAND_RPC_GET_TRANSACTIONS.txs_hashes :=
                [Fixture.hex_encode Fixture.payment_id; "xyz"; "abcd"] |}
           [Fixture.hex_encode Fixture.payment_id] ["abcd"] "xyz").
  - reflexivity.
  - constructor; [|constructor].
    intros b Hb. vm_compute in Hb. injection Hb as <-. vm_compute. discriminate.
  - reflexivity.
Defined.

(** ** The mixin of a transaction *)

Section MixinFacts.
Variable L : Lib.
Variable N : Node.

Lemma mixin_fold ins : forall m0, 0 <= m0 ->
  let m := fold_left
             (fun mixin txin =>
                match txin with
                | KeyInput _ outputIndexes _ =>
                    if mixin <? Z.of_nat (length outputIndexes)
                    then Z.of_nat (length outputIndexes) else mixin
                | _ => mixin
                end) ins m0 in
  m0 <= m /\ (forall txin, In txin ins -> ring_size txin <= m) /\
  (m = m0 \/ exists txin, In txin ins /\ m = ring_size txin).
Proof.
  induction ins as [|txin rest IH]; intros m0 Hm0; cbn [fold_left]; cbv zeta in *.
  - split; [lia|]. split; [intros t []|left; reflexivity].
  - set (m1 := match txin with
               | KeyInput _ outputIndexes _ =>
                   if m0 <? Z.of_nat (length outputIndexes)
                   then Z.of_nat (length outputIndexes) else m0
               | _ => m0
               end).
    assert (Hm1 : m0 <= m1 /\ ring_size txin <= m1 /\ (m1 = m0 \/ m1 = ring_size txin)).
    { unfold m1. destruct txin as [i|a idx k|a c i]; simpl; try lia.
      destruct (Z.ltb_spec m0 (Z.of_nat (length idx))); lia. }
    destruct Hm1 as (Hle & Hring & Hcase).
    destruct (IH m1 ltac:(lia)) as (Hge & Hall & Hatt).
    split; [lia|]. split.
    + intros t [<-|Hin]; [lia|apply Hall; exact Hin].
    + destruct Hatt as [->|(t & Hin & ->)].
      * destruct Hcase as [-> | ->]; [left; reflexivity|].
        right. exists txin. split; [left; reflexivity|reflexivity].
      * right. exists t. split; [right; exact Hin|reflexivity].
Qed.

(** X8. [f_getMixin] always reports success, and the mixin is the largest
    ring size among the key inputs of the transaction: no key input has
    more output indexes, and the mixin is 0 or the number of output indexes
    of one of the inputs. *)
Theorem f_getMixin_is_max_ring_size (transaction : Transaction) :
  fst (f_getMixin transaction) = true /\
  (forall a outputIndexes k,
     In (KeyInput a outputIndexes k) (inputs transaction) ->
     Z.of_nat (length outputIndexes) <= snd (f_getMixin transaction)) /\
  (snd (f_getMixin transaction) = 0 \/
   exists a outputIndexes k,
     In (KeyInput a outputIndexes k) (inputs transaction) /\
     snd (f_getMixin transaction) = Z.of_nat (length outputIndexes)).
Proof.
  unfold f_getMixin. cbn [fst snd].
  destruct (mixin_fold (inputs transaction) 0 ltac:(lia)) as (Hge & Hall & Hatt).
  split; [reflexivity|]. split.
  - intros a idx k Hin. apply (Hall (KeyInput a idx k) Hin).
  - destruct Hatt as [->|(t & Hin & Heq)]; [left; reflexivity|].
    destruct t as [i|a idx k|a c i]; simpl in Heq; try (left; exact Heq).
    right. exists a, idx, k. split; [exact Hin|exact Heq].
Qed.

End MixinFacts.

(** ** Block headers and block ids *)

Section BlockHeadersFacts.
Variable L : Lib.
Variable N : Node.

(** X9. For a height below the height of the chain, when the engine
    retrieves the block, the header carries the requested height,
    the id of the main chain at that height, a depth of
    [current height - height - 1], which lies between 0 and the height of
    the chain, and is never marked orphan. *)
Theorem on_get_block_header_by_height_main_chain
    (req : COMMAND_RPC_GET_BLOCK_HEADER_BY_HEIGHT.request) (blk : Block) :
  let h := COMMAND_RPC_GET_BLOCK_HEADER_BY_HEIGHT.height req in
  0 <= h < get_current_blockchain_height N ->
  get_current_blockchain_height N <= 2 ^ 32 ->
  getBlockByHash N (getBlockIdByHeight N h) = Some blk ->
  exists res,
    on_get_block_header_by_height L N req = Ret (true, res) /\
    COMMAND_RPC_GET_BLOCK_HEADER_BY_HEIGHT.status res = "OK" /\
    let header := COMMAND_RPC_GET_BLOCK_HEADER_BY_HEIGHT.block_header res in
    bh_orphan_status header = false /\
    bh_height header = h /\
    bh_hash header = podToHex L (getBlockIdByHeight N h) /\
    bh_depth header = get_current_blockchain_height N - h - 1 /\
    0 <= bh_depth header < get_current_blockchain_height N.
Proof.
  intros h [Hpos Hlt] Hmax Hblk. unfold on_get_block_header_by_height. fold h.
  destruct (Z.leb_spec (get_current_blockchain_height N) h) as [|_]; [lia|].
  rewrite (wrap32_small h) by lia. rewrite Hblk.
  eexists. split; [reflexivity|]. cbn.
  assert (Hself : bytes_eqb (getBlockIdByHeight N h) (getBlockIdByHeight N h) = true)
    by (apply bytes_eqb_eq; reflexivity).
  rewrite Hself. rewrite wrap64_small by lia.
  repeat split; try reflexivity; lia.
Qed.

Lemma on_get_block_header_by_height_too_big
    (req : COMMAND_RPC_GET_BLOCK_HEADER_BY_HEIGHT.request) :
  get_current_blockchain_height N <= COMMAND_RPC_GET_BLOCK_HEADER_BY_HEIGHT.height req ->
  exists msg,
    on_get_block_header_by_height L N req =
      Throw {| code := CORE_RPC_ERROR_CODE_TOO_BIG_HEIGHT; message := msg |}.
Proof.
  intros Hbig. unfold on_get_block_header_by_height.
  destruct (Z.leb_spec (get_current_blockchain_height N)
              (COMMAND_RPC_GET_BLOCK_HEADER_BY_HEIGHT.height req)); [|lia].
  eexists. reflexivity.
Qed.

(** X10. [on_get_block_header_by_hash] takes the height from the coinbase
    input of the block, not from the chain, and marks the header orphan
    exactly when the main chain has another id at that height. *)
Theorem on_get_block_header_by_hash_orphan
    (req : COMMAND_RPC_GET_BLOCK_HEADER_BY_HASH.request) (block_hash : Hash)
    (blk : Block) (blockIndex : Z) (rest : list TransactionInput) :
  parse_hash256 L (COMMAND_RPC_GET_BLOCK_HEADER_BY_HASH.hash req) = Some block_hash ->
  getBlockByHash N block_hash = Some blk ->
  inputs (baseTransaction blk) = BaseInput blockIndex :: rest ->
  0 <= blockIndex < 2 ^ 32 ->
  exists res,
    on_get_block_header_by_hash L N req = Ret (true, res) /\
    let header := COMMAND_RPC_GET_BLOCK_HEADER_BY_HASH.block_header res in
    bh_height header = blockIndex /\
    bh_hash header = podToHex L block_hash /\
    (bh_orphan_status header = true <-> getBlockIdByHeight N blockIndex <> block_hash) /\
    (bh_orphan_status header = false <-> getBlockIdByHeight N blockIndex = block_hash).
Proof.
  intros Hparse Hblk Hbase Hidx. unfold on_get_block_header_by_hash.
  rewrite Hparse. cbn [require_some mbind Outcome_bind]. rewrite Hblk.
  cbn [require_some mbind Outcome_bind]. rewrite Hbase.
  cbn [mbind Outcome_bind mret Outcome_ret]. rewrite wrap32_small by lia.
  eexists. split; [reflexivity|]. cbn.
  split; [reflexivity|]. split; [reflexivity|].
  destruct (bytes_eqb block_hash (getBlockIdByHeight N blockIndex)) eqn:Heq; cbn.
  - apply bytes_eqb_eq in Heq. split; split; congruence.
  - assert (Hne : block_hash <> getBlockIdByHeight N blockIndex).
    { intros Hc. apply bytes_eqb_eq in Hc. congruence. }
    split; split; congruence.
Qed.

(** X11. [on_getblockhash] reads its parameter as a [uint32_t]: two
    heights that differ by a multiple of [2^32] get the same answer, error
    message included. A parameter list that is not of one element is
    refused with the wrong-parameter error. *)
Theorem on_getblockhash_truncates (height k : Z) (req : list Z) :
  on_getblockhash L N [height + k * 2 ^ 32] = on_getblockhash L N [height] /\
  (length req <> 1%nat ->
   on_getblockhash L N req =
     Throw {| code := CORE_RPC_ERROR_CODE_WRONG_PARAM;
              message := "Wrong parameters, expected height" |}).
Proof.
  split.
  - unfold on_getblockhash, wrap32. rewrite Z_mod_plus_full. reflexivity.
  - intros Hlen. destruct req as [|a [|b rest]]; try reflexivity. simpl in Hlen. lia.
Qed.

End BlockHeadersFacts.

Lemma on_get_block_header_by_height_main_chain_witness :
  exists res,
    on_get_block_header_by_height Fixture.lib (Fixture.node false false true)
      {| COMMAND_RPC_GET_BLOCK_HEADER_BY_HEIGHT.height := 42 |} = Ret (true, res) /\
    bh_depth (COMMAND_RPC_GET_BLOCK_HEADER_BY_HEIGHT.block_header res) = 100 - 42 - 1.
Proof.
  destruct (on_get_block_header_by_height_main_chain Fixture.lib
              (Fixture.node false false true)
              {| COMMAND_RPC_GET_BLOCK_HEADER_BY_HEIGHT.height := 42 |}
              (Fixture.block_at 42))
    as (res & Heq & _ & _ & _ & _ & Hdepth & _).
  - simpl. lia.
  - simpl. lia.
  - reflexivity.
  - exists res. split; [exact Heq|exact Hdepth].
Defined.

Lemma on_get_block_header_by_hash_orphan_witness :
  exists res,
    on_get_block_header_by_hash Fixture.lib (Fixture.node false false true)
      {| COMMAND_RPC_GET_BLOCK_HEADER_BY_HASH.hash :=
           Fixture.hex_encode Fixture.coinbase_id |} = Ret (true, res) /\
    bh_height (COMMAND_RPC_GET_BLOCK_HEADER_BY_HASH.block_header res) = 7.
Proof.
  destruct (on_get_block_header_by_hash_orphan Fixture.lib (Fixture.node false false true)
              {| COMMAND_RPC_GET_BLOCK_HEADER_BY_HASH.hash :=
                   Fixture.hex_encode Fixture.coinbase_id |}
              Fixture.coinbase_id (Fixture.block_at 34) 7 [])
    as (res & Heq & Hh & _).
  - reflexivity.
  - reflexivity.
  - reflexivity.
  - lia.
  - exists res. split; [exact Heq|exact Hh].
Defined.

Example on_get_block_header_by_hash_orphan_example :
  exists res,
    on_get_block_header_by_hash Fixture.lib (Fixture.node false false true)
      {| COMMAND_RPC_GET_BLOCK_HEADER_BY_HASH.hash :=
           Fixture.hex_encode Fixture.coinbase_id |} = Ret (true, res) /\
    bh_orphan_status (COMMAND_RPC_GET_BLOCK_HEADER_BY_HASH.block_header res) = true.
Proof. eexists. split; [vm_compute; reflexivity|reflexivity]. Qed.

(** ** sendrawtransaction: what is relayed *)

Section SendRawTxFacts.
Import COMMAND_RPC_SEND_RAW_TX.
Variable L : Lib.
Variable C : Collaborators.

(** X12. [on_send_raw_tx] always returns [true]; it hands a transaction to
    the relay exactly when it answers the status [OK], and then it relays
    once, the decoded blob of the request alone, after the engine handled
    it, did not fail its verification and marked it to be relayed. *)
Theorem on_send_raw_tx_relays_iff_ok (req : request) :
  let '((result, res), relayed) := on_send_raw_tx L C req in
  result = true /\
  (relayed <> [] <-> status res = "OK") /\
  (relayed <> [] ->
   exists tx_blob,
     fromHex L (tx_as_hex req) = Some tx_blob /\
     relayed = [ {| NOTIFY_NEW_TRANSACTIONS.txs := [tx_blob] |} ] /\
     fst (handle_incoming_tx C tx_blob) = true /\
     tx_verification_context.m_verification_failed
       (snd (handle_incoming_tx C tx_blob)) = false /\
     tx_verification_context.m_should_be_relayed
       (snd (handle_incoming_tx C tx_blob)) = true).
Proof.
  unfold on_send_raw_tx.
  destruct (fromHex L (tx_as_hex req)) as [tx_blob|] eqn:Hhex.
  - destruct (handle_incoming_tx C tx_blob) as [handled tvc] eqn:Hhandle.
    destruct handled; cbn [negb];
      [|split; [reflexivity|]; split; [split; [congruence|discriminate]|congruence]].
    destruct (tx_verification_context.m_verification_failed tvc) eqn:Hfailed;
      [split; [reflexivity|]; split; [split; [congruence|discriminate]|congruence]|].
    destruct (tx_verification_context.m_should_be_relayed tvc) eqn:Hrelay; cbn [negb];
      [|split; [reflexivity|]; split; [split; [congruence|discriminate]|congruence]].
    destruct (negb (String.length (m_fee_address C) =? 0)%nat
              && negb (bytes_eqb (m_view_key C) NULL_SECRET_KEY)
              && negb (masternode_check_incoming_tx C tx_blob));
      [split; [reflexivity|]; split; [split; [congruence|discriminate]|congruence]|].
    split; [reflexivity|]. split; [split; [reflexivity|discriminate]|].
    intros _. exists tx_blob. rewrite Hhandle. cbn [fst snd].
    repeat split; reflexivity || assumption.
  - split; [reflexivity|]. split; [split; [congruence|discriminate]|congruence].
Qed.

(** X13. A request that is answered [OK] relays its decoded blob; and with
    a fee address and a view key configured, that happens only for a
    transaction that parses and in which the scan of the outputs finds a
    nonzero amount paid to the fee account of the node. *)
Theorem on_send_raw_tx_fee_gate (req : request) (tx_blob : BinaryArray) :
  fromHex L (tx_as_hex req) = Some tx_blob ->
  status (snd (fst (on_send_raw_tx L C req))) = "OK" ->
  (m_fee_address C <> "" -> m_view_key C <> NULL_SECRET_KEY ->
   exists transaction out amount,
     parseAndValidateTransactionFromBinaryArray C tx_blob = Some transaction /\
     findOutputsToAccount C transaction (m_fee_acc C) (m_view_key C) = Some (out, amount) /\
     amount <> 0) /\
  snd (on_send_raw_tx L C req) = [ {| NOTIFY_NEW_TRANSACTIONS.txs := [tx_blob] |} ].
Proof.
  intros Hhex. unfold on_send_raw_tx. rewrite Hhex.
  destruct (handle_incoming_tx C tx_blob) as [handled tvc].
  destruct handled; cbn [negb]; [|discriminate].
  destruct (tx_verification_context.m_verification_failed tvc); [discriminate|].
  destruct (tx_verification_context.m_should_be_relayed tvc); cbn [negb]; [|discriminate].
  destruct (negb (String.length (m_fee_address C) =? 0)%nat
            && negb (bytes_eqb (m_view_key C) NULL_SECRET_KEY)
            && negb (masternode_check_incoming_tx C tx_blob)) eqn:Hgate; [discriminate|].
  intros _. split; [|reflexivity].
  intros Haddr Hkey.
  assert (Hlen : (String.length (m_fee_address C) =? 0)%nat = false).
  { destruct (m_fee_address C); [congruence|reflexivity]. }
  assert (Hnull : bytes_eqb (m_view_key C) NULL_SECRET_KEY = false).
  { destruct (bytes_eqb (m_view_key C) NULL_SECRET_KEY) eqn:Heq; [|reflexivity].
    apply bytes_eqb_eq in Heq. congruence. }
  rewrite Hlen, Hnull in Hgate. cbn [negb andb] in Hgate.
  apply negb_false_iff in Hgate. unfold masternode_check_incoming_tx in Hgate.
  destruct (parseAndValidateTransactionFromBinaryArray C tx_blob) as [transaction|]
    eqn:Hparse; [|discriminate].
  destruct (findOutputsToAccount C transaction (m_fee_acc C) (m_view_key C))
    as [[out amount]|] eqn:Hfind; [|discriminate].
  exists transaction, out, amount.
  split; [reflexivity|]. split; [exact Hfind|].
  apply negb_true_iff, Z.eqb_neq in Hgate. exact Hgate.
Qed.

End SendRawTxFacts.

Lemma on_send_raw_tx_fee_gate_witness :
  snd (on_send_raw_tx Fixture.lib (Fixture2.collaborators "Kfee" Fixture.view_secret)
         {| COMMAND_RPC_SEND_RAW_TX.tx_as_hex := "01" |}) =
    [ {| NOTIFY_NEW_TRANSACTIONS.txs := [[Byte.x01]] |} ].
Proof.
  apply (on_send_raw_tx_fee_gate Fixture.lib
           (Fixture2.collaborators "Kfee" Fixture.view_secret)
           {| COMMAND_RPC_SEND_RAW_TX.tx_as_hex := "01" |} [Byte.x01]);
    reflexivity.
Defined.

Example on_send_raw_tx_without_fee :
  on_send_raw_tx Fixture.lib (Fixture2.collaborators "Kfee" Fixture.view_secret)
    {| COMMAND_RPC_SEND_RAW_TX.tx_as_hex := "02" |} =
    ((true, {| COMMAND_RPC_SEND_RAW_TX.status := "Not relayed due to lack of node fee" |}),
     []).
Proof. reflexivity. Qed.

Example on_send_raw_tx_gate_not_configured :
  on_send_raw_tx Fixture.lib (Fixture2.collaborators "Kfee" NULL_SECRET_KEY)
    {| COMMAND_RPC_SEND_RAW_TX.tx_as_hex := "02" |} =
    ((true, {| COMMAND_RPC_SEND_RAW_TX.status := "OK" |}),
     [ {| NOTIFY_NEW_TRANSACTIONS.txs := [[Byte.x02]] |} ]).
Proof. reflexivity. Qed.

(** ** get_pool_changes: a transaction that does not serialize *)

Section PoolChangesFacts.
Import COMMAND_RPC_GET_POOL_CHANGES.
Variable C : Collaborators.

Lemma pool_changes_loop_prefix txs : forall added st,
  (exists blobs,
     pool_changes_loop C txs added st = (added ++ blobs, st) /\
     map Some blobs = map (toBinaryArray_checked C) txs) \/
  (exists blobs before tx after,
     pool_changes_loop C txs added st = (added ++ blobs, "Internal error"%string) /\
     txs = before ++ tx :: after /\
     toBinaryArray_checked C tx = None /\
     map Some blobs = map (toBinaryArray_checked C) before).
Proof.
  induction txs as [|tx rest IH]; intros added st; cbn [pool_changes_loop].
  - left. exists []. rewrite app_nil_r. split; reflexivity.
  - destruct (toBinaryArray_checked C tx) as [txBlob|] eqn:Hblob.
    + destruct (IH (added ++ [txBlob]) st)
        as [(blobs & Heq & Hmap)|(blobs & before & bad & after & Heq & Hsplit & Hbad & Hmap)].
      * left. exists (txBlob :: blobs). rewrite Heq, <- app_assoc.
        split; [reflexivity|]. cbn [map]. rewrite Hblob, Hmap. reflexivity.
      * right. exists (txBlob :: blobs), (tx :: before), bad, after.
        rewrite Heq, <- app_assoc, Hsplit.
        repeat split; try assumption. cbn [map]. rewrite Hblob, Hmap. reflexivity.
    + right. exists [], [], tx, rest. rewrite app_nil_r. repeat split. exact Hblob.
Qed.

(** X14. [onGetPoolChanges] always returns [true] and always passes on the
    tail-block flag and the deleted ids of the engine. The added
    transactions it reports are the serializations, in order, of the
    transactions the engine added, up to the first one that does not
    serialize: with the status [OK] they are all there, with the status
    [Internal error] the response still carries the ones before the failing
    transaction. *)
Theorem onGetPoolChanges_partial (req : request) (actual : bool)
    (addedTransactions : list Transaction) (deleted : list Hash) :
  getPoolChanges C (tailBlockId req) (knownTxsIds req)
    = (actual, addedTransactions, deleted) ->
  let '(result, rsp) := onGetPoolChanges C req in
  result = true /\
  isTailBlockActual rsp = actual /\
  deletedTxsIds rsp = deleted /\
  ((status rsp = "OK" /\
    map Some (addedTxs rsp) = map (toBinaryArray_checked C) addedTransactions) \/
   (status rsp = "Internal error" /\
    exists before tx after,
      addedTransactions = before ++ tx :: after /\
      toBinaryArray_checked C tx = None /\
      map Some (addedTxs rsp) = map (toBinaryArray_checked C) before)).
Proof.
  intros Hengine. unfold onGetPoolChanges. rewrite Hengine.
  destruct (pool_changes_loop_prefix addedTransactions [] CORE_RPC_STATUS_OK)
    as [(blobs & -> & Hmap)|(blobs & before & bad & after & -> & Hsplit & Hbad & Hmap)];
    cbn [app]; (split; [reflexivity|]); (split; [reflexivity|]);
    (split; [reflexivity|]).
  - left. split; [reflexivity|exact Hmap].
  - right. split; [reflexivity|]. exists before, bad, after. auto.
Qed.

End PoolChangesFacts.

Lemma onGetPoolChanges_partial_witness :
  let '(result, rsp) :=
    onGetPoolChanges (Fixture2.collaborators "" NULL_SECRET_KEY)
      {| COMMAND_RPC_GET_POOL_CHANGES.tailBlockId := Fixture.genesis_id;
         COMMAND_RPC_GET_POOL_CHANGES.knownTxsIds := [] |} in
  result = true /\
  COMMAND_RPC_GET_POOL_CHANGES.isTailBlockActual rsp = false /\
  COMMAND_RPC_GET_POOL_CHANGES.deletedTxsIds rsp = [Fixture.coinbase_id] /\
  ((COMMAND_RPC_GET_POOL_CHANGES.status rsp = "OK" /\
    map Some (COMMAND_RPC_GET_POOL_CHANGES.addedTxs rsp) =
      map (toBinaryArray_checked (Fixture2.collaborators "" NULL_SECRET_KEY))
          [Fixture.payment_tx; Fixture2.bare_tx; Fixture.cheap_tx]) \/
   (COMMAND_RPC_GET_POOL_CHANGES.status rsp = "Internal error" /\
    exists before tx after,
      [Fixture.payment_tx; Fixture2.bare_tx; Fixture.cheap_tx] = before ++ tx :: after /\
      toBinaryArray_checked (Fixture2.collaborators "" NULL_SECRET_KEY) tx = None /\
      map Some (COMMAND_RPC_GET_POOL_CHANGES.addedTxs rsp) =
        map (toBinaryArray_checked (Fixture2.collaborators "" NULL_SECRET_KEY)) before)).
Proof.
  apply (onGetPoolChanges_partial (Fixture2.collaborators "" NULL_SECRET_KEY)
           {| COMMAND_RPC_GET_POOL_CHANGES.tailBlockId := Fixture.genesis_id;
              COMMAND_RPC_GET_POOL_CHANGES.knownTxsIds := [] |}
           false [Fixture.payment_tx; Fixture2.bare_tx; Fixture.cheap_tx]
           [Fixture.coinbase_id]).
  reflexivity.
Defined.

Example onGetPoolChanges_keeps_the_first :
  onGetPoolChanges (Fixture2.collaborators "" NULL_SECRET_KEY)
    {| COMMAND_RPC_GET_POOL_CHANGES.tailBlockId := Fixture.genesis_id;
       COMMAND_RPC_GET_POOL_CHANGES.knownTxsIds := [] |} =
    (true,
     {| COMMAND_RPC_GET_POOL_CHANGES.isTailBlockActual := false;
        COMMAND_RPC_GET_POOL_CHANGES.addedTxs := [extra Fixture.payment_tx];
        COMMAND_RPC_GET_POOL_CHANGES.deletedTxsIds := [Fixture.coinbase_id];
        COMMAND_RPC_GET_POOL_CHANGES.status := "Internal error" |}).
Proof. reflexivity. Qed.

(** ** verifymessage: the form of a signature *)

Section VerifyMessageFacts.
Variable L : Lib.
Variable N : Node.
Variable C : Collaborators.

Lemma substring_all (s : string) : String.substring 0 (String.length s) s = s.
Proof. induction s as [|c s IH]; cbn; [reflexivity|]. rewrite IH. reflexivity. Qed.

Lemma substring_none (s : string) : String.substring 0 0 s = ""%string.
Proof. destruct s; reflexivity. Qed.

(** The header test passes exactly on the texts that start with [SigV1],
    and then the text handed to the Base58 decoder is the rest. *)
Lemma signature_header (s : string) :
  ((String.length s <? String.length "SigV1")%nat
   || negb (String.eqb (String.substring 0 (String.length "SigV1") s) "SigV1")) = false
  <-> exists rest, s = ("SigV1" +:+ rest)%string.
Proof.
  split.
  - destruct s as [|c1 [|c2 [|c3 [|c4 [|c5 rest]]]]]; try discriminate.
    cbn [String.length Nat.ltb Nat.leb orb String.substring].
    rewrite substring_none. intros Heq.
    apply negb_false_iff, String.eqb_eq in Heq. injection Heq as -> -> -> -> ->.
    exists rest. reflexivity.
  - intros [rest ->]. cbn. destruct rest; reflexivity.
Qed.

Lemma substr_from_header (rest : string) :
  substr_from (String.length "SigV1") ("SigV1" +:+ rest) = rest.
Proof.
  unfold substr_from.
  unfold String.append. cbn [String.length Nat.sub String.substring].
  rewrite Nat.sub_0_r. apply substring_all.
Qed.

Lemma header_rest_inj (a b : string) :
  ("SigV1" +:+ a)%string = ("SigV1" +:+ b)%string -> a = b.
Proof.
  intros H. apply (f_equal (substr_from (String.length "SigV1"))) in H.
  rewrite !substr_from_header in H. exact H.
Qed.

(** X15. [on_verify_message] returns exactly for a request whose address
    parses and whose signature is the text [SigV1] followed by a text that
    the Base58 decoder turns into 64 bytes; its verdict is then the check
    of those 64 bytes against the hash of the message and the public spend
    key of the address. Every other request is refused with the
    wrong-parameter error. *)
Theorem on_verify_message_form (req : COMMAND_RPC_VERIFY_MESSAGE.request) :
  (forall r, on_verify_message L N C req = Ret r <->
     exists acc rest decoded,
       parseAccountAddressString N (COMMAND_RPC_VERIFY_MESSAGE.address req) = Some acc /\
       COMMAND_RPC_VERIFY_MESSAGE.signature req = ("SigV1" +:+ rest)%string /\
       Base58_decode C rest = Some decoded /\
       length decoded = 64%nat /\
       r = (true,
            {| COMMAND_RPC_VERIFY_MESSAGE.sig_valid :=
                 check_signature C
                   (cn_fast_hash L
                      (String.list_byte_of_string (COMMAND_RPC_VERIFY_MESSAGE.message req)))
                   (spendPublicKey acc) decoded;
               COMMAND_RPC_VERIFY_MESSAGE.status := "OK" |})) /\
  ((exists r, on_verify_message L N C req = Ret r) \/
   (exists msg, on_verify_message L N C req =
      Throw {| code := CORE_RPC_ERROR_CODE_WRONG_PARAM; message := msg |})).
Proof.
  unfold on_verify_message.
  destruct (parseAccountAddressString N (COMMAND_RPC_VERIFY_MESSAGE.address req))
    as [acc|] eqn:Hacc; cbn [require_some mbind Outcome_bind].
  2:{ split; [|right; eexists; reflexivity].
      intros r. split; [discriminate|]. intros (a & rest & d & Hc & _). discriminate. }
  destruct ((String.length (COMMAND_RPC_VERIFY_MESSAGE.signature req)
               <? String.length "SigV1")%nat
            || negb (String.eqb
                       (String.substring 0 (String.length "SigV1")
                          (COMMAND_RPC_VERIFY_MESSAGE.signature req)) "SigV1"))
    eqn:Hheader; cbn [negb require mbind Outcome_bind].
  { split; [|right; eexists; reflexivity].
    intros r. split; [discriminate|]. intros (a & rest & d & _ & Hsig & _).
    assert (Hpass : exists rest, COMMAND_RPC_VERIFY_MESSAGE.signature req
                                 = ("SigV1" +:+ rest)%string) by (exists rest; exact Hsig).
    apply signature_header in Hpass. congruence. }
  apply signature_header in Hheader as [rest Hrest]. rewrite Hrest, substr_from_header.
  destruct (Base58_decode C rest) as [decoded|] eqn:Hdec.
  2:{ cbn [require_some mbind Outcome_bind]. split; [|right; eexists; reflexivity].
      intros r. split; [discriminate|]. intros (a & rest' & d & _ & Hsig & Hd & _).
      apply header_rest_inj in Hsig as <-. congruence. }
  unfold sizeof_Signature.
  destruct (Z.eqb_spec (Z.of_nat (length decoded)) 64) as [Hlen|Hlen];
    cbn [require_some mbind Outcome_bind mret Outcome_ret].
  - split; [|left; eexists; reflexivity].
    intros r. split.
    + intros [= <-]. exists acc, rest, decoded.
      repeat split; try reflexivity; try assumption. lia.
    + intros (a & rest' & d & [= <-] & Hsig & Hd & _ & ->).
      apply header_rest_inj in Hsig as <-. rewrite Hdec in Hd. injection Hd as <-. reflexivity.
  - split; [|right; eexists; reflexivity].
    intros r. split; [discriminate|].
    intros (a & rest' & d & _ & Hsig & Hd & Hl & _).
    apply header_rest_inj in Hsig as <-. rewrite Hdec in Hd. injection Hd as <-. lia.
Qed.

End VerifyMessageFacts.

Example on_verify_message_without_header :
  on_verify_message Fixture.lib (Fixture.node false false true)
    (Fixture2.collaborators "" NULL_SECRET_KEY)
    {| COMMAND_RPC_VERIFY_MESSAGE.message := "hello";
       COMMAND_RPC_VERIFY_MESSAGE.address := "K";
       COMMAND_RPC_VERIFY_MESSAGE.signature := "sigv1abcd" |} =
    Throw {| code := CORE_RPC_ERROR_CODE_WRONG_PARAM;
             message := "Signature header check error" |}.
Proof. reflexivity. Qed.

Example on_verify_message_accepts :
  on_verify_message Fixture.lib (Fixture.node false false true)
    (Fixture2.collaborators "" NULL_SECRET_KEY)
    {| COMMAND_RPC_VERIFY_MESSAGE.message := "hello";
       COMMAND_RPC_VERIFY_MESSAGE.address := "K";
       COMMAND_RPC_VERIFY_MESSAGE.signature :=
         "SigV1" +:+ Fixture.hex_encode (Fixture.spend_public ++ repeat Byte.x00 32) |} =
    Ret (true, {| COMMAND_RPC_VERIFY_MESSAGE.sig_valid := true;
                  COMMAND_RPC_VERIFY_MESSAGE.status := "OK" |}).
Proof. vm_compute. reflexivity. Qed.

(** ** The operator methods outside restricted mode *)

Section OperatorFacts.
Variable N : Node.
Variable char_of_code : ErrorCode -> Ascii.ascii.

(** X16. [on_stop_daemon] sends the stop signal exactly on an unrestricted
    test network, and that is the only case in which it returns [true] and
    answers [OK]: on the main network the daemon cannot be stopped through
    this method, restricted or not. *)
Theorem on_stop_daemon_testnet_only :
  let '((result, res), calls) := run (on_stop_daemon N char_of_code) in
  (In EvSendStopSignal calls <-> m_restricted_rpc N = false /\ isTestnet N = true) /\
  (result = true <-> m_restricted_rpc N = false /\ isTestnet N = true) /\
  (COMMAND_RPC_STOP_DAEMON.status res = "OK"
     <-> m_restricted_rpc N = false /\ isTestnet N = true).
Proof.
  unfold on_stop_daemon, run.
  destruct (m_restricted_rpc N).
  - cbn. repeat split; try tauto; try discriminate; intros [H _]; discriminate.
  - rewrite traced_bind_call. destruct (isTestnet N); cbn.
    + repeat split; auto. intros _. right. left. reflexivity.
    + split; [|split].
      * split; [intros [H|[]]; discriminate|intros [_ H]; discriminate].
      * split; [discriminate|intros [_ H]; discriminate].
      * split; [discriminate|intros [_ H]; discriminate].
Qed.

(** X17. Outside restricted mode [on_start_mining] always returns [true].
    It starts the miner exactly when the address parses, once, with the
    parsed address and the thread count of the request, and it answers
    [OK] exactly when the miner then reports to have started. *)
Theorem on_start_mining_unrestricted (req : COMMAND_RPC_START_MINING.request) :
  m_restricted_rpc N = false ->
  let '((result, res), calls) := run (on_start_mining N req) in
  let address := COMMAND_RPC_START_MINING.miner_address req in
  let threads := COMMAND_RPC_START_MINING.threads_count req in
  result = true /\
  (forall adr, parseAccountAddressString N address = Some adr ->
     calls = [EvParseAccountAddressString address; EvMinerStart adr threads]) /\
  (parseAccountAddressString N address = None ->
     calls = [EvParseAccountAddressString address] /\
     COMMAND_RPC_START_MINING.status res = "Failed, wrong address") /\
  (COMMAND_RPC_START_MINING.status res = "OK" <->
     exists adr, parseAccountAddressString N address = Some adr /\
                 miner_start N adr threads = true).
Proof.
  intros Hr. unfold on_start_mining, run. rewrite Hr, traced_bind_call.
  destruct (parseAccountAddressString N (COMMAND_RPC_START_MINING.miner_address req))
    as [adr|].
  - rewrite traced_bind_call.
    destruct (miner_start N adr (COMMAND_RPC_START_MINING.threads_count req)) eqn:Hstart;
      cbn.
    + repeat split; try discriminate.
      * intros a [= <-]. reflexivity.
      * intros _. exists adr. split; [reflexivity|exact Hstart].
    + repeat split; try discriminate.
      * intros a [= <-]. reflexivity.
      * intros (a & [= <-] & Hc). congruence.
  - cbn. repeat split; try discriminate. intros (a & Hc & _). discriminate.
Qed.

End OperatorFacts.

Lemma on_start_mining_unrestricted_witness :
  let '((result, res), calls) :=
    run (on_start_mining (Fixture.node false false true)
           {| COMMAND_RPC_START_MINING.miner_address := "K";
              COMMAND_RPC_START_MINING.threads_count := 2 |}) in
  result = true /\
  (forall adr, parseAccountAddressString (Fixture.node false false true) "K" = Some adr ->
     calls = [EvParseAccountAddressString "K"; EvMinerStart adr 2]) /\
  (parseAccountAddressString (Fixture.node false false true) "K" = None ->
     calls = [EvParseAccountAddressString "K"] /\
     COMMAND_RPC_START_MINING.status res = "Failed, wrong address") /\
  (COMMAND_RPC_START_MINING.status res = "OK" <->
     exists adr, parseAccountAddressString (Fixture.node false false true) "K" = Some adr /\
                 miner_start (Fixture.node false false true) adr 2 = true).
Proof.
  apply (on_start_mining_unrestricted (Fixture.node false false true)
           {| COMMAND_RPC_START_MINING.miner_address := "K";
              COMMAND_RPC_START_MINING.threads_count := 2 |}).
  reflexivity.
Defined.

(** ** What a node that is not ready serves *)

Section BusyNode.
Variable N : Node.
Hypothesis not_testnet : isTestnet N = false.
Hypothesis not_synchronized : isSynchronized N = false.

Lemma s_handlers_busy url :
  In url busy_paths ->
  exists h, s_handlers !! url = Some {| handler := h; allowBusyCore := true |}.
Proof.
  intros H. unfold busy_paths in H.
  repeat (destruct H as [<-|H]; [eexists; reflexivity|]). destruct H.
Qed.

Lemma s_handlers_gated url :
  In url gated_paths ->
  exists h, s_handlers !! url = Some {| handler := h; allowBusyCore := false |}.
Proof.
  intros H. unfold gated_paths in H.
  repeat (destruct H as [<-|H]; [eexists; reflexivity|]). destruct H.
Qed.

Lemma s_handlers_unknown url :
  ~ In url busy_paths -> ~ In url gated_paths -> s_handlers !! url = None.
Proof.
  intros Hb Hg. unfold s_handlers. apply not_elem_of_list_to_map_1.
  rewrite list_elem_of_In. cbn. cbn in Hb, Hg. tauto.
Qed.

(** X18. On a node that is neither a test network nor synchronized, the
    method table serves seven paths: node information, height, fee address,
    peers, payment id, stop_daemon and the JSON-RPC endpoint, whose handler
    runs without the readiness being asked. The eleven other paths of the
    table answer 500 with [Core is busy], and every other URL answers
    404. *)
Theorem processRequest_on_busy_node (bound : BoundMethod -> HandlerFunction)
    (request : HttpRequest) (response : HttpResponse.t) :
  (In (getUrl request) busy_paths ->
   exists h,
     s_handlers !! getUrl request = Some {| handler := h; allowBusyCore := true |} /\
     run (processRequest N bound request response) =
       (let '(_, response', calls) :=
          bound h request response [EvHandler (getUrl request)] in
        (response', calls))) /\
  (In (getUrl request) gated_paths ->
   run (processRequest N bound request response) =
     (HttpResponse.setBody "Core is busy" (HttpResponse.setStatus STATUS_500 response),
      [EvIsTestnet; EvIsSynchronized])) /\
  (~ In (getUrl request) busy_paths -> ~ In (getUrl request) gated_paths ->
   run (processRequest N bound request response) =
     (HttpResponse.setStatus STATUS_404 response, [])).
Proof.
  split; [|split].
  - intros Hin. destruct (s_handlers_busy _ Hin) as [h Hh]. exists h.
    split; [exact Hh|]. unfold processRequest, run. rewrite Hh.
    cbn [allowBusyCore handler]. rewrite traced_bind_ret, traced_bind_call.
    unfold mbind, Traced_bind.
    destruct (bound h request response _) as [[ok response'] calls]. reflexivity.
  - intros Hin. destruct (s_handlers_gated _ Hin) as [h Hh].
    unfold processRequest, run. rewrite Hh. cbn [allowBusyCore handler].
    rewrite traced_bind_bind. unfold mbind at 1, Traced_bind at 1.
    rewrite isCoreReady_run, not_testnet, not_synchronized. reflexivity.
  - intros Hb Hg. unfold processRequest, run.
    rewrite (s_handlers_unknown _ Hb Hg). reflexivity.
Qed.

Variable message_of_code : ErrorCode -> string.
Variable member : JsonMethod -> JsonValue -> Outcome (bool * JsonValue).

Lemma jsonRpcHandlers_busy method :
  In method busy_methods ->
  exists h, jsonRpcHandlers !! method = Some {| handler := h; allowBusyCore := true |}.
Proof.
  intros H. unfold busy_methods in H.
  repeat (destruct H as [<-|H]; [eexists; reflexivity|]). destruct H.
Qed.

Lemma jsonRpcHandlers_gated method :
  In method gated_methods ->
  exists h, jsonRpcHandlers !! method = Some {| handler := h; allowBusyCore := false |}.
Proof.
  intros H. unfold gated_methods in H.
  repeat (destruct H as [<-|H]; [eexists; reflexivity|]). destruct H.
Qed.

Lemma jsonRpcHandlers_unknown method :
  ~ In method busy_methods -> ~ In method gated_methods ->
  jsonRpcHandlers !! method = None.
Proof.
  intros Hb Hg. unfold jsonRpcHandlers. apply not_elem_of_list_to_map_1.
  rewrite list_elem_of_In. cbn. cbn in Hb, Hg. tauto.
Qed.

(** X19. On a node that is neither a test network nor synchronized, the
    JSON-RPC endpoint serves two methods, [getblockcount] and
    [getcurrencyid]; the seventeen other registered methods raise the
    core-busy error without their member function being called, and every
    other method name raises method-not-found. *)
Theorem dispatchJsonRpc_on_busy_node (jsonRequest : JsonRpc.JsonRpcRequest)
    (jsonResponse : JsonRpc.JsonRpcResponse) (calls : list Event) :
  let method := JsonRpc.getMethod jsonRequest in
  let answer := fst (dispatchJsonRpc N message_of_code member jsonRequest jsonResponse calls) in
  (In method busy_methods ->
   exists h,
     jsonRpcHandlers !! method = Some {| handler := h; allowBusyCore := true |} /\
     answer = ('(_, jsonResponse') ←
                 JsonRpc.makeMemberMethod (member h) jsonRequest jsonResponse;
               mret jsonResponse')) /\
  (In method gated_methods ->
   answer = Throw {| code := CORE_RPC_ERROR_CODE_CORE_BUSY; message := "Core is busy" |}) /\
  (~ In method busy_methods -> ~ In method gated_methods ->
   answer = Throw {| code := errMethodNotFound;
                     message := message_of_code errMethodNotFound |}).
Proof.
  intros method answer. unfold answer. rewrite dispatchJsonRpc_fst. fold method.
  split; [|split].
  - intros Hin. destruct (jsonRpcHandlers_busy _ Hin) as [h Hh]. exists h.
    split; [exact Hh|]. rewrite Hh. reflexivity.
  - intros Hin. destruct (jsonRpcHandlers_gated _ Hin) as [h Hh]. rewrite Hh.
    cbn [allowBusyCore handler]. rewrite not_testnet, not_synchronized. reflexivity.
  - intros Hb Hg. rewrite (jsonRpcHandlers_unknown _ Hb Hg). reflexivity.
Qed.

End BusyNode.

Lemma processRequest_on_busy_node_witness :
  run (processRequest (Fixture.node false false false) (fun _ _ r => mret (true, r))
         {| getUrl := "/sendrawtransaction"; getBody := "" |}
         {| HttpResponse.status := STATUS_200; HttpResponse.body := "";
            HttpResponse.headers := [] |}) =
    ({| HttpResponse.status := STATUS_500; HttpResponse.body := "Core is busy";
        HttpResponse.headers := [] |},
     [EvIsTestnet; EvIsSynchronized]).
Proof.
  apply (processRequest_on_busy_node (Fixture.node false false false) eq_refl eq_refl
           (fun _ _ r => mret (true, r))
           {| getUrl := "/sendrawtransaction"; getBody := "" |}
           {| HttpResponse.status := STATUS_200; HttpResponse.body := "";
              HttpResponse.headers := [] |}).
  cbn. tauto.
Defined.

Lemma dispatchJsonRpc_on_busy_node_witness :
  fst (dispatchJsonRpc (Fixture.node false false false) (fun _ => "Method not found")
         (fun _ _ => Ret (true, "100"%string))
         {| JsonRpc.getId := Some "1"; JsonRpc.getMethod := "getblocktemplate";
            JsonRpc.getParams := "{}" |}
         JsonRpc.newResponse []) =
    Throw {| code := CORE_RPC_ERROR_CODE_CORE_BUSY; message := "Core is busy" |}.
Proof.
  apply (dispatchJsonRpc_on_busy_node (Fixture.node false false false) eq_refl eq_refl
           (fun _ => "Method not found") (fun _ _ => Ret (true, "100"%string))
           {| JsonRpc.getId := Some "1"; JsonRpc.getMethod := "getblocktemplate";
              JsonRpc.getParams := "{}" |}
           JsonRpc.newResponse []).
  cbn. tauto.
Defined.

(** ** The HTTP side of the JSON-RPC endpoint *)

Section JsonRpcHttpFacts.
Import JsonRpc.
Variable N : Node.
Variable parseRequest : string -> Outcome JsonRpcRequest.
Variable getBody_response : JsonRpcResponse -> string.
Variable message_of_code : ErrorCode -> string.
Variable member : JsonMethod -> JsonValue -> Outcome (bool * JsonValue).

(** X20. On every path [processJsonRpcRequest] returns [true], leaves the
    HTTP status as it was handed over, and adds to the headers the JSON
    content type and, exactly when a CORS domain is configured, the
    allow-origin header with that domain: errors travel inside the body.
    When the envelope does not parse, the body is the text of a response
    without id and without result that carries the error of the parser, and
    nothing is called. *)
Theorem processJsonRpcRequest_http (request : HttpRequest) (response : HttpResponse.t)
    (calls : list Event) :
  let '(result, response', calls') :=
    processJsonRpcRequest N parseRequest getBody_response message_of_code member
      request response calls in
  result = true /\
  HttpResponse.status response' = HttpResponse.status response /\
  HttpResponse.headers response' =
    HttpResponse.headers response ++ [("Content-Type", "application/json")]
      ++ (if decide (m_cors_domain N = "") then []
          else [("Access-Control-Allow-Origin", m_cors_domain N)]) /\
  (forall err, parseRequest (getBody request) = Throw err ->
     HttpResponse.body response' =
       getBody_response {| id := None; result := None; error := Some err |} /\
     calls' = calls).
Proof.
  unfold processJsonRpcRequest, mbind, Traced_bind.
  destruct (jsonRpcResponse_of N parseRequest message_of_code member request calls)
    as [jsonResponse calls'] eqn:Hjson.
  cbn [mret Traced_ret]. split; [reflexivity|].
  split; [destruct (String.length (m_cors_domain N) =? 0)%nat; reflexivity|].
  split.
  - destruct (m_cors_domain N) as [|c rest]; cbn [String.length Nat.eqb].
    + rewrite decide_True by reflexivity. cbn. rewrite ?app_nil_r. reflexivity.
    + rewrite decide_False by discriminate. cbn. rewrite <- ?app_assoc. reflexivity.
  - intros err Hparse. unfold jsonRpcResponse_of in Hjson. rewrite Hparse in Hjson.
    injection Hjson as <- <-.
    split; [|reflexivity].
    destruct (String.length (m_cors_domain N) =? 0)%nat; reflexivity.
Qed.

End JsonRpcHttpFacts.

(** ** The codec wrappers under the dispatcher *)

Section CodecFacts.
Variable N : Node.
Hypothesis ready : isTestnet N = true \/ isSynchronized N = true.

Lemma gated_entry_runs (bound : BoundMethod -> HandlerFunction)
    (request : HttpRequest) (response : HttpResponse.t) (h : BoundMethod) :
  s_handlers !! getUrl request = Some {| handler := h; allowBusyCore := false |} ->
  run (processRequest N bound request response) =
    (let '(_, response', calls) :=
       bound h request response (asked_when_ready N ++ [EvHandler (getUrl request)]) in
     (response', calls)).
Proof.
  intros Hh. unfold processRequest, run, asked_when_ready. rewrite Hh.
  cbn [allowBusyCore handler].
  rewrite traced_bind_bind. unfold mbind at 1, Traced_bind at 1. rewrite isCoreReady_run.
  destruct (isTestnet N) eqn:Ht.
  - cbn. unfold mbind, Traced_bind, call. cbn.
    destruct (bound h request response _) as [[ok response'] calls]. reflexivity.
  - destruct ready as [Hc|Hs]; [discriminate|]. rewrite Hs.
    cbn. unfold mbind, Traced_bind, call. cbn.
    destruct (bound h request response _) as [[ok response'] calls]. reflexivity.
Qed.

(** X21. A request to a gated path of a ready node whose body the codec of
    the path cannot decode gets back the response exactly as it was handed
    over: neither the status nor the body is set, and the member function
    is not called. This holds for the binary and for the JSON wrapper. *)
Theorem undecodable_body_leaves_response {Req Res : Type}
    (bound : BoundMethod -> HandlerFunction)
    (load : string -> option Req) (store : Res -> string) (res0 : Res)
    (member : Req -> Res -> Traced (bool * Res))
    (request : HttpRequest) (response : HttpResponse.t) (h : BoundMethod) :
  s_handlers !! getUrl request = Some {| handler := h; allowBusyCore := false |} ->
  bound h = binMethod load store res0 member \/
  bound h = jsonMethod load store res0 member ->
  load (getBody request) = None ->
  run (processRequest N bound request response) =
    (response, asked_when_ready N ++ [EvHandler (getUrl request)]).
Proof.
  intros Hh Hbound Hload. rewrite (gated_entry_runs bound request response h Hh).
  destruct Hbound as [-> | ->]; unfold binMethod, jsonMethod; rewrite Hload; reflexivity.
Qed.

(** X22. In restricted mode a decodable request to [/start_mining] on a
    ready node is answered with the HTTP status untouched and the body that
    encodes the status [Failed, restricted handle]; the only calls are the
    readiness queries. The failure of the handler does not reach the HTTP
    status. *)
Theorem restricted_start_mining_over_http
    (bound : BoundMethod -> HandlerFunction)
    (load : string -> option COMMAND_RPC_START_MINING.request)
    (store : COMMAND_RPC_START_MINING.response -> string)
    (res0 : COMMAND_RPC_START_MINING.response)
    (request : HttpRequest) (response : HttpResponse.t)
    (req : COMMAND_RPC_START_MINING.request) :
  m_restricted_rpc N = true ->
  getUrl request = "/start_mining" ->
  bound json_on_start_mining = jsonMethod load store res0 (fun req _ => on_start_mining N req) ->
  load (getBody request) = Some req ->
  run (processRequest N bound request response) =
    (HttpResponse.setBody
       (store {| COMMAND_RPC_START_MINING.status := "Failed, restricted handle" |})
       response,
     asked_when_ready N ++ [EvHandler "/start_mining"]).
Proof.
  intros Hr Hurl Hbound Hload.
  rewrite (gated_entry_runs bound request response json_on_start_mining)
    by (rewrite Hurl; reflexivity).
  rewrite Hbound, Hurl. unfold jsonMethod. rewrite Hload.
  unfold on_start_mining. rewrite Hr. reflexivity.
Qed.

End CodecFacts.

Lemma undecodable_body_leaves_response_witness :
  run (processRequest (Fixture.node false false true)
         (fun _ => jsonMethod (fun _ : string => @None COMMAND_RPC_START_MINING.request)
                     COMMAND_RPC_START_MINING.status
                     {| COMMAND_RPC_START_MINING.status := "" |}
                     (fun req _ => on_start_mining (Fixture.node false false true) req))
         {| getUrl := "/start_mining"; getBody := "{" |}
         {| HttpResponse.status := STATUS_200; HttpResponse.body := "";
            HttpResponse.headers := [] |}) =
    ({| HttpResponse.status := STATUS_200; HttpResponse.body := "";
        HttpResponse.headers := [] |},
     [EvIsTestnet; EvIsSynchronized; EvHandler "/start_mining"]).
Proof.
  apply (undecodable_body_leaves_response (Fixture.node false false true)
           (or_intror eq_refl)
           (fun _ => jsonMethod (fun _ : string => @None COMMAND_RPC_START_MINING.request)
                       COMMAND_RPC_START_MINING.status
                       {| COMMAND_RPC_START_MINING.status := "" |}
                       (fun req _ => on_start_mining (Fixture.node false false true) req))
           (fun _ : string => @None COMMAND_RPC_START_MINING.request)
           COMMAND_RPC_START_MINING.status
           {| COMMAND_RPC_START_MINING.status := "" |}
           (fun req _ => on_start_mining (Fixture.node false false true) req)
           {| getUrl := "/start_mining"; getBody := "{" |}
           {| HttpResponse.status := STATUS_200; HttpResponse.body := "";
              HttpResponse.headers := [] |}
           json_on_start_mining).
  - reflexivity.
  - right. reflexivity.
  - reflexivity.
Defined.

Lemma restricted_start_mining_over_http_witness :
  run (processRequest (Fixture.node true false true)
         (fun _ => jsonMethod
                     (fun body => Some {| COMMAND_RPC_START_MINING.miner_address := body;
                                          COMMAND_RPC_START_MINING.threads_count := 1 |})
                     COMMAND_RPC_START_MINING.status
                     {| COMMAND_RPC_START_MINING.status := "" |}
                     (fun req _ => on_start_mining (Fixture.node true false true) req))
         {| getUrl := "/start_mining"; getBody := "K" |}
         {| HttpResponse.status := STATUS_200; HttpResponse.body := "";
            HttpResponse.headers := [] |}) =
    ({| HttpResponse.status := STATUS_200; HttpResponse.body := "Failed, restricted handle";
        HttpResponse.headers := [] |},
     [EvIsTestnet; EvIsSynchronized; EvHandler "/start_mining"]).
Proof.
  apply (restricted_start_mining_over_http (Fixture.node true false true)
           (or_intror eq_refl)
           (fun _ => jsonMethod
                       (fun body => Some {| COMMAND_RPC_START_MINING.miner_address := body;
                                            COMMAND_RPC_START_MINING.threads_count := 1 |})
                       COMMAND_RPC_START_MINING.status
                       {| COMMAND_RPC_START_MINING.status := "" |}
                       (fun req _ => on_start_mining (Fixture.node true false true) req))
           (fun body => Some {| COMMAND_RPC_START_MINING.miner_address := body;
                                COMMAND_RPC_START_MINING.threads_count := 1 |})
           COMMAND_RPC_START_MINING.status
           {| COMMAND_RPC_START_MINING.status := "" |}
           {| getUrl := "/start_mining"; getBody := "K" |}
           {| HttpResponse.status := STATUS_200; HttpResponse.body := "";
              HttpResponse.headers := [] |}
           {| COMMAND_RPC_START_MINING.miner_address := "K";
              COMMAND_RPC_START_MINING.threads_count := 1 |});
    reflexivity.
Defined.

(** ** What a payment proof can contain *)

Section PaymentProofMore.
Variable L : Lib.
Variable N : Node.

Lemma spec_matching_outputs_sublist derivation spend outs : forall index,
  sublist (spec_matching_outputs L derivation spend outs index) outs /\
  Forall (fun o => exists key, target o = KeyOutput key)
    (spec_matching_outputs L derivation spend outs index).
Proof.
  induction outs as [|o rest IH]; intros index; cbn [spec_matching_outputs].
  - split; constructor.
  - destruct (IH (wrap64 (index + 1))) as [Hsub Hkey].
    destruct (target o) as [key|keys n] eqn:Ht.
    + destruct (bytes_eqb (derive_public_key L derivation index spend) key); cbn [app].
      * split; [apply sublist_skip; exact Hsub|].
        constructor; [exists key; exact Ht|exact Hkey].
      * split; [apply sublist_cons; exact Hsub|exact Hkey].
    + cbn [app]. split; [apply sublist_cons; exact Hsub|exact Hkey].
Qed.

Lemma spec_received_amount_range matching : forall received,
  0 <= received < 2 ^ 64 ->
  0 <= spec_received_amount received matching < 2 ^ 64.
Proof.
  unfold spec_received_amount.
  induction matching as [|o rest IH]; intros received Hr; cbn [fold_left]; [exact Hr|].
  apply IH. unfold wrap64. apply Z.mod_pos_bound. lia.
Qed.

(** X23. Whenever [k_on_check_tx_key] returns, the outputs of its proof
    are outputs of the fetched transaction, in the order of the
    transaction and each taken at most once; all of them are key outputs;
    and the amount is their sum in a [uint64_t], so it lies below
    [2^64]. *)
Theorem k_on_check_tx_key_outputs (req : K_COMMAND_RPC_CHECK_TX_KEY.request)
    (ok : bool) (res : K_COMMAND_RPC_CHECK_TX_KEY.response) :
  k_on_check_tx_key L N req = Ret (ok, res) ->
  exists txid tx,
    parse_hash256 L (K_COMMAND_RPC_CHECK_TX_KEY.txid req) = Some txid /\
    fetch_tx N txid = Some tx /\
    sublist (K_COMMAND_RPC_CHECK_TX_KEY.outputs res) (outputs tx) /\
    Forall (fun o => exists key, target o = KeyOutput key)
      (K_COMMAND_RPC_CHECK_TX_KEY.outputs res) /\
    K_COMMAND_RPC_CHECK_TX_KEY.amount res =
      spec_received_amount 0 (K_COMMAND_RPC_CHECK_TX_KEY.outputs res) /\
    0 <= K_COMMAND_RPC_CHECK_TX_KEY.amount res < 2 ^ 64.
Proof.
  unfold k_on_check_tx_key.
  destruct (parse_hash256 L (K_COMMAND_RPC_CHECK_TX_KEY.txid req)) as [txid|] eqn:Hid;
    [|discriminate]. cbn [require_some mbind Outcome_bind].
  destruct (parseAccountAddressString N (K_COMMAND_RPC_CHECK_TX_KEY.address req))
    as [address|]; [|discriminate]. cbn [require_some mbind Outcome_bind].
  destruct (fromHex_pod32 L (K_COMMAND_RPC_CHECK_TX_KEY.txkey req)) as [tx_key|];
    [|discriminate]. cbn [require_some mbind Outcome_bind].
  destruct (fetch_tx N txid) as [tx|] eqn:Hfetch; [|discriminate].
  cbn [require_some mbind Outcome_bind].
  destruct (generate_key_derivation L (viewPublicKey address) tx_key) as [derivation|];
    [|discriminate]. cbn [require_some mbind Outcome_bind].
  rewrite check_tx_key_scan_spec. cbn [app mret Outcome_ret].
  intros [= <- <-]. exists txid, tx. cbn.
  destruct (spec_matching_outputs_sublist derivation (spendPublicKey address) (outputs tx) 0)
    as [Hsub Hkey].
  repeat split; try assumption; try reflexivity;
    apply spec_received_amount_range; lia.
Qed.

End PaymentProofMore.

Lemma k_on_check_tx_key_outputs_witness :
  exists txid tx,
    parse_hash256 Fixture.lib (Fixture.hex_encode Fixture.payment_id) = Some txid /\
    fetch_tx (Fixture.node false false true) txid = Some tx /\
    sublist [ {| amount := 600; target := KeyOutput (repeat Byte.x3d 32) |} ] (outputs tx) /\
    Forall (fun o => exists key, target o = KeyOutput key)
      [ {| amount := 600; target := KeyOutput (repeat Byte.x3d 32) |} ] /\
    600 = spec_received_amount 0
            [ {| amount := 600; target := KeyOutput (repeat Byte.x3d 32) |} ] /\
    0 <= 600 < 2 ^ 64.
Proof.
  apply (k_on_check_tx_key_outputs Fixture.lib (Fixture.node false false true)
           {| K_COMMAND_RPC_CHECK_TX_KEY.txid := Fixture.hex_encode Fixture.payment_id;
              K_COMMAND_RPC_CHECK_TX_KEY.txkey := Fixture.hex_encode Fixture.tx_secret;
              K_COMMAND_RPC_CHECK_TX_KEY.address := "K" |}
           true
           {| K_COMMAND_RPC_CHECK_TX_KEY.amount := 600;
              K_COMMAND_RPC_CHECK_TX_KEY.outputs :=
                [ {| amount := 600; target := KeyOutput (repeat Byte.x3d 32) |} ];
              K_COMMAND_RPC_CHECK_TX_KEY.status := "OK" |}).
  vm_compute. reflexivity.
Defined.

(** ** The block details hang together *)

Section BlockDetailsFacts.
Variable L : Lib.
Variable N : Node.

(** X24. Whenever [f_on_block_json] returns a response, it describes the
    block the engine holds under the id the request names (the id of the
    main chain at that height when the text reads as a number, else the
    parsed id): the reported hash is that id, the height is the block
    index of the coinbase input of that block, the list of transactions
    is the view of its base transaction, whose fee is 0 and whose output
    amount is the reported reward, followed by the views of the
    transactions the engine finds for its transaction hashes; the total
    fee is the sum, in a [uint64_t], of the fees of those views; and the
    effective median is the larger of the median and the full-reward
    zone. *)
Theorem f_on_block_json_consistent (req : F_COMMAND_RPC_GET_BLOCK_DETAILS.request)
    (res : F_COMMAND_RPC_GET_BLOCK_DETAILS.response) :
  f_on_block_json L N req = Ret (Some res) ->
  let details := F_COMMAND_RPC_GET_BLOCK_DETAILS.block res in
  exists hash blk rest,
    match lexical_cast_uint32 L (F_COMMAND_RPC_GET_BLOCK_DETAILS.hash req) with
    | Some height => hash = getBlockIdByHeight N height
    | None => parse_hash256 L (F_COMMAND_RPC_GET_BLOCK_DETAILS.hash req) = Some hash
    end /\
    getBlockByHash N hash = Some blk /\
    bd_hash details = podToHex L hash /\
    inputs (baseTransaction blk) = BaseInput (bd_height details) :: rest /\
    bd_transactions details =
      base_transaction_short L blk
        :: map (block_transaction_short L)
             (fst (getTransactions N (transactionHashes blk) false)) /\
    ts_fee (base_transaction_short L blk) = 0 /\
    ts_amount_out (base_transaction_short L blk) = bd_reward details /\
    bd_reward details = get_block_reward blk /\
    bd_totalFeeAmount details =
      fold_left (fun total t => wrap64 (total + ts_fee t))
        (map (block_transaction_short L)
           (fst (getTransactions N (transactionHashes blk) false))) 0 /\
    bd_effectiveSizeMedian details =
      Z.max (bd_sizeMedian details) (CRYPTONOTE_BLOCK_GRANTED_FULL_REWARD_ZONE N) /\
    F_COMMAND_RPC_GET_BLOCK_DETAILS.status res = "OK".
Proof.
  unfold f_on_block_json.
  assert (Hnamed : forall hash,
            match lexical_cast_uint32 L (F_COMMAND_RPC_GET_BLOCK_DETAILS.hash req) with
            | Some height => mret (getBlockIdByHeight N height)
            | None =>
                require_some (parse_hash256 L (F_COMMAND_RPC_GET_BLOCK_DETAILS.hash req))
                  CORE_RPC_ERROR_CODE_WRONG_PARAM
                  ("Failed to parse hex representation of block hash. Hex = "
                     +:+ F_COMMAND_RPC_GET_BLOCK_DETAILS.hash req +:+ ".")
            end = Ret hash ->
            match lexical_cast_uint32 L (F_COMMAND_RPC_GET_BLOCK_DETAILS.hash req) with
            | Some height => hash = getBlockIdByHeight N height
            | None => parse_hash256 L (F_COMMAND_RPC_GET_BLOCK_DETAILS.hash req) = Some hash
            end).
  { intros hash. destruct (lexical_cast_uint32 L _) as [height|].
    - intros [= <-]. reflexivity.
    - destruct (parse_hash256 L _) as [parsed|]; [|discriminate].
      intros [= <-]. reflexivity. }
  destruct (match lexical_cast_uint32 L _ with Some _ => _ | None => _ end)
    as [hash|e|w]; [|discriminate..]. specialize (Hnamed hash eq_refl).
  cbn [mbind Outcome_bind].
  destruct (getBlockByHash N hash) as [blk|] eqn:Hblk; [|discriminate].
  cbn [require_some mbind Outcome_bind].
  destruct (inputs (baseTransaction blk)) as [|[blockIndex|a o k|a c i] rest] eqn:Hin;
    try discriminate. cbn [mbind Outcome_bind mret Outcome_ret].
  intros [= Hres].
  destruct (getBackwardBlocksSizes N blockIndex _) as [sizes|]; [|discriminate].
  cbn [mbind option_bind] in Hres.
  destruct (getBlockSize N hash) as [blockSize|]; [|discriminate].
  cbn [mbind option_bind] in Hres.
  destruct (getAlreadyGeneratedCoins N hash) as [coins|]; [|discriminate].
  cbn [mbind option_bind] in Hres.
  destruct (getGeneratedTransactionsNumber N blockIndex) as [ntx|]; [|discriminate].
  cbn [mbind option_bind] in Hres.
  destruct (if 0 <? blockIndex then _ else _) as [prev|]; [|discriminate].
  cbn [mbind option_bind] in Hres.
  destruct (getBlockReward N _ _ 0 prev 0) as [[maxReward e1]|]; [|discriminate].
  cbn [mbind option_bind] in Hres.
  destruct (getBlockReward N _ _ blockSize prev 0) as [[currentReward e2]|];
    [|discriminate].
  cbn [mbind option_bind] in Hres.
  destruct (negb _ && _); [discriminate|].
  injection Hres as <-. cbn.
  exists hash, blk, rest.
  split; [exact Hnamed|]. split; [exact Hblk|].
  repeat split; try reflexivity. exact Hin.
Qed.

End BlockDetailsFacts.

Lemma f_on_block_json_consistent_witness :
  exists res,
    f_on_block_json Fixture.lib (Fixture.node false false true)
      {| F_COMMAND_RPC_GET_BLOCK_DETAILS.hash :=
           Fixture.hex_encode Fixture.coinbase_id |} = Ret (Some res) /\
    bd_totalFeeAmount (F_COMMAND_RPC_GET_BLOCK_DETAILS.block res) = 100.
Proof.
  eexists. split; [vm_compute; reflexivity|].
  destruct (f_on_block_json_consistent Fixture.lib (Fixture.node false false true)
              {| F_COMMAND_RPC_GET_BLOCK_DETAILS.hash :=
                   Fixture.hex_encode Fixture.coinbase_id |}
              _ ltac:(vm_compute; reflexivity))
    as (hash & blk & rest & Hhash & Hblk & _ & _ & _ & _ & _ & _ & Htotal & _).
  rewrite Htotal. cbn in Hhash. injection Hhash as <-.
  cbn in Hblk. injection Hblk as <-. reflexivity.
Defined.

(** ** The header of the last block *)

Section LastBlockHeaderFacts.
Variable L : Lib.
Variable N : Node.
Variable C : Collaborators.

(** X25. When the top of the chain the engine reports is the block of the
    main chain at the height just below the height of the chain, and the
    engine retrieves it, [on_get_last_block_header] returns its header
    with that height, the depth 0, and not marked orphan. When the engine
    cannot retrieve the block of the top, the call raises the internal
    error. *)
Theorem on_get_last_block_header_top (top_height : Z) (top_hash : Hash) (blk : Block) :
  get_blockchain_top C = (top_height, top_hash) ->
  0 <= top_height ->
  get_current_blockchain_height N = top_height + 1 ->
  get_current_blockchain_height N <= 2 ^ 32 ->
  getBlockIdByHeight N top_height = top_hash ->
  (getBlockByHash N top_hash = Some blk ->
   exists res,
     on_get_last_block_header L N C = Ret (true, res) /\
     let header := COMMAND_RPC_GET_LAST_BLOCK_HEADER.block_header res in
     bh_height header = top_height /\
     bh_depth header = 0 /\
     bh_orphan_status header = false /\
     bh_hash header = podToHex L top_hash /\
     bh_timestamp header = timestamp blk) /\
  (getBlockByHash N top_hash = None ->
   on_get_last_block_header L N C =
     Throw {| code := CORE_RPC_ERROR_CODE_INTERNAL_ERROR;
              message := "Internal error: can't get last block hash." |}).
Proof.
  intros Htop Hpos Hcur Hmax Hid. unfold on_get_last_block_header. rewrite Htop.
  split.
  - intros Hblk. rewrite Hblk. eexists. split; [reflexivity|]. cbn.
    rewrite Hid, Hcur.
    assert (Hself : bytes_eqb top_hash top_hash = true) by (apply bytes_eqb_eq; reflexivity).
    rewrite Hself. replace (top_height + 1 - top_height - 1) with 0 by lia.
    repeat split; reflexivity.
  - intros Hnone. rewrite Hnone. reflexivity.
Qed.

End LastBlockHeaderFacts.

Lemma on_get_last_block_header_top_witness :
  exists res,
    on_get_last_block_header Fixture.lib (Fixture.node false false true)
      (Fixture2.collaborators "" NULL_SECRET_KEY) = Ret (true, res) /\
    bh_depth (COMMAND_RPC_GET_LAST_BLOCK_HEADER.block_header res) = 0.
Proof.
  destruct (on_get_last_block_header_top Fixture.lib (Fixture.node false false true)
              (Fixture2.collaborators "" NULL_SECRET_KEY)
              99 (repeat (Fixture.byte_of_N 99) 32) (Fixture.block_at 99))
    as [Hret _]; try reflexivity; try (simpl; lia).
  destruct (Hret eq_refl) as (res & Heq & _ & Hdepth & _).
  exists res. split; [exact Heq|exact Hdepth].
Defined.
